(** * capacitor-passkey-demo: the wallet service and the credential-id helpers

    A shallow embedding of [StellarSmartWalletService] (the wallet-service
    source file) and of the base64url helpers of [src/js/utils.ts], with the
    properties the specification states about them.

    JavaScript values are modelled as the code uses them:
    - a [Uint8Array] is a [list byte];
    - a [bigint] is a [Z];
    - a [number] is an IEEE-754 binary64 value, [spec_float] with precision 53
      and maximal exponent 1024;
    - a string is a [string] (the strings that matter here are ASCII or
      "binary strings" whose code units are below 256);
    - a call either returns or throws: [completion]. *)

From Stdlib Require Import ZArith NArith Lia List Bool Strings.Ascii Strings.String Strings.Byte.
From Stdlib Require Import Floats.SpecFloat.
From stdpp Require Import base option list strings gmap.

Open Scope string_scope.
Open Scope list_scope.
Open Scope Z_scope.

(** ** Completions: a call returns a value or throws *)

Module Js.

(** The values the code throws.  [Error msg] is [new Error(msg)]; the others
    are thrown by the platform or by a library the code calls. *)
Inductive error : Type :=
| Error (message : string)
| RangeError
| InvalidCharacterError
| External (what : string).

Inductive completion (A : Type) : Type :=
| Normal (a : A)
| Throw (e : error).
Arguments Normal {A} a.
Arguments Throw {A} e.

Definition throws {A} (c : completion A) : Prop := exists e, c = Throw e.

#[global] Instance completion_ret : MRet completion := fun A a => Normal a.
#[global] Instance completion_bind : MBind completion := fun A B k c =>
  match c with
  | Normal a => k a
  | Throw e => Throw e
  end.

End Js.
Export Js.

(** ** Strings: the few [String.prototype] methods the code uses *)

Module Str.

Fixpoint repeat_char (c : ascii) (n : nat) : string :=
  match n with
  | O => ""
  | S k => String c (repeat_char c k)
  end.

(** [s.padStart(n, c)] and [s.padEnd(n, c)] for a one-character filler. *)
Definition padStart (n : nat) (c : ascii) (s : string) : string :=
  repeat_char c (n - String.length s) +:+ s.

Definition padEnd (n : nat) (c : ascii) (s : string) : string :=
  s +:+ repeat_char c (n - String.length s).

(** [s.replace(/c+$/, '')]: the maximal run of [c] at the end is removed. *)
Fixpoint strip_trailing (c : ascii) (s : string) : string :=
  match s with
  | "" => ""
  | String a r =>
      match strip_trailing c r with
      | "" => if Ascii.eqb a c then "" else String a ""
      | r' => String a r'
      end
  end.

(** [s.replace(/a/g, b)] for single characters. *)
Fixpoint replace_all (a b : ascii) (s : string) : string :=
  match s with
  | "" => ""
  | String x r => String (if Ascii.eqb x a then b else x) (replace_all a b r)
  end.

(** Decimal digits of a natural number, most significant first. *)
Definition digit (d : N) : ascii := ascii_of_N (48 + d).

Fixpoint digits_acc (fuel : nat) (n : N) (acc : string) : string :=
  let acc' := String (digit (n mod 10)) acc in
  match fuel with
  | O => acc'
  | S f => if (n / 10 =? 0)%N then acc' else digits_acc f (n / 10)%N acc'
  end.

Definition of_N (n : N) : string := digits_acc (N.to_nat (N.size n)) n "".

(** [BigInt.prototype.toString()], and [Number.prototype.toString()] on the
    integers below 10^21. *)
Definition of_Z (z : Z) : string :=
  match z with
  | Zneg p => String "-" (of_N (Npos p))
  | _ => of_N (Z.to_N z)
  end.

(** The value of a digit string, [None] when a character is not a digit. *)
Definition digit_value (c : ascii) : option N :=
  let k := N_of_ascii c in
  if ((48 <=? k) && (k <=? 57))%N then Some (k - 48)%N else None.

Fixpoint value_acc (s : string) (acc : N) : option N :=
  match s with
  | "" => Some acc
  | String c r =>
      match digit_value c with
      | Some d => value_acc r (10 * acc + d)%N
      | None => None
      end
  end.

Definition value (s : string) : option N := value_acc s 0%N.

(** Every character of the string satisfies [P]. *)
Fixpoint all_chars (P : ascii -> bool) (s : string) : bool :=
  match s with
  | "" => true
  | String c r => P c && all_chars P r
  end.

(** The last character of a string, if any. *)
Fixpoint last_char (s : string) : option ascii :=
  match s with
  | "" => None
  | String a "" => Some a
  | String _ r => last_char r
  end.

End Str.

(** ** Typed arrays and array buffers *)

Module TypedArray.

(** A [Uint8Array] is a window [byteOffset, byteOffset + byteLength) on an
    [ArrayBuffer] that may be larger than the window. *)
Record Uint8Array : Type := {
  buffer : list byte;
  byteOffset : nat;
  byteLength : nat
}.

(** [buf.slice(start, end)]: both ends are clamped to the buffer. *)
Definition ArrayBuffer_slice (buf : list byte) (start end_ : nat) : list byte :=
  take (end_ - start) (drop start buf).

(** [buf.slice(start)]. *)
Definition ArrayBuffer_slice_from (buf : list byte) (start : nat) : list byte :=
  drop start buf.

(** [new Uint8Array(buf)] over a whole buffer. *)
Definition of_buffer (buf : list byte) : Uint8Array :=
  {| buffer := buf; byteOffset := 0; byteLength := length buf |}.

(** [new DataView(buf).getUint16(byteOffset)], big-endian; a [RangeError]
    when the two bytes are not both inside the buffer. *)
Definition getUint16 (view : list byte) (off : nat) : completion Z :=
  match view !! off, view !! (off + 1)%nat with
  | Some hi, Some lo => Normal (256 * Z.of_N (Byte.to_N hi) + Z.of_N (Byte.to_N lo))
  | _, _ => Throw RangeError
  end.

(** [new Uint8Array(n)]: [n] zero bytes; a length that is [NaN] counts as 0. *)
Definition alloc (n : option nat) : list byte :=
  replicate (default 0%nat n) x00.

(** [target.set(source, offset)]: a [RangeError] when the source does not fit. *)
Definition set (target source : list byte) (offset : nat) : completion (list byte) :=
  if (length target <? length source + offset)%nat then Throw RangeError
  else Normal (take offset target ++ source ++ drop (offset + length source) target).

End TypedArray.
Export TypedArray.

(** ** The COSE key and the key extractor *)

Module Cose.

(** The values a decoded COSE key holds under the labels the extractor reads.
    [CInt n] is the integer [n] as a CBOR integer decodes: to a number, or to
    a bigint when [n] is beyond the safe range; both print in decimal, are
    falsy at zero only and have no [length].  [CBytes b] is a byte string, decoded to a
    [Uint8Array].  [COther] is any other value the CBOR library hands back (a
    text string, an array, a boolean, [null], a number that is not an
    integer or that prints in exponent notation, a tagged value, a map or an
    object), given by what
    the extractor reads from it: whether it is truthy; the elements
    [TypedArray.prototype.set] stores from it when it has a [length]
    (element by element, after [ToNumber] and the conversion to a byte), or
    [None] when its [length] is [undefined]; and its text in a template
    literal.  So the text string "ab" is [COther true (Some [0; 0]) "ab"].
    An object whose [length] is not the number of elements [set] reads from
    it (a [length] that is no non-negative integer) is not represented.  A
    label that is absent reads as [undefined], [None]. *)
Inductive value : Type :=
| CInt (n : Z)
| CBytes (b : list byte)
| COther (truthy : bool) (items : option (list byte)) (text : string).

(** What [cbor.decodeFirstSync] hands back after the [?? result] fallback: a
    [Map], or something that is not a [Map]. *)
Inductive decoded : Type :=
| DMap (m : gmap Z value)
| DOther.

(** What the platform gives and the repository does not define: the text of
    a decoded byte string in a template literal, which is the [toString] of
    the buffer class the CBOR library decodes to. *)
Class Platform : Type := {
  Buffer_toString : list byte -> string
}.

(** [!v] is false. *)
Definition truthy (v : option value) : bool :=
  match v with
  | None => false
  | Some (CInt n) => negb (n =? 0)
  | Some (CBytes _) => true
  | Some (COther t _ _) => t
  end.

(** [v === n] for a number literal [n]. *)
Definition strict_eq_num (v : option value) (n : Z) : bool :=
  match v with
  | Some (CInt k) => k =? n
  | _ => false
  end.

(** [v.length]: [undefined] on a number. *)
Definition length_of (v : option value) : option nat :=
  match v with
  | Some (CBytes b) => Some (length b)
  | Some (COther _ (Some items) _) => Some (length items)
  | _ => None
  end.

(** The elements [TypedArray.prototype.set] copies from [v]: a value without
    a [length] is an array-like without elements. *)
Definition elements (v : option value) : list byte :=
  match v with
  | Some (CBytes b) => b
  | Some (COther _ (Some items) _) => items
  | _ => []
  end.

(** Number addition on lengths, [None] being [NaN]. *)
Definition plus (a b : option nat) : option nat :=
  match a, b with
  | Some x, Some y => Some (x + y)%nat
  | _, _ => None
  end.

Section Key.
Context `{platform : Platform}.

(** [`${v}`] in a template literal. *)
Definition show (v : option value) : string :=
  match v with
  | None => "undefined"
  | Some (CInt n) => Str.of_Z n
  | Some (CBytes b) => Buffer_toString b
  | Some (COther _ _ text) => text
  end.

Definition unsupported_message (kty alg : option value) : string :=
  "Unsupported COSE key: kty=" +:+ show kty +:+ ", alg=" +:+ show alg
  +:+ ". Supported: ES256 (kty=2, alg=-7) or RS256 (kty=3, alg=-257)".

(** [extractRawPublicKeyFromAuthData], from the read of [kty] and [alg] to
    the end: the dispatch on the decoded key. *)
Definition extractRawPublicKeyFromCoseKey (coseKey : gmap Z value) : completion (list byte) :=
  let kty := coseKey !! 1 in
  let alg := coseKey !! 3 in
  if strict_eq_num kty 2 && strict_eq_num alg (-7) then
    let x := coseKey !! (-2) in
    let y := coseKey !! (-3) in
    if negb (truthy x) || negb (truthy y) then
      Throw (Error "Malformed ES256 COSE key: missing x or y")
    else
      let rawKey := alloc (plus (plus (Some 1%nat) (length_of x)) (length_of y)) in
      let rawKey := <[0%nat := x04]> rawKey in
      rawKey ← TypedArray.set rawKey (elements x) 1;
      rawKey ← TypedArray.set rawKey (elements y)
                 (default 0%nat (plus (Some 1%nat) (length_of x)));
      Normal rawKey
  else if strict_eq_num kty 3 && strict_eq_num alg (-257) then
    let n := coseKey !! (-1) in
    let e := coseKey !! (-2) in
    if negb (truthy n) || negb (truthy e) then
      Throw (Error "Malformed RS256 COSE key: missing n or e")
    else
      let rawKey := alloc (plus (length_of n) (length_of e)) in
      rawKey ← TypedArray.set rawKey (elements n) 0;
      rawKey ← TypedArray.set rawKey (elements e) (default 0%nat (length_of n));
      Normal rawKey
  else
    Throw (Error (unsupported_message kty alg)).

End Key.

Section Extract.
Context `{platform : Platform}.

(** [cbor.decodeFirstSync(bytes, { extendedResults: true })] followed by
    [.value ?? result]: the CBOR library is outside the repository. *)
Variable decodeFirstSync : list byte -> completion decoded.

Definition RP_ID_HASH_LENGTH : nat := 32.
Definition FLAGS_LENGTH : nat := 1.
Definition SIGNATURE_COUNTER_LENGTH : nat := 4.
Definition AAGUID_LENGTH : nat := 16.
Definition CRED_ID_LENGTH_BYTES : nat := 2.

(** The bytes from which the COSE key is decoded, or the failure of the
    fixed-layout parse. *)
Definition coseKeyBytesOf (authDataBytes : Uint8Array) : completion (list byte) :=
  let slicedBuffer :=
    ArrayBuffer_slice (buffer authDataBytes) (byteOffset authDataBytes)
      (byteOffset authDataBytes + byteLength authDataBytes) in
  let offset := (RP_ID_HASH_LENGTH + FLAGS_LENGTH + SIGNATURE_COUNTER_LENGTH
                 + AAGUID_LENGTH)%nat in
  credIdLen ← getUint16 slicedBuffer offset;
  let offset := (offset + CRED_ID_LENGTH_BYTES + Z.to_nat credIdLen)%nat in
  let coseKeyBytes := ArrayBuffer_slice_from slicedBuffer offset in
  if (length coseKeyBytes =? 0)%nat then
    Throw (Error "COSE key not found in authData")
  else Normal coseKeyBytes.

Definition extractRawPublicKeyFromAuthData (authDataBytes : Uint8Array)
  : completion (list byte) :=
  coseKeyBytes ← coseKeyBytesOf authDataBytes;
  result ← decodeFirstSync coseKeyBytes;
  match result with
  | DMap coseKey => extractRawPublicKeyFromCoseKey coseKey
  | DOther => Throw (Error "Invalid COSE key structure")
  end.

End Extract.

(** The elements of a [Uint8Array]. *)
Definition bytes_of (a : Uint8Array) : list byte :=
  ArrayBuffer_slice (buffer a) (byteOffset a) (byteOffset a + byteLength a).

(** The credential-id length an authData declares: the big-endian 16-bit
    number at offset 53, when the fixed prefix is complete. *)
Definition declaredCredIdLen (authData : list byte) : option nat :=
  match authData !! 53%nat, authData !! 54%nat with
  | Some hi, Some lo => Some (256 * N.to_nat (Byte.to_N hi) + N.to_nat (Byte.to_N lo))%nat
  | _, _ => None
  end.

(** The failures of the fixed-layout parse. *)
Definition MalformedAuthData (e : error) : Prop :=
  e = RangeError \/ e = Error "COSE key not found in authData".

End Cose.

(** ** Numbers: IEEE-754 binary64, [Math.round], [BigInt(number)] *)

Module Num.

Definition number : Type := spec_float.

Definition prec : Z := 53.
Definition emax : Z := 1024.

(** [x * y] and [x / y] on numbers. *)
Definition mul (x y : number) : number := SFmul prec emax x y.
Definition div (x y : number) : number := SFdiv prec emax x y.

(** The number an integer literal denotes (exact up to 2^53). *)
Definition of_Z (z : Z) : number := binary_normalize prec emax z 0 false.

(** The number a decimal literal [digits / 10^k] denotes: the binary64
    nearest to the quotient.  Division of two exactly represented integers is
    correctly rounded, so this is the literal's value when both [digits] and
    [10^k] are below 2^53. *)
Definition of_decimal (digits : Z) (k : Z) : number := div (of_Z digits) (of_Z (10 ^ k)).

Definition NaN : number := S754_nan.
Definition Infinity : number := S754_infinity false.

(** [floor(v + 1/2)] for [v = (-1)^s * m * 2^e] with [e < 0]. *)
Definition round_half_up (s : bool) (m : positive) (e : Z) : Z :=
  let d := 2 ^ (- e) in
  (cond_Zopp s (2 * Zpos m) + d) / (2 * d).

(** [Math.round(x)]: the integer nearest to [x], ties towards +Infinity;
    [NaN], the infinities and the zeros are returned as they are, and a
    result of zero keeps the sign of [x]. *)
Definition Math_round (x : number) : number :=
  match x with
  | S754_finite s m e =>
      if 0 <=? e then x
      else binary_normalize prec emax (round_half_up s m e) 0 s
  | _ => x
  end.

(** [BigInt(x)] for a number [x]: its exact value when it is an integer, a
    [RangeError] otherwise. *)
Definition to_BigInt (x : number) : completion Z :=
  match x with
  | S754_zero _ => Normal 0
  | S754_finite s m e =>
      if 0 <=? e then Normal (cond_Zopp s (Zpos m * 2 ^ e))
      else
        let d := 2 ^ (- e) in
        if Zpos m mod d =? 0 then Normal (cond_Zopp s (Zpos m / d))
        else Throw RangeError
  | _ => Throw RangeError
  end.

(** [k <= v + 1/2 < k + 1] for [v = (-1)^s * m * 2^e] with [e < 0]: [k] is
    the integer nearest to [v], the upper one of two that are equally near. *)
Definition nearest_half_up (s : bool) (m : positive) (e : Z) (k : Z) : Prop :=
  let d := 2 ^ (- e) in
  2 * d * k <= cond_Zopp s (2 * Zpos m) + d < 2 * d * (k + 1).

(** [x] is positive and finite. *)
Definition positive_finite (x : number) : bool :=
  match x with
  | S754_finite false _ _ => true
  | _ => false
  end.

End Num.
Export Num.

(** ** The unit converter *)

Module Units.

(** The argument of [stroopsToXlm]: [bigint | number]. *)
Inductive numeric : Type :=
| BigIntV (z : Z)
| NumberV (x : number).

(** [stroopsToXlm].  [/] and [%] on [bigint] truncate towards zero. *)
Definition stroopsToXlm (stroops : numeric) : completion string :=
  stroopsBigInt ← match stroops with
                   | BigIntV z => Normal z
                   | NumberV x => to_BigInt x
                   end;
  let whole := Z.quot stroopsBigInt 10000000 in
  let fraction := Z.rem stroopsBigInt 10000000 in
  let fractionStr :=
    Str.strip_trailing "0" (Str.padStart 7 "0" (Str.of_Z fraction)) in
  Normal (match fractionStr with
          | "" => Str.of_Z whole
          | _ => Str.of_Z whole +:+ "." +:+ fractionStr
          end).

(** [xlmToStroops]: [Math.round(Number(xlm) * 10_000_000)].  No statement of
    the function throws. *)
Definition xlmToStroops (xlm : number) : completion number :=
  Normal (Math_round (mul xlm (Num.of_Z 10000000))).

(** The round trip [stroopsToXlm(xlmToStroops(x))]. *)
Definition roundTrip (x : number) : completion string :=
  stroops ← xlmToStroops x;
  stroopsToXlm (NumberV stroops).

(** The specification's words for [toBaseUnit]: integer quotient and
    remainder by the scale factor, the remainder as seven zero-padded digits
    with the trailing zeros removed, no fractional part when it is zero. *)
Definition scale : N := 10000000.

Definition toBaseUnit_spec (n : N) : string :=
  let q := (n / scale)%N in
  let r := (n mod scale)%N in
  if (r =? 0)%N then Str.of_N q
  else Str.of_N q +:+ "." +:+ Str.strip_trailing "0" (Str.padStart 7 "0" (Str.of_N r)).

(** What a decimal string [w] or [w.f] denotes, in units of 10^-7: defined
    for at most seven fraction digits. *)
Fixpoint split_dot (s : string) : string * option string :=
  match s with
  | "" => ("", None)
  | String c r =>
      if Ascii.eqb c "." then ("", Some r)
      else let '(w, f) := split_dot r in (String c w, f)
  end.

Definition subunits_of_decimal (s : string) : option N :=
  let '(w, f) := split_dot s in
  let f := default "" f in
  wv ← Str.value w;
  fv ← Str.value f;
  if (String.length f <=? 7)%nat
  then Some (wv * scale + fv * 10 ^ (7 - N.of_nat (String.length f)))%N
  else None.

End Units.

(** ** The ledger SDK and the wallet service *)

Module Stellar.

(** XDR values the service builds. *)
Inductive ContractIdPreimage (Addr : Type) : Type :=
| contractIdPreimageFromAddress (address : Addr) (salt : list byte).
Arguments contractIdPreimageFromAddress {Addr} address salt.

Inductive HashIdPreimage (Addr : Type) : Type :=
| envelopeTypeContractId (networkId : list byte)
    (contractIdPreimage : ContractIdPreimage Addr).
Arguments envelopeTypeContractId {Addr} networkId contractIdPreimage.

(** The part of the global [StellarSdk] object the service calls; the SDK is
    outside the repository. *)
Class Sdk : Type := {
  Keypair : Type;
  Keypair_fromSecret : string -> completion Keypair;
  publicKey : Keypair -> string;
  ScAddress : Type;
  (** [Address.fromString(s).toScAddress()] *)
  Address_fromString : string -> completion ScAddress;
  (** [StellarSdk.hash], a 256-bit digest *)
  hash : list byte -> list byte;
  (** [preimage.toXDR()] *)
  toXDR : HashIdPreimage ScAddress -> list byte;
  (** [StrKey.encodeContract] *)
  encodeContract : list byte -> string
}.

(** [Buffer.from(s)]: the bytes of the string. *)
Definition Buffer_from (s : string) : list byte := list_byte_of_string s.

Section Service.
Context `{sdk : Sdk}.

Record WalletServiceConfig : Type := {
  cfg_contractWasmHash : string;
  cfg_submitterSeed : string;
  cfg_horizonUrl : string;
  cfg_rpcUrl : string;
  cfg_nativeContractId : string;
  cfg_networkPassphrase : string
}.

Record StellarSmartWalletService : Type := {
  contractWasmHash : string;
  submitterSeed : string;
  horizonUrl : string;
  rpcUrl : string;
  nativeContractId : string;
  networkPassphrase : string;
  submitterKeypair : Keypair
}.

(** The constructor. *)
Definition new_service (config : WalletServiceConfig)
  : completion StellarSmartWalletService :=
  kp ← Keypair_fromSecret (cfg_submitterSeed config);
  Normal {| contractWasmHash := cfg_contractWasmHash config;
            submitterSeed := cfg_submitterSeed config;
            horizonUrl := cfg_horizonUrl config;
            rpcUrl := cfg_rpcUrl config;
            nativeContractId := cfg_nativeContractId config;
            networkPassphrase := cfg_networkPassphrase config;
            submitterKeypair := kp |}.

(** [deriveContractIdFromPasskeyId]. *)
Definition deriveContractIdFromPasskeyId (this : StellarSmartWalletService)
    (base64CredentialId : string) : completion string :=
  let salt := hash (Buffer_from base64CredentialId) in
  submitterAddress ← Address_fromString (publicKey (submitterKeypair this));
  let networkId := hash (Buffer_from (networkPassphrase this)) in
  let contractIdPreimage :=
    envelopeTypeContractId networkId
      (contractIdPreimageFromAddress submitterAddress salt) in
  let contractHash := hash (toXDR contractIdPreimage) in
  let contractId := encodeContract contractHash in
  Normal contractId.

(** The deployer address the derivation uses. *)
Definition deployerAddress (this : StellarSmartWalletService) : string :=
  publicKey (submitterKeypair this).

End Service.

End Stellar.

(** ** The transfer flow *)

Module Transfer.
Import Stellar Units.

Section Flow.
Context `{sdk : Sdk}.

(** Values of the SDK the flow only passes along. *)
Context {Account Operation SorobanData : Type}.

(** [sorobanData.resourceFee().toBigInt()] *)
Variable resourceFee : SorobanData -> Z.

Record Transaction : Type := {
  tx_source : Account;
  tx_fee : string;
  tx_networkPassphrase : string;
  tx_operation : Operation;
  tx_timeout : Z;
  tx_sorobanData : option SorobanData;
  tx_signatures : list string
}.

Record FeeBumpTransaction : Type := {
  fb_feeSource : string;
  fb_baseFee : string;
  fb_inner : Transaction;
  fb_networkPassphrase : string;
  fb_signatures : list string
}.

(** The response of [simulateTransaction]: [transactionData] is present or
    not ([None] when ['transactionData' in simulationRs] is false). *)
Record SimulationResponse : Type := {
  transactionData : option SorobanData
}.

(** The calls that leave the process, in the order they are made. *)
Inductive call : Type :=
| LoadAccount (publicKey : string)
| SacTransfer (from to : string) (amount : Z)
| SignAuthEntries (address : string)
| SimulateTransaction (tx : Transaction)
| SendTransaction (tx : FeeBumpTransaction).

(** The answers of the ledger services and of the SAC client, and what the
    constructors and builders of the SDK do in between: each of them throws
    on what it rejects. *)
Record Services (SendResult : Type) : Type := {
  (** [new SacClient({ contractId, rpcUrl, networkPassphrase })] *)
  newSacClient : string -> string -> string -> completion unit;
  (** [new Horizon.Server(horizonUrl, { allowHttp: true })] *)
  newHorizonServer : string -> completion unit;
  (** [new rpc.Server(rpcUrl)] *)
  newRpcServer : string -> completion unit;
  loadAccount : string -> completion Account;
  (** [sacClient.transfer] *)
  sacTransfer : string -> string -> Z -> completion Operation;
  (** [sacTx.signAuthEntries], and the operation then read from [sacTx.built] *)
  signAuthEntries : string -> Operation -> completion Operation;
  (** [new TransactionBuilder(...).addOperation(...).setTimeout(...).build()]
      and [sign], for the transaction they are asked to build *)
  buildTransaction : Transaction -> completion unit;
  simulateTransaction : Transaction -> completion SimulationResponse;
  (** [simulationRs.transactionData.build()], then
      [TransactionBuilder.cloneFrom(tx, { fee, sorobanData }).build()] and
      [sign] *)
  cloneTransaction : Transaction -> string -> SorobanData -> completion unit;
  (** the fee the builder gives the clone, computed by the SDK from the fee
      option and the resource data *)
  clonedFee : string -> SorobanData -> string;
  (** [TransactionBuilder.buildFeeBumpTransaction] and [sign]: the builder
      rejects a base fee it finds too low *)
  buildFeeBumpTransaction : FeeBumpTransaction -> completion unit;
  sendTransaction : FeeBumpTransaction -> completion SendResult
}.
#[local] Arguments newSacClient {SendResult}.
#[local] Arguments newHorizonServer {SendResult}.
#[local] Arguments newRpcServer {SendResult}.
#[local] Arguments loadAccount {SendResult}.
#[local] Arguments sacTransfer {SendResult}.
#[local] Arguments signAuthEntries {SendResult}.
#[local] Arguments buildTransaction {SendResult}.
#[local] Arguments simulateTransaction {SendResult}.
#[local] Arguments cloneTransaction {SendResult}.
#[local] Arguments clonedFee {SendResult}.
#[local] Arguments buildFeeBumpTransaction {SendResult}.
#[local] Arguments sendTransaction {SendResult}.

(** A computation that logs the outside calls it makes. *)
Definition M (A : Type) : Type := list call -> list call * completion A.

Definition ret {A} (a : A) : M A := fun log => (log, Normal a).
Definition throw {A} (e : error) : M A := fun log => (log, Throw e).
Definition bind {A B} (m : M A) (k : A -> M B) : M B := fun log =>
  match m log with
  | (log', Normal a) => k a log'
  | (log', Throw e) => (log', Throw e)
  end.
(** A local step that may throw. *)
Definition lift {A} (c : completion A) : M A := fun log => (log, c).
(** [await] of an outside call: the call is logged, its answer continues. *)
Definition await {A} (c : call) (answer : completion A) : M A :=
  fun log => (log ++ [c], answer).

#[local] Instance M_ret : MRet M := @ret.
#[local] Instance M_bind : MBind M := fun A B k m => bind m k.

(** [tx.sign(keypair)]. *)
Definition sign (kp : Keypair) (tx : Transaction) : Transaction :=
  {| tx_source := tx_source tx; tx_fee := tx_fee tx;
     tx_networkPassphrase := tx_networkPassphrase tx;
     tx_operation := tx_operation tx; tx_timeout := tx_timeout tx;
     tx_sorobanData := tx_sorobanData tx;
     tx_signatures := tx_signatures tx ++ [publicKey kp] |}.

Definition signFeeBump (kp : Keypair) (tx : FeeBumpTransaction)
  : FeeBumpTransaction :=
  {| fb_feeSource := fb_feeSource tx; fb_baseFee := fb_baseFee tx;
     fb_inner := fb_inner tx; fb_networkPassphrase := fb_networkPassphrase tx;
     fb_signatures := fb_signatures tx ++ [publicKey kp] |}.

Context {SendResult : Type}.
Variable rpc : Services SendResult.

(** [TransactionBuilder.cloneFrom(tx, { fee, sorobanData }).build()]: the
    clone keeps the source, the operation, the timeout and the network of
    [tx], carries the resource data, has no signature yet, and its fee is
    the one the builder computes. *)
Definition cloneFrom (tx : Transaction) (fee : string) (data : SorobanData)
  : Transaction :=
  {| tx_source := tx_source tx; tx_fee := clonedFee rpc fee data;
     tx_networkPassphrase := tx_networkPassphrase tx;
     tx_operation := tx_operation tx; tx_timeout := tx_timeout tx;
     tx_sorobanData := Some data;
     tx_signatures := [] |}.

(** [addFunds]: [None] is [undefined] or [null].  The [catch] block logs the
    error and throws it again, so it is the identity on completions. *)
Definition addFunds (this : StellarSmartWalletService)
    (contractId : option string) (amountToTransferXlm : option number)
  : M SendResult :=
  match contractId with
  | None => throw (Error "Contract ID is required")
  | Some contractId =>
  match amountToTransferXlm with
  | None => throw (Error "Amount to transfer is required")
  | Some amountToTransferXlm =>
    amountToTransfer ← lift (xlmToStroops amountToTransferXlm);
    _ ← lift (newSacClient rpc (nativeContractId this) (rpcUrl this)
                (networkPassphrase this));
    _ ← lift (newHorizonServer rpc (horizonUrl this));
    _ ← lift (newRpcServer rpc (rpcUrl this));
    let pk := publicKey (submitterKeypair this) in
    submitterAccount ← await (LoadAccount pk) (loadAccount rpc pk);
    amount ← lift (to_BigInt amountToTransfer);
    sacTx ← await (SacTransfer pk contractId amount)
               (sacTransfer rpc pk contractId amount);
    sorobanOperation ← await (SignAuthEntries pk) (signAuthEntries rpc pk sacTx);
    let built :=
      {| tx_source := submitterAccount; tx_fee := "0";
         tx_networkPassphrase := networkPassphrase this;
         tx_operation := sorobanOperation; tx_timeout := 5 * 60;
         tx_sorobanData := None; tx_signatures := [] |} in
    _ ← lift (buildTransaction rpc built);
    let tmpTx := sign (submitterKeypair this) built in
    simulationRs ← await (SimulateTransaction tmpTx) (simulateTransaction rpc tmpTx);
    match transactionData simulationRs with
    | None => throw (Error "Simulation failed")
    | Some sorobanData =>
      let fee := Str.of_Z (resourceFee sorobanData) in
      _ ← lift (cloneTransaction rpc tmpTx fee sorobanData);
      let realTransaction :=
        sign (submitterKeypair this) (cloneFrom tmpTx fee sorobanData) in
      let bump :=
        {| fb_feeSource := pk; fb_baseFee := fee;
           fb_inner := realTransaction;
           fb_networkPassphrase := networkPassphrase this;
           fb_signatures := [] |} in
      _ ← lift (buildFeeBumpTransaction rpc bump);
      let feeBumpTx := signFeeBump (submitterKeypair this) bump in
      await (SendTransaction feeBumpTx) (sendTransaction rpc feeBumpTx)
    end
  end
  end.

(** A run from an empty log. *)
Definition run {A} (m : M A) : list call * completion A := m [].

Definition is_send (c : call) : bool :=
  match c with
  | SendTransaction _ => true
  | _ => false
  end.

Definition is_simulate (c : call) : bool :=
  match c with
  | SimulateTransaction _ => true
  | _ => false
  end.

(** The simulation of the run answered without transaction data. *)
Definition simulation_lacks_data (log : list call) : Prop :=
  exists tx rs, In (SimulateTransaction tx) log
                /\ simulateTransaction rpc tx = Normal rs
                /\ transactionData rs = None.

(** What a run of [addFunds] can be: it stops before the simulation, the
    simulation throws, the simulation answers without transaction data, a
    builder rejects what the simulation priced, or the wrapped transaction
    priced by the simulation is sent. *)
Inductive outcome (this : StellarSmartWalletService) (log : list call)
    (result : completion SendResult) : Prop :=
| StoppedEarly (e : error) :
    result = Throw e ->
    (forall c, In c log -> is_simulate c = false /\ is_send c = false) ->
    outcome this log result
| SimulationThrew (e : error) (tx : Transaction) :
    result = Throw e ->
    simulateTransaction rpc tx = Throw e ->
    (forall c, In c log -> is_send c = false) ->
    (forall tx', In (SimulateTransaction tx') log -> tx' = tx) ->
    outcome this log result
| SimulationFailed (tx : Transaction) (rs : SimulationResponse) :
    result = Throw (Error "Simulation failed") ->
    simulateTransaction rpc tx = Normal rs ->
    transactionData rs = None ->
    (forall c, In c log -> is_send c = false) ->
    (forall tx', In (SimulateTransaction tx') log -> tx' = tx) ->
    outcome this log result
| BuilderThrew (e : error) (tx : Transaction) (rs : SimulationResponse)
               (data : SorobanData) :
    result = Throw e ->
    simulateTransaction rpc tx = Normal rs ->
    transactionData rs = Some data ->
    (forall c, In c log -> is_send c = false) ->
    (forall tx', In (SimulateTransaction tx') log -> tx' = tx) ->
    outcome this log result
| Sent (tx : Transaction) (rs : SimulationResponse) (data : SorobanData)
       (ftx : FeeBumpTransaction) :
    result = sendTransaction rpc ftx ->
    simulateTransaction rpc tx = Normal rs ->
    transactionData rs = Some data ->
    fb_baseFee ftx = Str.of_Z (resourceFee data) ->
    fb_inner ftx
    = sign (submitterKeypair this)
        (cloneFrom tx (Str.of_Z (resourceFee data)) data) ->
    In (SimulateTransaction tx) log ->
    (forall tx', In (SimulateTransaction tx') log -> tx' = tx) ->
    (forall ftx', In (SendTransaction ftx') log -> ftx' = ftx) ->
    outcome this log result.

End Flow.

Arguments newSacClient {Account Operation SorobanData SendResult}.
Arguments newHorizonServer {Account Operation SorobanData SendResult}.
Arguments newRpcServer {Account Operation SorobanData SendResult}.
Arguments buildTransaction {Account Operation SorobanData SendResult}.
Arguments cloneTransaction {Account Operation SorobanData SendResult}.
Arguments clonedFee {Account Operation SorobanData SendResult}.
Arguments buildFeeBumpTransaction {Account Operation SorobanData SendResult}.
Arguments loadAccount {Account Operation SorobanData SendResult}.
Arguments sacTransfer {Account Operation SorobanData SendResult}.
Arguments signAuthEntries {Account Operation SorobanData SendResult}.
Arguments simulateTransaction {Account Operation SorobanData SendResult}.
Arguments sendTransaction {Account Operation SorobanData SendResult}.

End Transfer.

(** ** Base64 and the credential-id helpers of [utils.ts] *)

Module Base64.

Definition alphabet : string :=
  "ABCDEFGHIJKLMNOPQRSTUVWXYZabcdefghijklmnopqrstuvwxyz0123456789+/".

(** The character of a six-bit value. *)
Definition enc (n : N) : ascii :=
  default "="%char (String.get (N.to_nat n) alphabet).

(** The six-bit value of a character of the alphabet. *)
Fixpoint index_of (c : ascii) (s : string) (i : N) : option N :=
  match s with
  | "" => None
  | String a r => if Ascii.eqb a c then Some i else index_of c r (i + 1)%N
  end.

Definition dec (c : ascii) : option N := index_of c alphabet 0%N.

(** [btoa]: the base64 of a binary string (RFC 4648 with padding).  The
    strings of this model have no code unit above 255, so [btoa] does not
    throw. *)
Fixpoint btoa (s : string) : string :=
  match s with
  | "" => ""
  | String a "" =>
      let x := N_of_ascii a in
      String (enc (x / 4)) (String (enc (x mod 4 * 16)) "==")
  | String a (String b "") =>
      let x := N_of_ascii a in
      let y := N_of_ascii b in
      String (enc (x / 4)) (String (enc (x mod 4 * 16 + y / 16))
        (String (enc (y mod 16 * 4)) "="))
  | String a (String b (String c r)) =>
      let x := N_of_ascii a in
      let y := N_of_ascii b in
      let z := N_of_ascii c in
      String (enc (x / 4)) (String (enc (x mod 4 * 16 + y / 16))
        (String (enc (y mod 16 * 4 + z / 64)) (String (enc (z mod 64)) (btoa r))))
  end%N.

(** [atob], the forgiving-base64 decode of the HTML standard: ASCII
    whitespace is removed; when the length is a multiple of four, one or two
    [=] at the end are removed; a length of 1 modulo 4 or a character outside
    the alphabet is an [InvalidCharacterError]; the bits left over in the last
    group are dropped. *)
Definition is_whitespace (c : ascii) : bool :=
  let k := N_of_ascii c in
  ((k =? 9) || (k =? 10) || (k =? 12) || (k =? 13) || (k =? 32))%N.

Fixpoint remove_whitespace (s : string) : string :=
  match s with
  | "" => ""
  | String c r =>
      if is_whitespace c then remove_whitespace r
      else String c (remove_whitespace r)
  end.

(** Remove one [=] at the end, if there is one. *)
Fixpoint remove_last_eq (s : string) : string :=
  match s with
  | "" => ""
  | String c "" => if Ascii.eqb c "=" then "" else s
  | String c r => String c (remove_last_eq r)
  end.

Definition remove_padding (s : string) : string :=
  if (String.length s mod 4 =? 0)%nat then remove_last_eq (remove_last_eq s)
  else s.

Fixpoint decode_groups (s : string) : option string :=
  match s with
  | "" => Some ""
  | String _ "" => None
  | String a (String b "") =>
      x ← dec a; y ← dec b;
      Some (String (ascii_of_N (x * 4 + y / 16)) "")
  | String a (String b (String c "")) =>
      x ← dec a; y ← dec b; z ← dec c;
      Some (String (ascii_of_N (x * 4 + y / 16))
             (String (ascii_of_N (y mod 16 * 16 + z / 4)) ""))
  | String a (String b (String c (String d r))) =>
      x ← dec a; y ← dec b; z ← dec c; w ← dec d;
      rest ← decode_groups r;
      Some (String (ascii_of_N (x * 4 + y / 16))
             (String (ascii_of_N (y mod 16 * 16 + z / 4))
               (String (ascii_of_N (z mod 4 * 64 + w)) rest)))
  end%N.

Definition atob (s : string) : completion string :=
  match decode_groups (remove_padding (remove_whitespace s)) with
  | Some binary => Normal binary
  | None => Throw InvalidCharacterError
  end.

(** [String.fromCharCode.apply(null, Array.from(uint8))]. *)
Definition fromCharCodes (uint8 : list byte) : string := string_of_list_byte uint8.

(** The loop [bytes[i] = binary.charCodeAt(i)]. *)
Definition charCodes (binary : string) : list byte := list_byte_of_string binary.

(** [toBase64Url]; only the elements of the [Uint8Array] are read. *)
Definition toBase64Url (uint8 : list byte) : string :=
  Str.strip_trailing "="
    (Str.replace_all "/" "_" (Str.replace_all "+" "-" (btoa (fromCharCodes uint8)))).

(** [base64urlToArrayBuffer]; [Math.ceil(n / 4) * 4] on a length [n]. *)
Definition base64urlToArrayBuffer (base64url : string) : completion (list byte) :=
  let base64 :=
    Str.padEnd ((String.length base64url + 3) / 4 * 4) "="
      (Str.replace_all "_" "/" (Str.replace_all "-" "+" base64url)) in
  binary ← atob base64;
  Normal (charCodes binary).

(** *** Notions for the round trip *)

(** The characters of [btoa s] before the padding, and the number of [=]
    that pad a string of [n] code units. *)
Fixpoint body (s : string) : string :=
  match s with
  | "" => ""
  | String a "" =>
      let x := N_of_ascii a in
      String (enc (x / 4)) (String (enc (x mod 4 * 16)) "")
  | String a (String b "") =>
      let x := N_of_ascii a in
      let y := N_of_ascii b in
      String (enc (x / 4)) (String (enc (x mod 4 * 16 + y / 16))
        (String (enc (y mod 16 * 4)) ""))
  | String a (String b (String c r)) =>
      let x := N_of_ascii a in
      let y := N_of_ascii b in
      let z := N_of_ascii c in
      String (enc (x / 4)) (String (enc (x mod 4 * 16 + y / 16))
        (String (enc (y mod 16 * 4 + z / 64)) (String (enc (z mod 64)) (body r))))
  end%N.

Definition pad_length (n : nat) : nat := ((3 - n mod 3) mod 3)%nat.

Definition in_alphabet (c : ascii) : bool :=
  match dec c with
  | Some _ => true
  | None => false
  end.

(** What the two replacements of [toBase64Url] make of a character, and what
    the two of [base64urlToArrayBuffer] make of it. *)
Definition to_url (c : ascii) : ascii :=
  let c := if Ascii.eqb c "+" then "-"%char else c in
  if Ascii.eqb c "/" then "_"%char else c.

Definition of_url (c : ascii) : ascii :=
  let c := if Ascii.eqb c "-" then "+"%char else c in
  if Ascii.eqb c "_" then "/"%char else c.

(** What the round trip needs of a character of the alphabet: it is neither
    the padding character nor whitespace, neither is its URL form, and the
    URL form maps back to it. *)
Definition survives (c : ascii) : bool :=
  negb (Ascii.eqb c "=") && negb (is_whitespace c)
  && negb (Ascii.eqb (to_url c) "=")
  && Ascii.eqb (of_url (to_url c)) c.

End Base64.

(** ** Test doubles: a stand-in SDK and ledger, and sample inputs *)

Module Doubles.
Import Stellar Transfer.

(** A stand-in for the SDK: key pairs are their seeds, the digest reverses
    its input, the XDR encoding concatenates the fields. *)
Definition toy_sdk : Sdk := {|
  Keypair := string;
  Keypair_fromSecret := fun seed => Normal seed;
  publicKey := fun kp => "G" +:+ kp;
  ScAddress := string;
  Address_fromString := fun s => Normal s;
  hash := fun b => rev b;
  toXDR := fun p =>
    match p with
    | envelopeTypeContractId networkId (contractIdPreimageFromAddress address salt) =>
        networkId ++ Buffer_from address ++ salt
    end;
  encodeContract := fun h => "C" +:+ string_of_list_byte h
|}.

#[local] Existing Instance toy_sdk.

(** A stand-in for the buffer class of the CBOR library: the bytes as code
    units. *)
Definition toy_platform : Cose.Platform := {|
  Cose.Buffer_toString := string_of_list_byte
|}.

Definition service_a : @StellarSmartWalletService toy_sdk := {|
  contractWasmHash := "aa11";
  submitterSeed := "SUBMITTER";
  horizonUrl := "https://horizon-a.example";
  rpcUrl := "https://rpc-a.example";
  nativeContractId := "CNATIVE";
  networkPassphrase := "Test SDF Network ; September 2015";
  submitterKeypair := "SUBMITTER"
|}.

(** The same deployer and network behind other endpoints and another
    contract code. *)
Definition service_b : @StellarSmartWalletService toy_sdk := {|
  contractWasmHash := "bb22";
  submitterSeed := "SUBMITTER";
  horizonUrl := "https://horizon-b.example";
  rpcUrl := "https://rpc-b.example";
  nativeContractId := "CNATIVE";
  networkPassphrase := "Test SDF Network ; September 2015";
  submitterKeypair := "SUBMITTER"
|}.

(** A ledger whose simulation answers without transaction data. *)
Definition failing_simulation : @Services unit unit Z string := {|
  newSacClient := fun _ _ _ => Normal tt;
  newHorizonServer := fun _ => Normal tt;
  newRpcServer := fun _ => Normal tt;
  loadAccount := fun _ => Normal tt;
  sacTransfer := fun _ _ _ => Normal tt;
  signAuthEntries := fun _ op => Normal op;
  buildTransaction := fun _ => Normal tt;
  simulateTransaction := fun _ => Normal {| transactionData := None |};
  cloneTransaction := fun _ _ _ => Normal tt;
  clonedFee := fun _ data => Str.of_Z (2 * data);
  buildFeeBumpTransaction := fun _ => Normal tt;
  sendTransaction := fun _ => Normal "PENDING"
|}.

Definition es256_sample : gmap Z Cose.value :=
  <[1 := Cose.CInt 2]> (<[3 := Cose.CInt (-7)]>
    (<[-2 := Cose.CBytes [x0a; x0b]]> (<[-3 := Cose.CBytes [x0c; x0d]]> ∅))).


(** A key whose key-type label holds the byte string 0x61 0x62. *)
Definition bytes_kty_sample : gmap Z Cose.value :=
  <[1 := Cose.CBytes [x61; x62]]> (<[3 := Cose.CInt (-7)]> ∅).

(** An ES256 key whose x coordinate is the empty byte string. *)
Definition es256_empty_x : gmap Z Cose.value :=
  <[1 := Cose.CInt 2]> (<[3 := Cose.CInt (-7)]>
    (<[-2 := Cose.CBytes []]> (<[-3 := Cose.CBytes [x0c; x0d]]> ∅))).

Definition es256_no_y : gmap Z Cose.value :=
  <[1 := Cose.CInt 2]> (<[3 := Cose.CInt (-7)]> (<[-2 := Cose.CBytes [x0a; x0b]]> ∅)).

Definition rs256_no_e : gmap Z Cose.value :=
  <[1 := Cose.CInt 3]> (<[3 := Cose.CInt (-257)]> (<[-1 := Cose.CBytes [x0a; x0b]]> ∅)).

Definition truncated_view : Uint8Array :=
  {| buffer := replicate 100 xff; byteOffset := 0; byteLength := 10 |}.

Definition truncated_credential : Uint8Array :=
  of_buffer (replicate 53 x00 ++ [x00; x10] ++ replicate 5 x01).

Definition no_map_decoder : list byte -> completion Cose.decoded :=
  fun _ => Normal Cose.DOther.

End Doubles.

(** ** Notions for the alphabet of the helpers *)

Module Base64More.
Import Base64.

(** The characters of the URL alphabet: letters, digits, [-] and [_]. *)
Definition url_safe (c : ascii) : bool :=
  let k := N_of_ascii c in
  ((65 <=? k) && (k <=? 90) || (97 <=? k) && (k <=? 122)
   || (48 <=? k) && (k <=? 57) || (k =? 45) || (k =? 95))%N.

(** The characters [base64urlToArrayBuffer] lets through: those of either
    alphabet, the padding character and ASCII whitespace. *)
Definition accepted (c : ascii) : bool :=
  in_alphabet (of_url c) || Ascii.eqb c "=" || is_whitespace c.

(** The characters that stand for six bits in either alphabet. *)
Definition sextet_char (c : ascii) : bool := in_alphabet (of_url c).

End Base64More.

Module Text.

(** [s.includes(c)] for a character. *)
Definition contains (c : ascii) (s : string) : bool :=
  negb (Str.all_chars (fun x => negb (Ascii.eqb x c)) s).

End Text.

(** ** Computations that log the calls they make to the outside *)

Module Effects.

Section Logged.
Context {E : Type}.

Definition Logged (A : Type) : Type := list E -> list E * completion A.

Definition ret {A} (a : A) : Logged A := fun log => (log, Normal a).
Definition throw {A} (e : error) : Logged A := fun log => (log, Throw e).
Definition bind {A B} (m : Logged A) (k : A -> Logged B) : Logged B := fun log =>
  match m log with
  | (log', Normal a) => k a log'
  | (log', Throw e) => (log', Throw e)
  end.
(** A local step that may throw. *)
Definition lift {A} (c : completion A) : Logged A := fun log => (log, c).
(** [await] of an outside call: the call is logged, its answer continues. *)
Definition await {A} (c : E) (answer : completion A) : Logged A :=
  fun log => (log ++ [c], answer).
(** [try { m } catch (e) { handler e }]. *)
Definition try_catch {A} (m : Logged A) (handler : error -> Logged A) : Logged A :=
  fun log =>
    match m log with
    | (log', Throw e) => handler e log'
    | done => done
    end.
(** A run from an empty log. *)
Definition run {A} (m : Logged A) : list E * completion A := m [].

End Logged.

#[global] Instance Logged_ret {E} : MRet (@Logged E) := @ret E.
#[global] Instance Logged_bind {E} : MBind (@Logged E) := fun A B k m => bind m k.

End Effects.

(** ** Wallet creation and the existence check *)

Module Wallet.
Import Stellar Base64 Effects.

(** [btoa(String.fromCharCode(...rawId))]: the credential identifier. *)
Definition credentialIdOf (rawId : list byte) : string := btoa (fromCharCodes rawId).

(** [PasskeyRegistrationResult] of [utils.ts]. *)
Record PasskeyRegistrationResult : Type := {
  reg_id : string;
  reg_rawId : list byte;
  reg_attestationObject : list byte;
  reg_clientDataJSON : list byte
}.

(** [StoredCredential] and [extractCredential] of [capacitor-passkey-demo.ts]. *)
Record StoredCredential : Type := {
  cred_id : string;
  cred_rawId : string
}.

Definition extractCredential (result : PasskeyRegistrationResult) : StoredCredential :=
  {| cred_id := reg_id result; cred_rawId := credentialIdOf (reg_rawId result) |}.

(** What [cbor.decode] makes of an attestation object; [attStmt] is not used. *)
Record AttestationObject : Type := {
  fmt : string;
  authData : list byte
}.

(** The arguments of [Client.deploy]. *)
Record Signer : Type := {
  signer_tag : string;
  signer_keyId : list byte;
  signer_publicKey : list byte;
  signer_expiration : option Z;
  signer_limits : option Z;
  signer_storage : string
}.

Record DeployOptions : Type := {
  opt_rpcUrl : string;
  opt_wasmHash : string;
  opt_networkPassphrase : string;
  opt_publicKey : string;
  opt_salt : list byte;
  opt_timeoutInSeconds : Z
}.

Section Service.
Context `{sdk : Sdk} `{platform : Cose.Platform}.

(** [deriveContractIdFromPasskey]: [None] is [null] on the way in and
    [undefined] on the way out. *)
Definition deriveContractIdFromPasskey (this : StellarSmartWalletService)
    (passkey : option PasskeyRegistrationResult) : completion (option string) :=
  match passkey with
  | Some passkey =>
      let credentialId := credentialIdOf (reg_rawId passkey) in
      contractId ← deriveContractIdFromPasskeyId this credentialId;
      Normal (Some contractId)
  | None => Normal None
  end.

(** The libraries and services [createWallet] and [contractExists] call. *)
Context {Options Deployment RpcServer ContractAddress LedgerEntry : Type}.
Variable cbor_decode : list byte -> completion AttestationObject.
Variable decodeFirstSync : list byte -> completion Cose.decoded.
Variable Client_deploy : Signer -> DeployOptions -> completion Deployment.
Variable deployment_sign : Deployment -> string -> string -> completion unit.
Variable deployment_send : Deployment -> completion unit.
(** [new StellarSdk.rpc.Server(url)] *)
Variable rpc_Server : string -> completion RpcServer.
(** [new StellarSdk.Contract(contractId).address()] *)
Variable Contract_address : string -> completion ContractAddress.
Variable getContractData : RpcServer -> ContractAddress -> completion LedgerEntry.

Inductive call : Type :=
| CreatePasskey (options : Options)
| ClientDeploy (signer : Signer) (options : DeployOptions)
| SignDeployment (publicKey networkPassphrase : string)
| SendDeployment.

(** [deploySmartWallet]. *)
Definition deploySmartWallet (this : StellarSmartWalletService)
    (passkey : PasskeyRegistrationResult) : Logged Deployment :=
  decoded ← lift (cbor_decode (reg_attestationObject passkey));
  let authDataBytes := of_buffer (authData decoded) in
  rawPublicKey ← lift (Cose.extractRawPublicKeyFromAuthData decodeFirstSync
                          authDataBytes);
  let credentialId := credentialIdOf (reg_rawId passkey) in
  let signer :=
    {| signer_tag := "Secp256r1";
       signer_keyId := Buffer_from credentialId;
       signer_publicKey := rawPublicKey;
       signer_expiration := None;
       signer_limits := None;
       signer_storage := "Persistent" |} in
  let deployOptions :=
    {| opt_rpcUrl := rpcUrl this;
       opt_wasmHash := contractWasmHash this;
       opt_networkPassphrase := networkPassphrase this;
       opt_publicKey := publicKey (submitterKeypair this);
       opt_salt := hash (Buffer_from credentialId);
       opt_timeoutInSeconds := 60 |} in
  await (ClientDeploy signer deployOptions) (Client_deploy signer deployOptions).

(** The public key [deploySmartWallet] extracts from a passkey. *)
Definition extractedKey (passkey : PasskeyRegistrationResult)
  : completion (list byte) :=
  decoded ← cbor_decode (reg_attestationObject passkey);
  Cose.extractRawPublicKeyFromAuthData decodeFirstSync
    (of_buffer (authData decoded)).

(** [createWallet]; the [catch] block logs the error and throws it again. *)
Definition createWallet (this : StellarSmartWalletService)
    (passkeyCreator : Options -> completion PasskeyRegistrationResult)
    (passkeyOptions : Options) : Logged Deployment :=
  passkey ← await (CreatePasskey passkeyOptions) (passkeyCreator passkeyOptions);
  deployResponse ← deploySmartWallet this passkey;
  let pk := publicKey (submitterKeypair this) in
  _ ← await (SignDeployment pk (networkPassphrase this))
        (deployment_sign deployResponse pk (networkPassphrase this));
  _ ← await SendDeployment (deployment_send deployResponse);
  ret deployResponse.

(** [contractExists]: every failure inside the [try] block gives [false]. *)
Definition contractExists (this : StellarSmartWalletService)
    (contractId : string) : completion bool :=
  match (rpcClient ← rpc_Server (rpcUrl this);
         contractAddress ← Contract_address contractId;
         getContractData rpcClient contractAddress) with
  | Normal _ => Normal true
  | Throw _ => Normal false
  end.

(** The kind of a call, by its place in the deployment sequence. *)
Definition kind (c : call) : nat :=
  match c with
  | CreatePasskey _ => 0
  | ClientDeploy _ _ => 1
  | SignDeployment _ _ => 2
  | SendDeployment => 3
  end.

End Service.

End Wallet.

(** ** The order of the calls of the transfer flow *)

Module TransferMore.
Import Transfer.

(** The place of a call in the sequence of [addFunds]. *)
Definition step {Account Operation SorobanData : Type}
    (c : @call Account Operation SorobanData) : nat :=
  match c with
  | LoadAccount _ => 0
  | SacTransfer _ _ _ => 1
  | SignAuthEntries _ => 2
  | SimulateTransaction _ => 3
  | SendTransaction _ => 4
  end.

(** [NaN] and the infinities. *)
Definition not_finite (x : number) : bool :=
  match x with
  | S754_nan | S754_infinity _ => true
  | _ => false
  end.

(** Zero, positive, or not a number at all. *)
Definition not_negative (x : number) : bool :=
  match x with
  | S754_finite s _ _ | S754_infinity s => negb s
  | _ => true
  end.

End TransferMore.

(** ** The transfer dialog of the demo page *)

Module Ui.
Import Stellar Transfer Effects.

(** The answer of [Dialog.prompt]. *)
Record PromptResult : Type := {
  value : string;
  cancelled : bool
}.

(** [!s] for a string [s]. *)
Definition falsy (s : string) : bool :=
  match s with
  | "" => true
  | _ => false
  end.

(** [x <= 0] on numbers: false when [x] is [NaN]. *)
Definition nonpositive (x : number) : bool := SFleb x (S754_zero false).

(** [isNaN(x)]. *)
Definition isNaN (x : number) : bool :=
  match x with
  | S754_nan => true
  | _ => false
  end.

Section Demo.
Context `{sdk : Sdk}.
Context {Account Operation SorobanData SendResult : Type}.

(** The calls that leave the page: the two dialogs, and the calls of the
    wallet service to the ledger. *)
Inductive call : Type :=
| DialogPrompt (title message : string)
| DialogAlert (title : option string) (message : string)
| Ledger (c : @Transfer.call Account Operation SorobanData).

Variable resourceFee : SorobanData -> Z.
Variable rpc : @Services Account Operation SorobanData SendResult.
Variable Dialog_prompt : string -> string -> completion PromptResult.
Variable Dialog_alert : option string -> string -> completion unit.
Variable parseFloat : string -> number.
(** [tx.status] in a template string. *)
Variable status : SendResult -> string.
(** What [error instanceof Error ? error.message : 'Unknown error'] gives
    for a thrown value that is not one of the service's own errors. *)
Variable describe : error -> string.
Variable DemoConfig : WalletServiceConfig.
(** The module variable [stellarService] when the function is entered. *)
Variable stellarService : option StellarSmartWalletService.

(** [getSmartWalletSdk]: the instance is built on first use. *)
Definition getSmartWalletSdk : completion StellarSmartWalletService :=
  match stellarService with
  | Some service => Normal service
  | None => new_service DemoConfig
  end.

Definition shown (e : error) : string :=
  match e with
  | Error message => message
  | _ => describe e
  end.

(** The calls of the service, as calls of the page. *)
Definition ledger {A} (m : Transfer.M A) : Logged A := fun log =>
  (log ++ map Ledger (fst (Transfer.run m)), snd (Transfer.run m)).

(** The [try] block of [addFunds] and its [catch]. *)
Definition transfer (contractId : string) (amountToTransferXlm : number)
  : Logged unit :=
  try_catch
    (smartWalletSdk ← lift getSmartWalletSdk;
     tx ← ledger (Transfer.addFunds resourceFee rpc smartWalletSdk
                    (Some contractId) (Some amountToTransferXlm));
     let message :=
       "The process of adding funds has started, status: " +:+ status tx in
     await (DialogAlert None message) (Dialog_alert None message))
    (fun error =>
       let message := "Failed to add funds: " +:+ shown error in
       await (DialogAlert (Some "Error") message)
             (Dialog_alert (Some "Error") message)).

Definition amountPrompt : string := "Amount in XLM to transfer (1 XLM = 10,000,000 stroops):".

(** The amount is asked for when the argument is missing or not above 0. *)
Definition askAmount (contractId : string) : Logged unit :=
  r ← await (DialogPrompt "Amount" amountPrompt)
        (Dialog_prompt "Amount" amountPrompt);
  if cancelled r || falsy (value r) then ret tt
  else
    let parsedAmount := parseFloat (value r) in
    if isNaN parsedAmount || nonpositive parsedAmount then
      await (DialogAlert (Some "Invalid Amount") "Please enter a positive number.")
            (Dialog_alert (Some "Invalid Amount") "Please enter a positive number.")
    else transfer contractId parsedAmount.

Definition withContract (contractId : string) (amountToTransfer : option number)
  : Logged unit :=
  match amountToTransfer with
  | None => askAmount contractId
  | Some amountToTransferXlm =>
      if nonpositive amountToTransferXlm then askAmount contractId
      else transfer contractId amountToTransferXlm
  end.

Definition askContract (amountToTransfer : option number) : Logged unit :=
  r ← await (DialogPrompt "Contract ID" "Contract ID to transfer to:")
        (Dialog_prompt "Contract ID" "Contract ID to transfer to:");
  if cancelled r || falsy (value r) then ret tt
  else withContract (value r) amountToTransfer.

(** [addFunds] of the page. *)
Definition addFunds (contractIDParam : option string)
    (amountToTransfer : option number) : Logged unit :=
  match contractIDParam with
  | None => askContract amountToTransfer
  | Some contractId =>
      if falsy contractId then askContract amountToTransfer
      else withContract contractId amountToTransfer
  end.

(** The service made the call [c] when asked to fund [contractId] with
    [amount]. *)
Definition served (contractId : string) (amount : number)
    (c : @Transfer.call Account Operation SorobanData) : Prop :=
  exists this,
    getSmartWalletSdk = Normal this
    /\ In c (fst (Transfer.run (Transfer.addFunds resourceFee rpc this
                                  (Some contractId) (Some amount)))).

(** The dialog call [c] was rejected with [e]. *)
Definition rejected_with (c : call) (e : error) : Prop :=
  match c with
  | DialogPrompt title message => Dialog_prompt title message = Throw e
  | DialogAlert title message => Dialog_alert title message = Throw e
  | Ledger _ => False
  end.

(** [contractId] is not empty, and is the caller's argument or the value
    entered in a prompt that was not cancelled. *)
Definition contract_accepted (contractIDParam : option string)
    (contractId : string) : Prop :=
  contractId <> ""
  /\ (contractIDParam = Some contractId
      \/ exists r,
           Dialog_prompt "Contract ID" "Contract ID to transfer to:" = Normal r
           /\ cancelled r = false /\ value r = contractId).

(** [amount <= 0] is false, and [amount] is the caller's argument or the
    parsed value of a prompt that was not cancelled, which is not [NaN]. *)
Definition amount_accepted (amountToTransfer : option number)
    (amount : number) : Prop :=
  nonpositive amount = false
  /\ (amountToTransfer = Some amount
      \/ exists r,
           Dialog_prompt "Amount" amountPrompt = Normal r
           /\ cancelled r = false /\ value r <> ""
           /\ amount = parseFloat (value r) /\ isNaN amount = false).

End Demo.

End Ui.

(** ** The passkey plugin wrappers of [utils.ts] *)

Module Passkey.
Import Base64 Wallet.

(** What the plugin answers: every binary field is a base64url string. *)
Record PluginRegistration : Type := {
  created_id : string;
  created_rawId : string;
  created_attestationObject : string;
  created_clientDataJSON : string
}.

Record PluginAssertion : Type := {
  asserted_id : string;
  asserted_rawId : string;
  asserted_clientDataJSON : string;
  asserted_authenticatorData : string;
  asserted_signature : string;
  asserted_userHandle : option string
}.

(** [PasskeyAuthenticationResult]. *)
Record PasskeyAuthenticationResult : Type := {
  auth_id : string;
  auth_rawId : list byte;
  auth_clientDataJSON : list byte;
  auth_authenticatorData : list byte;
  auth_signature : list byte;
  auth_userHandle : option (list byte)
}.

(** [PublicKeyAuthenticationOptions]. *)
Record AuthenticationOptions : Type := {
  challenge : string;
  rpId : string;
  allowCredentials : list string;
  userVerification : string;
  timeout : Z
}.

(** [extractCredential] on an authentication result: it reads [id] and
    [rawId], which both kinds of result have. *)
Definition extractCredentialOfAuthentication (result : PasskeyAuthenticationResult)
  : StoredCredential :=
  {| cred_id := auth_id result; cred_rawId := credentialIdOf (auth_rawId result) |}.

Section Plugin.
Context {CreationOptions : Type}.
Variable PasskeyPlugin_createPasskey : CreationOptions -> completion PluginRegistration.
Variable PasskeyPlugin_authenticate : AuthenticationOptions -> completion PluginAssertion.
(** [new TextEncoder().encode(s)]. *)
Variable TextEncoder_encode : string -> list byte.

(** [assembleAuthenticateOptions], from [DemoConfig.challenge] and
    [DemoConfig.rpId]. *)
Definition assembleAuthenticateOptions (config_challenge config_rpId : string)
  : AuthenticationOptions :=
  let challengeBytes := TextEncoder_encode config_challenge in
  {| challenge := toBase64Url challengeBytes;
     rpId := config_rpId;
     allowCredentials := [];
     userVerification := "required";
     timeout := 60000 |}.

(** [createPasskey]: [None] is a missing argument.  The [catch] block logs
    the error and throws it again. *)
Definition createPasskey (createPasskeyOptions : option CreationOptions)
  : completion PasskeyRegistrationResult :=
  match createPasskeyOptions with
  | None => Throw (Error "No options provided for passkey creation")
  | Some options =>
      registerResult ← PasskeyPlugin_createPasskey options;
      rawId ← base64urlToArrayBuffer (created_rawId registerResult);
      attestationObject ←
        base64urlToArrayBuffer (created_attestationObject registerResult);
      clientDataJSON ←
        base64urlToArrayBuffer (created_clientDataJSON registerResult);
      Normal {| reg_id := created_id registerResult;
                reg_rawId := rawId;
                reg_attestationObject := attestationObject;
                reg_clientDataJSON := clientDataJSON |}
  end.

(** [authenticate]; a user handle that is missing or empty becomes [null]. *)
Definition authenticate (authOptions : AuthenticationOptions)
  : completion PasskeyAuthenticationResult :=
  result ← PasskeyPlugin_authenticate authOptions;
  rawId ← base64urlToArrayBuffer (asserted_rawId result);
  clientDataJSON ← base64urlToArrayBuffer (asserted_clientDataJSON result);
  authenticatorData ← base64urlToArrayBuffer (asserted_authenticatorData result);
  signature ← base64urlToArrayBuffer (asserted_signature result);
  userHandle ← match asserted_userHandle result with
                | None | Some "" => Normal None
                | Some handle =>
                    bytes ← base64urlToArrayBuffer handle; Normal (Some bytes)
                end;
  Normal {| auth_id := asserted_id result;
            auth_rawId := rawId;
            auth_clientDataJSON := clientDataJSON;
            auth_authenticatorData := authenticatorData;
            auth_signature := signature;
            auth_userHandle := userHandle |}.

End Plugin.

End Passkey.

(** ** Signing in *)

Module SignIn.
Import Stellar Base64 Effects Wallet Passkey.

Definition CREDENTIAL_STORAGE_KEY : string := "demo:credential".

Definition noContractMessage : string :=
  "No contract found for this passkey. Please create a smart wallet first.".

Inductive call : Type :=
| PluginAuthenticate (options : AuthenticationOptions)
| StorageSet (key value : string)
| DialogAlert (title : option string) (message : string)
| PostLogin (contractId : string).

Section Page.
Context `{sdk : Sdk}.
Context {RpcServer ContractAddress LedgerEntry : Type}.
Variable rpc_Server : string -> completion RpcServer.
Variable Contract_address : string -> completion ContractAddress.
Variable getContractData : RpcServer -> ContractAddress -> completion LedgerEntry.
Variable PasskeyPlugin_authenticate : AuthenticationOptions -> completion PluginAssertion.
Variable TextEncoder_encode : string -> list byte.
(** [JSON.parse(s) as StoredCredential]: the stored text is taken to hold a
    credential with string fields, or the use of the parsed value throws. *)
Variable JSON_parse : string -> completion StoredCredential.
Variable JSON_stringify : StoredCredential -> string.
Variable localStorage_setItem : string -> string -> completion unit.
Variable Dialog_alert : option string -> string -> completion unit.
Variable describe : error -> string.
Variable DemoConfig : WalletServiceConfig.
Variable DemoConfig_challenge DemoConfig_rpId : string.
Variable stellarService : option StellarSmartWalletService.

(** The steps of [signIn] from the credential on.  [postLoginActions] is
    called without [await]: its promise is dropped, so nothing it throws
    reaches [signIn]. *)
Definition enter (credential : StoredCredential) : Logged unit :=
  smartWalletSdk ← lift (Ui.getSmartWalletSdk DemoConfig stellarService);
  contractId ← lift (deriveContractIdFromPasskeyId smartWalletSdk
                       (cred_rawId credential));
  exists_ ← lift (contractExists rpc_Server Contract_address getContractData
                    smartWalletSdk contractId);
  if negb exists_ then
    await (DialogAlert None noContractMessage) (Dialog_alert None noContractMessage)
  else await (PostLogin contractId) (Normal tt).

(** The [try] block of [signIn]; [stored] is what [localStorage.getItem]
    answers, and an empty text counts as none.  [authenticate] returns an
    object or throws, so the branch for a missing result is never taken. *)
Definition attempt (stored : option string) : Logged unit :=
  match stored with
  | Some (String c s as storedCredentialStr) =>
      credential ← lift (JSON_parse storedCredentialStr);
      enter credential
  | _ =>
      let options :=
        assembleAuthenticateOptions TextEncoder_encode DemoConfig_challenge
          DemoConfig_rpId in
      authResult ← await (PluginAuthenticate options)
                     (authenticate PasskeyPlugin_authenticate options);
      let credential := extractCredentialOfAuthentication authResult in
      _ ← await (StorageSet CREDENTIAL_STORAGE_KEY (JSON_stringify credential))
            (localStorage_setItem CREDENTIAL_STORAGE_KEY
               (JSON_stringify credential));
      enter credential
  end.

Definition failedMessage (e : error) : string :=
  "Failed to sign in: " +:+ Ui.shown describe e.

(** [signIn]. *)
Definition signIn (stored : option string) : Logged unit :=
  try_catch (attempt stored)
    (fun error =>
       await (DialogAlert (Some "Error") (failedMessage error))
             (Dialog_alert (Some "Error") (failedMessage error))).

(** The credential [signIn] works with, when it gets that far. *)
Definition credentialInUse (stored : option string) (credential : StoredCredential)
  : Prop :=
  match stored with
  | Some (String c s as storedCredentialStr) =>
      JSON_parse storedCredentialStr = Normal credential
  | _ =>
      exists authResult,
        authenticate PasskeyPlugin_authenticate
          (assembleAuthenticateOptions TextEncoder_encode DemoConfig_challenge
             DemoConfig_rpId) = Normal authResult
        /\ credential = extractCredentialOfAuthentication authResult
        /\ localStorage_setItem CREDENTIAL_STORAGE_KEY (JSON_stringify credential)
           = Normal tt
  end.

(** The calls that obtain a credential: to the plugin and to the storage. *)
Definition obtains_credential (c : call) : bool :=
  match c with
  | PluginAuthenticate _ | StorageSet _ _ => true
  | _ => false
  end.

End Page.

End SignIn.

(** ** Reading the balance *)

Module Balance.
Import Stellar Units Effects Wallet Passkey.

Inductive call : Type :=
| PluginAuthenticate (options : AuthenticationOptions)
| SacBalance (id : string)
| DialogAlert (title : option string) (message : string).

Section Page.
Context `{sdk : Sdk}.
(** [new SacClient({ contractId, rpcUrl, networkPassphrase })] *)
Variable newSacClient : string -> string -> string -> completion unit.
(** [sacClient.balance({ id })] and the [result] of its answer. *)
Variable sacBalance : string -> completion Z.
Variable PasskeyPlugin_authenticate : AuthenticationOptions -> completion PluginAssertion.
Variable TextEncoder_encode : string -> list byte.
Variable Dialog_alert : option string -> string -> completion unit.
Variable describe : error -> string.
Variable DemoConfig : WalletServiceConfig.
Variable DemoConfig_challenge DemoConfig_rpId : string.
Variable stellarService : option StellarSmartWalletService.

(** [getWalletBalanceByContract]: the client is constructed before the
    [try] block, whose [catch] logs the error and throws it again. *)
Definition getWalletBalanceByContract (this : StellarSmartWalletService)
    (contractId : string) : Logged Z :=
  _ ← lift (newSacClient (nativeContractId this) (rpcUrl this)
              (networkPassphrase this));
  await (SacBalance contractId) (sacBalance contractId).

Definition failedMessage (e : error) : string :=
  "Failed to get wallet balance: " +:+ Ui.shown describe e.

(** [getWalletBalance]: [None] as a result is [undefined]. *)
Definition getWalletBalance (credentialParam : option StoredCredential)
  : Logged (option string) :=
  try_catch
    (smartWalletSdk ← lift (Ui.getSmartWalletSdk DemoConfig stellarService);
     credential ←
       match credentialParam with
       | Some credential => ret credential
       | None =>
           let options :=
             assembleAuthenticateOptions TextEncoder_encode DemoConfig_challenge
               DemoConfig_rpId in
           authResult ← await (PluginAuthenticate options)
                          (authenticate PasskeyPlugin_authenticate options);
           ret (extractCredentialOfAuthentication authResult)
       end;
     contractId ← lift (deriveContractIdFromPasskeyId smartWalletSdk
                          (cred_rawId credential));
     balance ← getWalletBalanceByContract smartWalletSdk contractId;
     text ← lift (stroopsToXlm (BigIntV balance));
     ret (Some text))
    (fun error =>
       _ ← await (DialogAlert (Some "Error") (failedMessage error))
             (Dialog_alert (Some "Error") (failedMessage error));
       ret None).

End Page.

End Balance.

(** ** More sample inputs and stand-ins *)

Module MoreDoubles.

Definition rs256_sample : gmap Z Cose.value :=
  <[1 := Cose.CInt 3]> (<[3 := Cose.CInt (-257)]>
    (<[-1 := Cose.CBytes [x0a; x0b; x0c]]> (<[-2 := Cose.CBytes [x01; x00; x01]]> ∅))).
(** Stand-ins for the CBOR library and the deployment client. *)
Definition es256_decoder : list byte -> completion Cose.decoded :=
  fun _ => Normal (Cose.DMap Doubles.es256_sample).

(** An authData with a two-byte credential id, followed by four more bytes. *)
Definition authData_with_extension : Uint8Array :=
  of_buffer (replicate 53 x00 ++ [x00; x02] ++ [x11; x22] ++ [xa0; xa1; x01; x02]).
(** A registration result whose attestation object is not inspected by the
    stand-in decoder below. *)
Definition sample_passkey : Wallet.PasskeyRegistrationResult :=
  {| Wallet.reg_id := "AQI";
     Wallet.reg_rawId := [x01; x02];
     Wallet.reg_attestationObject := [xa3];
     Wallet.reg_clientDataJSON := [] |}.

Definition toy_cbor_decode : list byte -> completion Wallet.AttestationObject :=
  fun _ => Normal {| Wallet.fmt := "none";
                     Wallet.authData :=
                       replicate 53 x00 ++ [x00; x02] ++ [x11; x22]
                       ++ [xa0; xa1; x01; x02] |}.

Definition sample_signer : Wallet.Signer :=
  {| Wallet.signer_tag := "Secp256r1";
     Wallet.signer_keyId := Stellar.Buffer_from "AQI=";
     Wallet.signer_publicKey := [x04; x0a; x0b; x0c; x0d];
     Wallet.signer_expiration := None;
     Wallet.signer_limits := None;
     Wallet.signer_storage := "Persistent" |}.

Definition sample_deploy_options : Wallet.DeployOptions :=
  {| Wallet.opt_rpcUrl := "https://rpc-a.example";
     Wallet.opt_wasmHash := "aa11";
     Wallet.opt_networkPassphrase := "Test SDF Network ; September 2015";
     Wallet.opt_publicKey := "GSUBMITTER";
     Wallet.opt_salt := rev (Stellar.Buffer_from "AQI=");
     Wallet.opt_timeoutInSeconds := 60 |}.

(** A ledger that accepts every call and prices the transfer at 4321, with
    builders that accept everything and give the clone the fee option plus
    the resource fee. *)
Definition accepting_ledger : @Transfer.Services unit unit Z string := {|
  Transfer.newSacClient := fun _ _ _ => Normal tt;
  Transfer.newHorizonServer := fun _ => Normal tt;
  Transfer.newRpcServer := fun _ => Normal tt;
  Transfer.loadAccount := fun _ => Normal tt;
  Transfer.sacTransfer := fun _ _ _ => Normal tt;
  Transfer.signAuthEntries := fun _ op => Normal op;
  Transfer.buildTransaction := fun _ => Normal tt;
  Transfer.simulateTransaction := fun _ =>
    Normal {| Transfer.transactionData := Some 4321 |};
  Transfer.cloneTransaction := fun _ _ _ => Normal tt;
  Transfer.clonedFee := fun _ data => Str.of_Z (2 * data);
  Transfer.buildFeeBumpTransaction := fun _ => Normal tt;
  Transfer.sendTransaction := fun _ => Normal "PENDING"
|}.

(** The same ledger behind an RPC address the SDK refuses. *)
Definition refused_rpc : @Transfer.Services unit unit Z string := {|
  Transfer.newSacClient := fun _ _ _ => Normal tt;
  Transfer.newHorizonServer := fun _ => Normal tt;
  Transfer.newRpcServer := fun _ =>
    Throw (Error "Cannot connect to insecure Soroban RPC server");
  Transfer.loadAccount := fun _ => Normal tt;
  Transfer.sacTransfer := fun _ _ _ => Normal tt;
  Transfer.signAuthEntries := fun _ op => Normal op;
  Transfer.buildTransaction := fun _ => Normal tt;
  Transfer.simulateTransaction := fun _ =>
    Normal {| Transfer.transactionData := Some 4321 |};
  Transfer.cloneTransaction := fun _ _ _ => Normal tt;
  Transfer.clonedFee := fun _ data => Str.of_Z (2 * data);
  Transfer.buildFeeBumpTransaction := fun _ => Normal tt;
  Transfer.sendTransaction := fun _ => Normal "PENDING"
|}.

(** What [Doubles.service_a] sends to [accepting_ledger]. *)
Definition sample_fee_bump : @Transfer.FeeBumpTransaction unit unit Z := {|
  Transfer.fb_feeSource := "GSUBMITTER";
  Transfer.fb_baseFee := "4321";
  Transfer.fb_inner := {|
    Transfer.tx_source := tt;
    Transfer.tx_fee := "8642";
    Transfer.tx_networkPassphrase := "Test SDF Network ; September 2015";
    Transfer.tx_operation := tt;
    Transfer.tx_timeout := 300;
    Transfer.tx_sorobanData := Some 4321;
    Transfer.tx_signatures := ["GSUBMITTER"]
  |};
  Transfer.fb_networkPassphrase := "Test SDF Network ; September 2015";
  Transfer.fb_signatures := ["GSUBMITTER"]
|}.

(** A user who enters a contract id and the amount 2.5. *)
Definition sample_prompt : string -> string -> completion Ui.PromptResult :=
  fun title _ =>
    if String.eqb title "Amount"
    then Normal {| Ui.value := "2.5"; Ui.cancelled := false |}
    else Normal {| Ui.value := "CWALLET"; Ui.cancelled := false |}.

Definition sample_parseFloat : string -> number :=
  fun s => if String.eqb s "2.5" then Num.of_decimal 25 1 else Num.NaN.

Definition quiet_alert : option string -> string -> completion unit :=
  fun _ _ => Normal tt.

Definition failing_alert : option string -> string -> completion unit :=
  fun _ _ => Throw (External "dialog unavailable").

Definition sample_config : Stellar.WalletServiceConfig := {|
  Stellar.cfg_contractWasmHash := "aa11";
  Stellar.cfg_submitterSeed := "SUBMITTER";
  Stellar.cfg_horizonUrl := "https://horizon-a.example";
  Stellar.cfg_rpcUrl := "https://rpc-a.example";
  Stellar.cfg_nativeContractId := "CNATIVE";
  Stellar.cfg_networkPassphrase := "Test SDF Network ; September 2015"
|}.

(** A plugin that reports the raw id [0x01 0x02] without padding at
    registration and with padding at sign-in. *)
Definition sample_registration_plugin
  : unit -> completion Passkey.PluginRegistration :=
  fun _ => Normal {| Passkey.created_id := "AQI";
                     Passkey.created_rawId := "AQI";
                     Passkey.created_attestationObject := "ow";
                     Passkey.created_clientDataJSON := "" |}.

Definition sample_assertion_plugin
  : Passkey.AuthenticationOptions -> completion Passkey.PluginAssertion :=
  fun _ => Normal {| Passkey.asserted_id := "AQI";
                     Passkey.asserted_rawId := "AQI=";
                     Passkey.asserted_clientDataJSON := "e30";
                     Passkey.asserted_authenticatorData := "AA";
                     Passkey.asserted_signature := "MEU";
                     Passkey.asserted_userHandle := None |}.

Definition sample_authentication_options : Passkey.AuthenticationOptions :=
  {| Passkey.challenge := "Y2hhbGxlbmdl";
     Passkey.rpId := "localhost";
     Passkey.allowCredentials := [];
     Passkey.userVerification := "required";
     Passkey.timeout := 60000 |}.

Definition sample_authentication : Passkey.PasskeyAuthenticationResult :=
  {| Passkey.auth_id := "AQI";
     Passkey.auth_rawId := [x01; x02];
     Passkey.auth_clientDataJSON := [x7b; x7d];
     Passkey.auth_authenticatorData := [x00];
     Passkey.auth_signature := [x30; x45];
     Passkey.auth_userHandle := None |}.

(** A storage that holds the credential of [sample_passkey], and a ledger on
    which every contract exists. *)
Definition sample_JSON_parse : string -> completion Wallet.StoredCredential :=
  fun _ => Normal {| Wallet.cred_id := "AQI"; Wallet.cred_rawId := "AQI=" |}.

Definition sample_JSON_stringify : Wallet.StoredCredential -> string :=
  fun credential => Wallet.cred_id credential +:+ ":" +:+ Wallet.cred_rawId credential.

Definition every_contract_exists : unit -> unit -> completion unit :=
  fun _ _ => Normal tt.

(** The contract of the credential "AQI=" for [Doubles.service_a]. *)
Definition sample_contract : string :=
  Eval vm_compute in
    match Stellar.deriveContractIdFromPasskeyId Doubles.service_a "AQI=" with
    | Normal contractId => contractId
    | Throw _ => ""
    end.

End MoreDoubles.
Import MoreDoubles.

(** * Properties *)

#[local] Arguments String.append : simpl nomatch.

(** [lia] with the quotients and remainders by constants spelled out. *)
Ltac lia_div := zify; Z.to_euclidean_division_equations; lia.

(** ** The key extractor *)

Module CoseFacts.
Import Cose Doubles.

Lemma set_fits (target source : list byte) (offset : nat) :
  (length source + offset <= length target)%nat ->
  TypedArray.set target source offset
  = Normal (take offset target ++ source ++ drop (offset + length source) target).
Proof.
  intros Hfit. unfold TypedArray.set.
  destruct (Nat.ltb_spec (length target) (length source + offset)); [lia | reflexivity].
Qed.


(** Writing the marker byte and both coordinates fills the whole key. *)
Lemma uncompressed_point_layout (x y : list byte) :
  let rawKey := <[0%nat := x04]> (replicate (1 + length x + length y) x00) in
  take (1 + length x) (take 1 rawKey ++ x ++ drop (1 + length x) rawKey)
    ++ y
    ++ drop (1 + length x + length y)
         (take 1 rawKey ++ x ++ drop (1 + length x) rawKey)
  = x04 :: x ++ y.
Proof.
  cbn [Nat.add replicate]. simpl.
  rewrite take_app_length.
  rewrite drop_ge by (rewrite length_app, length_drop, length_replicate; lia).
  now rewrite app_nil_r.
Qed.

(** [C1] For every decoded COSE key whose key type (label 1) is 2 and whose
    algorithm (label 3) is -7, with the coordinates x (label -2) and y
    (label -3) present as byte strings of the curve's coordinate width, the
    extractor returns exactly the byte 0x04 followed by x and then y, of
    length 1 + 2 * width. *)
Theorem es256_uncompressed_point `{platform : Platform}
    (coseKey : gmap Z value) (x y : list byte) (width : nat) :
  coseKey !! 1 = Some (CInt 2) ->
  coseKey !! 3 = Some (CInt (-7)) ->
  coseKey !! (-2) = Some (CBytes x) ->
  coseKey !! (-3) = Some (CBytes y) ->
  length x = width ->
  length y = width ->
  extractRawPublicKeyFromCoseKey coseKey = Normal (x04 :: x ++ y)
  /\ length (x04 :: x ++ y) = (1 + 2 * width)%nat.
Proof.
  intros Hkty Halg Hx Hy Hlx Hly. split.
  - unfold extractRawPublicKeyFromCoseKey.
    rewrite Hkty, Halg, Hx, Hy. cbn [strict_eq_num truthy negb orb andb Z.eqb Pos.eqb].
    cbn [length_of elements plus]. unfold alloc, default. cbn [from_option id].
    rewrite set_fits
      by (rewrite length_insert, length_replicate; lia).
    cbn [mbind completion_bind].
    rewrite set_fits
      by (rewrite !length_app, length_take, length_drop, length_insert,
            length_replicate; lia).
    cbn [mbind completion_bind]. f_equal.
    apply uncompressed_point_layout.
  - cbn [length]. rewrite length_app. lia.
Qed.

Lemma es256_uncompressed_point_witness :
  extractRawPublicKeyFromCoseKey (platform := toy_platform) es256_sample
  = Normal [x04; x0a; x0b; x0c; x0d]
  /\ length [x04; x0a; x0b; x0c; x0d] = 5%nat.
Proof.
  apply (es256_uncompressed_point (platform := toy_platform) es256_sample
           [x0a; x0b] [x0c; x0d] 2);
    reflexivity.
Defined.




(** A byte string under the key-type label is named by its text: with a
    buffer class that prints the bytes 0x61 0x62 as "ab", the message reads
    "kty=ab". *)
Lemma byte_string_label_named :
  extractRawPublicKeyFromCoseKey (platform := toy_platform) bytes_kty_sample
  = Throw (Error "Unsupported COSE key: kty=ab, alg=-7. Supported: ES256 (kty=2, alg=-7) or RS256 (kty=3, alg=-257)").
Proof. reflexivity. Qed.

(** [C4], as stated, fails: an empty coordinate is not rejected, the key is
    emitted without it. *)
Lemma empty_coordinate_accepted :
  es256_empty_x !! 1 = Some (CInt 2)
  /\ es256_empty_x !! 3 = Some (CInt (-7))
  /\ es256_empty_x !! (-2) = Some (CBytes [])
  /\ (forall platform : Platform,
        extractRawPublicKeyFromCoseKey es256_empty_x = Normal [x04; x0c; x0d]).
Proof. repeat split. Qed.

(** [C4], amended: for every COSE key with key type 2 and algorithm -7 whose
    x or y field is absent the extractor throws the "Malformed ES256" error,
    and for every key with key type 3 and algorithm -257 whose modulus or
    exponent is absent it throws the "Malformed RS256" error; no key is
    emitted.  (An empty byte string counts as present.) *)
Theorem missing_field_rejected `{platform : Platform} (coseKey : gmap Z value) :
  (coseKey !! 1 = Some (CInt 2) -> coseKey !! 3 = Some (CInt (-7)) ->
   coseKey !! (-2) = None \/ coseKey !! (-3) = None ->
   extractRawPublicKeyFromCoseKey coseKey
   = Throw (Error "Malformed ES256 COSE key: missing x or y"))
  /\
  (coseKey !! 1 = Some (CInt 3) -> coseKey !! 3 = Some (CInt (-257)) ->
   coseKey !! (-1) = None \/ coseKey !! (-2) = None ->
   extractRawPublicKeyFromCoseKey coseKey
   = Throw (Error "Malformed RS256 COSE key: missing n or e")).
Proof.
  split; intros Hkty Halg Hmiss; unfold extractRawPublicKeyFromCoseKey;
    rewrite Hkty, Halg; cbn [strict_eq_num andb Z.eqb Pos.eqb].
  - destruct Hmiss as [-> | ->]; cbn [truthy negb orb]; [reflexivity |].
    now rewrite orb_true_r.
  - destruct Hmiss as [-> | ->]; cbn [truthy negb orb]; [reflexivity |].
    now rewrite orb_true_r.
Qed.

Lemma missing_field_rejected_witness :
  extractRawPublicKeyFromCoseKey (platform := toy_platform) es256_no_y
  = Throw (Error "Malformed ES256 COSE key: missing x or y")
  /\ extractRawPublicKeyFromCoseKey (platform := toy_platform) rs256_no_e
     = Throw (Error "Malformed RS256 COSE key: missing n or e").
Proof.
  split.
  - apply (proj1 (missing_field_rejected (platform := toy_platform) es256_no_y));
      [reflexivity .. |].
    right; reflexivity.
  - apply (proj2 (missing_field_rejected (platform := toy_platform) rs256_no_e));
      [reflexivity .. |].
    right; reflexivity.
Defined.

End CoseFacts.

(** ** The authData parser *)

Module AuthDataFacts.
Import Cose Doubles.

Lemma getUint16_outside (view : list byte) (off : nat) :
  (length view < off + 2)%nat -> getUint16 view off = Throw RangeError.
Proof.
  intros Hshort. unfold getUint16.
  destruct (view !! off) as [hi |] eqn:Ehi; [| reflexivity].
  rewrite (lookup_ge_None_2 view (off + 1)) by lia. reflexivity.
Qed.

Lemma getUint16_declared (authData : list byte) (n : nat) :
  declaredCredIdLen authData = Some n ->
  getUint16 authData 53 = Normal (Z.of_nat n).
Proof.
  unfold declaredCredIdLen, getUint16. cbn [Nat.add].
  destruct (authData !! 53%nat) as [hi |]; [| discriminate].
  destruct (authData !! 54%nat) as [lo |]; [| discriminate].
  intros [= <-]. f_equal. lia.
Qed.

Lemma bytes_of_length (a : Uint8Array) : (length (bytes_of a) <= byteLength a)%nat.
Proof.
  unfold bytes_of, ArrayBuffer_slice. rewrite length_take. lia.
Qed.

Section Parse.
Context `{platform : Platform}.
Variable decodeFirstSync : list byte -> completion decoded.

Lemma parse_too_short (a : Uint8Array) :
  (length (bytes_of a) < 55)%nat ->
  coseKeyBytesOf a = Throw RangeError.
Proof.
  intros Hshort. unfold coseKeyBytesOf.
  fold (bytes_of a).
  change (RP_ID_HASH_LENGTH + FLAGS_LENGTH + SIGNATURE_COUNTER_LENGTH
          + AAGUID_LENGTH)%nat with 53%nat.
  rewrite getUint16_outside by lia. reflexivity.
Qed.

Lemma parse_no_key (a : Uint8Array) (n : nat) :
  declaredCredIdLen (bytes_of a) = Some n ->
  (length (bytes_of a) <= 55 + n)%nat ->
  coseKeyBytesOf a = Throw (Error "COSE key not found in authData").
Proof.
  intros Hdecl Hshort. unfold coseKeyBytesOf.
  fold (bytes_of a).
  change (RP_ID_HASH_LENGTH + FLAGS_LENGTH + SIGNATURE_COUNTER_LENGTH
          + AAGUID_LENGTH)%nat with 53%nat.
  rewrite (getUint16_declared _ _ Hdecl). cbn [mbind completion_bind].
  unfold ArrayBuffer_slice_from, CRED_ID_LENGTH_BYTES.
  rewrite Nat2Z.id, length_drop.
  destruct (Nat.eqb_spec (length (bytes_of a) - (53 + 2 + n)) 0); [reflexivity | lia].
Qed.

(** Once the layout is parsed and the decoder yields a map, the result is
    the dispatch on that map. *)
Lemma extract_through_decoder (a : Uint8Array) (coseKeyBytes : list byte)
    (coseKey : gmap Z value) :
  coseKeyBytesOf a = Normal coseKeyBytes ->
  decodeFirstSync coseKeyBytes = Normal (DMap coseKey) ->
  extractRawPublicKeyFromAuthData decodeFirstSync a
  = extractRawPublicKeyFromCoseKey coseKey.
Proof.
  intros Hparse Hdecode. unfold extractRawPublicKeyFromAuthData.
  rewrite Hparse. cbn [mbind completion_bind]. now rewrite Hdecode.
Qed.

(** [C5] For every authData view whose bytes are fewer than 55 the parser
    throws (the [RangeError] of the bounds-checked 16-bit read), and for every
    view shorter than 55 bytes plus the credential-id length it declares the
    parser throws "COSE key not found in authData"; both are failures of the
    fixed-layout parse.  The result depends on the bytes of the view only:
    nothing outside them is read, whatever the backing buffer holds. *)
Theorem short_authData_rejected (a : Uint8Array) :
  ((length (bytes_of a) < 55)%nat ->
   extractRawPublicKeyFromAuthData decodeFirstSync a = Throw RangeError
   /\ MalformedAuthData RangeError)
  /\ (forall n : nat,
        declaredCredIdLen (bytes_of a) = Some n ->
        (length (bytes_of a) < 55 + n)%nat ->
        extractRawPublicKeyFromAuthData decodeFirstSync a
        = Throw (Error "COSE key not found in authData")
        /\ MalformedAuthData (Error "COSE key not found in authData"))
  /\ (forall a' : Uint8Array,
        bytes_of a' = bytes_of a ->
        extractRawPublicKeyFromAuthData decodeFirstSync a'
        = extractRawPublicKeyFromAuthData decodeFirstSync a).
Proof.
  split; [| split].
  - intros Hshort. split; [| now left].
    unfold extractRawPublicKeyFromAuthData.
    now rewrite parse_too_short.
  - intros n Hdecl Hshort. split; [| now right].
    unfold extractRawPublicKeyFromAuthData.
    rewrite (parse_no_key a n Hdecl) by lia. reflexivity.
  - intros a' Hsame.
    unfold extractRawPublicKeyFromAuthData, coseKeyBytesOf.
    fold (bytes_of a') (bytes_of a). now rewrite Hsame.
Qed.

End Parse.

Lemma short_authData_rejected_witness :
  Cose.extractRawPublicKeyFromAuthData (platform := toy_platform)
    no_map_decoder truncated_view
  = Throw RangeError
  /\ Cose.extractRawPublicKeyFromAuthData (platform := toy_platform)
       no_map_decoder truncated_credential
     = Throw (Error "COSE key not found in authData").
Proof.
  split.
  - destruct (short_authData_rejected (platform := toy_platform)
                no_map_decoder truncated_view)
      as [H _].
    apply H. vm_compute. lia.
  - destruct (short_authData_rejected (platform := toy_platform) no_map_decoder
                truncated_credential) as [_ [H _]].
    apply (H 16%nat); [reflexivity | vm_compute; lia].
Defined.

End AuthDataFacts.


(** ** Decimal strings *)


Module StrFacts.
Import Str.

Lemma append_nil_r (s : string) : s +:+ "" = s.
Proof. induction s as [| c s IH]; simpl; [reflexivity | now rewrite IH]. Qed.

Lemma append_assoc (s t u : string) : (s +:+ t) +:+ u = s +:+ (t +:+ u).
Proof. induction s as [| c s IH]; simpl; [reflexivity | now rewrite IH]. Qed.

Lemma length_append (s t : string) :
  String.length (s +:+ t) = (String.length s + String.length t)%nat.
Proof. induction s as [| c s IH]; simpl; [reflexivity | now rewrite IH]. Qed.

Lemma length_repeat_char (c : ascii) (n : nat) : String.length (repeat_char c n) = n.
Proof. induction n as [| n IH]; simpl; [reflexivity | now rewrite IH]. Qed.

Lemma digit_value_digit (d : N) : (d < 10)%N -> digit_value (digit d) = Some d.
Proof.
  intros Hd.
  assert (Hcases : In d [0; 1; 2; 3; 4; 5; 6; 7; 8; 9]%N).
  { destruct d as [| p]; [now left |].
    do 4 (destruct p as [p | p |]; try lia; simpl; auto 12). }
  simpl in Hcases.
  repeat (destruct Hcases as [<- | Hcases]; [reflexivity |]).
  destruct Hcases.
Qed.

Lemma value_acc_append (s t : string) (a : N) :
  value_acc (s +:+ t) a = value_acc s a ≫= value_acc t.
Proof.
  revert a. induction s as [| c s IH]; intros a; simpl; [reflexivity |].
  destruct (digit_value c); [apply IH | reflexivity].
Qed.

Lemma digits_acc_append (fuel : nat) (n : N) (acc : string) :
  digits_acc fuel n acc = digits_acc fuel n "" +:+ acc.
Proof.
  revert n acc. induction fuel as [| f IH]; intros n acc; simpl; [reflexivity |].
  destruct (n / 10 =? 0)%N; [reflexivity |].
  rewrite (IH _ (String _ acc)), (IH _ (String _ "")).
  now rewrite append_assoc.
Qed.

(** Reading the digits of [n] after an accumulated prefix [a]. *)
Lemma value_acc_digits (fuel : nat) (n a : N) :
  (n < 10 ^ N.of_nat (S fuel))%N ->
  value_acc (digits_acc fuel n "") a
  = Some (a * 10 ^ N.of_nat (String.length (digits_acc fuel n "")) + n)%N.
Proof.
  revert n a. induction fuel as [| f IH]; intros n a Hn.
  - simpl in *. rewrite N.mod_small by lia.
    rewrite digit_value_digit by lia. simpl. f_equal. lia.
  - cbn [digits_acc].
    destruct (N.eqb_spec (n / 10) 0) as [Hz | Hnz].
    + assert (n < 10)%N by (apply N.div_small_iff in Hz; lia).
      rewrite N.mod_small by lia. simpl.
      rewrite digit_value_digit by lia. simpl. f_equal. lia.
    + rewrite digits_acc_append, value_acc_append.
      assert (Hq : (n / 10 < 10 ^ N.of_nat (S f))%N).
      { apply N.Div0.div_lt_upper_bound.
        replace (N.of_nat (S (S f))) with (N.succ (N.of_nat (S f))) in Hn by lia.
        rewrite N.pow_succ_r' in Hn. exact Hn. }
      rewrite (IH _ a Hq). cbn [mbind option_bind value_acc].
      rewrite digit_value_digit by (apply N.mod_lt; lia).
      rewrite length_append. cbn [String.length].
      f_equal.
      replace (N.of_nat (String.length (digits_acc f (n / 10) "") + 1))
        with (N.succ (N.of_nat (String.length (digits_acc f (n / 10) "")))) by lia.
      rewrite N.pow_succ_r'.
      pose proof (N.div_mod n 10 ltac:(lia)). lia.
Qed.

Lemma size_fuel_enough (n : N) : (n < 10 ^ N.of_nat (S (N.to_nat (N.size n))))%N.
Proof.
  apply N.lt_le_trans with (2 ^ N.size n)%N; [apply N.size_gt |].
  replace (N.of_nat (S (N.to_nat (N.size n)))) with (N.succ (N.size n)) by lia.
  rewrite N.pow_succ_r'.
  apply N.le_trans with (10 ^ N.size n)%N; [apply N.pow_le_mono_l; lia |].
  assert (0 < 10 ^ N.size n)%N by (apply N.neq_0_lt_0, N.pow_nonzero; lia).
  lia.
Qed.

(** The decimal rendering reads back as the number. *)
Lemma value_of_N (n : N) : value (of_N n) = Some n.
Proof.
  unfold value, of_N. rewrite value_acc_digits by apply size_fuel_enough.
  f_equal.
Qed.

(** A number below [10^k] has at most [k] digits. *)
Lemma length_digits (fuel : nat) (n : N) (k : nat) :
  (n < 10 ^ N.of_nat k)%N ->
  (String.length (digits_acc fuel n "") <= Nat.max 1 k)%nat.
Proof.
  revert n k. induction fuel as [| f IH]; intros n k Hn; simpl; [lia |].
  destruct (N.eqb_spec (n / 10) 0) as [Hz | Hnz]; simpl; [lia |].
  rewrite digits_acc_append, length_append. simpl.
  destruct k as [| k].
  { simpl in Hn. assert (n = 0)%N by lia. subst. now destruct Hnz. }
  assert (Hq : (n / 10 < 10 ^ N.of_nat k)%N).
  { apply N.Div0.div_lt_upper_bound.
    replace (N.of_nat (S k)) with (N.succ (N.of_nat k)) in Hn by lia.
    rewrite N.pow_succ_r' in Hn. exact Hn. }
  specialize (IH _ _ Hq).
  destruct k as [| k]; [| lia].
  change (10 ^ N.of_nat 0)%N with 1%N in Hq. lia_div.
Qed.

Lemma value_acc_zeros (k : nat) (s : string) :
  value_acc (repeat_char "0" k +:+ s) 0 = value_acc s 0.
Proof. induction k as [| k IH]; simpl; [reflexivity | exact IH]. Qed.

Lemma value_acc_trailing_zeros (s : string) (k : nat) (a : N) :
  value_acc (s +:+ repeat_char "0" k) a
  = (fun v => v * 10 ^ N.of_nat k)%N <$> value_acc s a.
Proof.
  rewrite value_acc_append.
  destruct (value_acc s a) as [v |]; [| reflexivity]. cbn [mbind option_bind fmap option_fmap option_map].
  revert v. induction k as [| k IH]; intros v.
  - cbn. f_equal. lia.
  - cbn [repeat_char value_acc]. change (digit_value "0") with (Some 0%N).
    cbn iota. rewrite IH. f_equal.
    rewrite Nat2N.inj_succ, N.pow_succ_r'. lia.
Qed.

(** What [strip_trailing] removes is a run of the stripped character. *)
Lemma strip_trailing_spec (c : ascii) (s : string) :
  s = strip_trailing c s
      +:+ repeat_char c (String.length s - String.length (strip_trailing c s)).
Proof.
  induction s as [| a r IH]; [reflexivity |].
  cbn [strip_trailing].
  destruct (strip_trailing c r) as [| b r'] eqn:E.
  - simpl in IH. rewrite Nat.sub_0_r in IH.
    destruct (Ascii.eqb_spec a c) as [-> | Hne]; simpl.
    + now rewrite <- IH.
    + rewrite Nat.sub_0_r. now rewrite <- IH.
  - simpl in *. now rewrite <- IH.
Qed.

Lemma strip_trailing_length (c : ascii) (s : string) :
  (String.length (strip_trailing c s) <= String.length s)%nat.
Proof.
  induction s as [| a r IH]; [reflexivity |].
  cbn [strip_trailing].
  destruct (strip_trailing c r) as [| b r'].
  - destruct (Ascii.eqb a c); simpl; lia.
  - simpl in *. lia.
Qed.

Lemma strip_trailing_last (c : ascii) (s : string) :
  last_char (strip_trailing c s) <> Some c.
Proof.
  induction s as [| a r IH]; [discriminate |].
  cbn [strip_trailing].
  destruct (strip_trailing c r) as [| b r'] eqn:E.
  - destruct (Ascii.eqb_spec a c); simpl; congruence.
  - exact IH.
Qed.

End StrFacts.

(** ** The unit converter *)

Module UnitsFacts.
Import Str StrFacts Units.

Lemma of_Z_nonneg (z : Z) : 0 <= z -> Str.of_Z z = Str.of_N (Z.to_N z).
Proof. destruct z; [reflexivity | reflexivity | lia]. Qed.

(** The remainder is rendered with exactly seven digits. *)
Lemma seven_digits (r : N) :
  (r < scale)%N ->
  String.length (padStart 7 "0" (of_N r)) = 7%nat
  /\ value (padStart 7 "0" (of_N r)) = Some r.
Proof.
  intros Hr.
  assert (Hlen : (String.length (of_N r) <= 7)%nat)
    by (apply (length_digits _ r 7); exact Hr).
  unfold padStart. split.
  - rewrite length_append, length_repeat_char. lia.
  - unfold value. rewrite value_acc_zeros. apply value_of_N.
Qed.

(** The fraction digits denote the remainder, scaled back to seven places. *)
Lemma fraction_exact (r : N) :
  (r < scale)%N ->
  let f := strip_trailing "0" (padStart 7 "0" (of_N r)) in
  (String.length f <= 7)%nat
  /\ exists v, value f = Some v
               /\ (v * 10 ^ (7 - N.of_nat (String.length f)) = r)%N.
Proof.
  intros Hr f. destruct (seven_digits r Hr) as [Hlen Hval].
  pose proof (strip_trailing_length "0" (padStart 7 "0" (of_N r))) as Hle.
  fold f in Hle. rewrite Hlen in Hle. split; [exact Hle |].
  pose proof (strip_trailing_spec "0" (padStart 7 "0" (of_N r))) as Hspec.
  fold f in Hspec. rewrite Hlen in Hspec.
  unfold value in Hval. rewrite Hspec, value_acc_trailing_zeros in Hval.
  fold (value f) in Hval.
  destruct (value f) as [v |]; [| discriminate].
  exists v. split; [reflexivity |].
  injection Hval as Hval. rewrite <- Hval. f_equal. f_equal. lia.
Qed.

Lemma fraction_empty_iff (r : N) :
  (r < scale)%N ->
  strip_trailing "0" (padStart 7 "0" (of_N r)) = "" <-> r = 0%N.
Proof.
  intros Hr. split.
  - intros Hempty. destruct (fraction_exact r Hr) as [_ (v & Hv & Hexact)].
    rewrite Hempty in Hv, Hexact. injection Hv as <-. lia.
  - intros ->. reflexivity.
Qed.

(** A digit string has no dot. *)
Lemma split_dot_whole (w : string) (a v : N) :
  value_acc w a = Some v -> split_dot w = (w, None).
Proof.
  revert a. induction w as [| c w IH]; intros a Hw; [reflexivity |].
  cbn [value_acc] in Hw. cbn [split_dot].
  destruct (Ascii.eqb_spec c ".") as [-> | _]; [discriminate |].
  destruct (digit_value c); [| discriminate].
  now rewrite (IH _ Hw).
Qed.

Lemma split_dot_fraction (w f : string) (a v : N) :
  value_acc w a = Some v -> split_dot (w +:+ String "." f) = (w, Some f).
Proof.
  revert a. induction w as [| c w IH]; intros a Hw; [reflexivity |].
  cbn [value_acc] in Hw. cbn [split_dot append].
  destruct (Ascii.eqb_spec c ".") as [-> | _]; [discriminate |].
  destruct (digit_value c); [| discriminate].
  now rewrite (IH _ Hw).
Qed.

Lemma dot_append (f : string) : "." +:+ f = String "." f.
Proof. reflexivity. Qed.

(** On the non-negative integers the code computes what the specification
    words. *)
Lemma stroopsToXlm_refines (n : Z) :
  0 <= n -> stroopsToXlm (BigIntV n) = Normal (toBaseUnit_spec (Z.to_N n)).
Proof.
  intros Hn. unfold stroopsToXlm, toBaseUnit_spec. cbn [mbind completion_bind].
  rewrite Z.quot_div_nonneg, Z.rem_mod_nonneg by lia.
  rewrite !of_Z_nonneg
    by (try apply Z.div_pos; try apply Z.mod_pos_bound; lia).
  change 10000000 with (Z.of_N scale).
  rewrite Z2N.inj_div, Z2N.inj_mod, N2Z.id by lia.
  assert (Hr : (Z.to_N n mod scale < scale)%N) by (apply N.mod_lt; discriminate).
  pose proof (fraction_empty_iff _ Hr) as Hempty.
  destruct (N.eqb_spec (Z.to_N n mod scale) 0) as [Hz | Hnz].
  - now rewrite (proj2 Hempty Hz).
  - destruct (strip_trailing "0" (padStart 7 "0" (of_N (Z.to_N n mod scale))));
      [now destruct Hnz; apply Hempty | reflexivity].
Qed.

(** The rendered string denotes the subunit count exactly. *)
Lemma toBaseUnit_spec_exact (n : N) :
  subunits_of_decimal (toBaseUnit_spec n) = Some n.
Proof.
  unfold toBaseUnit_spec, subunits_of_decimal.
  pose proof (value_of_N (n / scale)) as Hw.
  pose proof (N.div_mod n scale ltac:(discriminate)) as Hdm.
  destruct (N.eqb_spec (n mod scale) 0) as [Hz | Hnz].
  - rewrite (split_dot_whole _ _ _ Hw). cbn [default from_option id].
    rewrite Hw. cbn. f_equal. lia.
  - assert (Hr : (n mod scale < scale)%N) by (apply N.mod_lt; discriminate).
    destruct (fraction_exact _ Hr) as [Hlen (v & Hv & Hexact)].
    rewrite dot_append, (split_dot_fraction _ _ _ _ Hw). cbn [default from_option id].
    rewrite Hw, Hv. cbn [mbind option_bind].
    destruct (Nat.leb_spec
                (String.length
                   (strip_trailing "0" (padStart 7 "0" (of_N (n mod scale))))) 7);
      [| lia].
    f_equal. rewrite Hexact. lia.
Qed.

(** A rendered fraction is never empty and never ends in a zero. *)
Lemma toBaseUnit_spec_fraction (n : N) (w f : string) :
  split_dot (toBaseUnit_spec n) = (w, Some f) ->
  f <> "" /\ last_char f <> Some "0"%char /\ (String.length f <= 7)%nat
  /\ (n mod scale <> 0)%N.
Proof.
  unfold toBaseUnit_spec.
  pose proof (value_of_N (n / scale)) as Hw.
  destruct (N.eqb_spec (n mod scale) 0) as [Hz | Hnz].
  - rewrite (split_dot_whole _ _ _ Hw). discriminate.
  - rewrite dot_append, (split_dot_fraction _ _ _ _ Hw). intros [= <- <-].
    assert (Hr : (n mod scale < scale)%N) by (apply N.mod_lt; discriminate).
    repeat split.
    + intros Hempty. apply Hnz. now apply fraction_empty_iff.
    + apply strip_trailing_last.
    + apply (fraction_exact _ Hr).
    + exact Hnz.
Qed.

(** [C6] For every non-negative subunit count [n], [stroopsToXlm] returns the
    string the specification words: the integer quotient by 10,000,000, and,
    unless the remainder is zero, a dot and the remainder as seven zero-padded
    digits without the trailing zeros.  That string denotes [n] exactly, and
    a fraction it shows is non-empty, at most seven digits long and does not
    end in a zero.  In particular 100000000 gives "10", 10000001 gives
    "1.0000001" and 0 gives "0". *)
Theorem stroopsToXlm_exact :
  (forall n : Z, 0 <= n ->
     stroopsToXlm (BigIntV n) = Normal (toBaseUnit_spec (Z.to_N n))
     /\ subunits_of_decimal (toBaseUnit_spec (Z.to_N n)) = Some (Z.to_N n)
     /\ (forall w f, split_dot (toBaseUnit_spec (Z.to_N n)) = (w, Some f) ->
           f <> "" /\ last_char f <> Some "0"%char
           /\ (String.length f <= 7)%nat))
  /\ stroopsToXlm (BigIntV 100000000) = Normal "10"
  /\ stroopsToXlm (BigIntV 10000001) = Normal "1.0000001"
  /\ stroopsToXlm (BigIntV 0) = Normal "0".
Proof.
  split; [| repeat split].
  intros n Hn. split; [now apply stroopsToXlm_refines |].
  split; [apply toBaseUnit_spec_exact |].
  intros w f Hsplit.
  destruct (toBaseUnit_spec_fraction _ _ _ Hsplit) as (H1 & H2 & H3 & _).
  auto.
Qed.

Lemma stroopsToXlm_exact_witness :
  stroopsToXlm (BigIntV 12345678901234567890)
  = Normal "1234567890123.456789"
  /\ subunits_of_decimal "1234567890123.456789" = Some 12345678901234567890%N.
Proof.
  destruct stroopsToXlm_exact as [H _].
  destruct (H 12345678901234567890 ltac:(lia)) as (H1 & H2 & _).
  split; [exact H1 | exact H2].
Defined.

End UnitsFacts.

(** ** Numbers *)

Module NumFacts.

Lemma iter_xO_value (m : positive) (d : positive) :
  Zpos (Pos.iter xO m d) = Zpos m * 2 ^ Zpos d.
Proof.
  revert m. induction d as [| d IH] using Pos.peano_ind; intros m.
  - cbn [Pos.iter]. lia.
  - rewrite Pos.iter_succ, Pos2Z.inj_succ, Z.pow_succ_r by lia.
    specialize (IH m). set (p := 2 ^ Z.pos d) in *. clearbody p. lia.
Qed.

Lemma iter_xO_digits (m : positive) (d : positive) :
  Zpos (digits2_pos (Pos.iter xO m d)) = Zpos (digits2_pos m) + Zpos d.
Proof.
  revert m. induction d as [| d IH] using Pos.peano_ind; intros m.
  - simpl. lia.
  - rewrite Pos.iter_succ. cbn [digits2_pos]. rewrite Pos2Z.inj_succ, IH. lia.
Qed.

Lemma digits2_pos_bound (m : positive) :
  2 ^ (Zpos (digits2_pos m) - 1) <= Zpos m < 2 ^ Zpos (digits2_pos m).
Proof.
  induction m as [m IH | m IH |]; cbn [digits2_pos].
  - rewrite Pos2Z.inj_succ.
    replace (Z.succ (Zpos (digits2_pos m)) - 1) with (Z.succ (Zpos (digits2_pos m) - 1)) by lia.
    rewrite !Z.pow_succ_r by lia.
    set (a := 2 ^ (Z.pos (digits2_pos m) - 1)) in *.
    set (b := 2 ^ Z.pos (digits2_pos m)) in *. clearbody a b. lia.
  - rewrite Pos2Z.inj_succ.
    replace (Z.succ (Zpos (digits2_pos m)) - 1) with (Z.succ (Zpos (digits2_pos m) - 1)) by lia.
    rewrite !Z.pow_succ_r by lia.
    set (a := 2 ^ (Z.pos (digits2_pos m) - 1)) in *.
    set (b := 2 ^ Z.pos (digits2_pos m)) in *. clearbody a b. lia.
  - simpl. lia.
Qed.

(** An integer of at most 53 bits is normalised without rounding. *)
Lemma binary_round_exact (s : bool) (m : positive) :
  Zpos (digits2_pos m) <= 53 ->
  to_BigInt (binary_round prec emax s m 0) = Normal (cond_Zopp s (Zpos m)).
Proof.
  intros Hd. unfold binary_round, shl_align, fexp, emin, prec, emax.
  set (D := Zpos (digits2_pos m)) in *.
  assert (HD : 1 <= D) by (unfold D; lia).
  replace (Z.max (D + 0 - 53) (3 - 1024 - 53)) with (D - 53) by lia.
  destruct (D - 53 - 0) as [| p | p] eqn:Ediff; [| lia |].
  - (* already 53 bits *)
    unfold binary_round_aux, shr_fexp, shr, fexp, emin. cbn [Zdigits2 shr_record_of_loc].
    fold D. replace (Z.max (D + 0 - 53) (3 - 1024 - 53) - 0) with 0 by lia.
    cbn [shr_m loc_of_shr_record round_nearest_even Zdigits2].
    fold D. replace (Z.max (D + 0 - 53) (3 - 1024 - 53) - 0) with 0 by lia.
    cbn [shr_m]. change (0 <=? 1024 - 53) with true. cbn iota.
    unfold to_BigInt. change (0 <=? 0) with true. cbn iota.
    rewrite Z.pow_0_r, Z.mul_1_r. reflexivity.
  - unfold binary_round_aux, shr_fexp, shr, fexp, emin. cbn [Zdigits2 shr_record_of_loc].
    rewrite iter_xO_digits. fold D.
    replace (Z.max (D + Zpos p + (D - 53) - 53) (3 - 1024 - 53) - (D - 53)) with 0 by lia.
    cbn [shr_m loc_of_shr_record round_nearest_even Zdigits2].
    rewrite iter_xO_digits. fold D.
    replace (Z.max (D + Zpos p + (D - 53) - 53) (3 - 1024 - 53) - (D - 53)) with 0 by lia.
    cbn [shr_m].
    destruct (Z.leb_spec (D - 53) (1024 - 53)); [| lia].
    unfold to_BigInt.
    destruct (Z.leb_spec 0 (D - 53)); [lia |].
    replace (- (D - 53)) with (Zpos p) by lia.
    rewrite iter_xO_value.
    rewrite Z.mod_mul by (apply Z.pow_nonzero; lia).
    rewrite Z.div_mul by (apply Z.pow_nonzero; lia).
    reflexivity.
Qed.

Lemma digits_of_bounded (p : positive) :
  Zpos p < 2 ^ 53 -> Zpos (digits2_pos p) <= 53.
Proof.
  intros Hp. pose proof (digits2_pos_bound p) as [Hlow _].
  destruct (Z.le_gt_cases (Zpos (digits2_pos p)) 53) as [Hle | Hgt]; [exact Hle |].
  assert (2 ^ 53 <= 2 ^ (Zpos (digits2_pos p) - 1))
    by (apply Z.pow_le_mono_r; lia).
  lia.
Qed.

(** The number of an integer of at most 53 bits converts back to it. *)
Lemma binary_normalize_exact (k : Z) (s : bool) :
  Z.abs k < 2 ^ 53 ->
  to_BigInt (binary_normalize prec emax k 0 s) = Normal k.
Proof.
  intros Hk. destruct k as [| p | p]; cbn [binary_normalize].
  - reflexivity.
  - rewrite binary_round_exact by (apply digits_of_bounded; lia). reflexivity.
  - rewrite binary_round_exact by (apply digits_of_bounded; lia). reflexivity.
Qed.

Lemma round_half_up_nearest (s : bool) (m : positive) (e : Z) :
  e < 0 -> nearest_half_up s m e (round_half_up s m e).
Proof.
  intros He. unfold nearest_half_up, round_half_up.
  assert (Hd : 0 < 2 ^ (- e)) by (apply Z.pow_pos_nonneg; lia).
  set (d := 2 ^ (- e)) in *. clearbody d.
  set (a := cond_Zopp s (2 * Zpos m) + d). clearbody a.
  pose proof (Z.mul_div_le a (2 * d) ltac:(lia)).
  pose proof (Z.mul_succ_div_gt a (2 * d) ltac:(lia)).
  lia.
Qed.

Lemma round_half_up_bounded (s : bool) (m : positive) (e : Z) :
  e < 0 -> Zpos (digits2_pos m) <= 53 ->
  Z.abs (round_half_up s m e) < 2 ^ 53.
Proof.
  intros He Hm.
  assert (Hm' : Zpos m < 2 ^ 53).
  { pose proof (digits2_pos_bound m) as [_ Hup].
    apply Z.lt_le_trans with (1 := Hup). apply Z.pow_le_mono_r; lia. }
  assert (Hd : 2 <= 2 ^ (- e)).
  { change 2 with (2 ^ 1) at 1. apply Z.pow_le_mono_r; lia. }
  unfold round_half_up.
  set (d := 2 ^ (- e)) in *. clearbody d.
  change (2 ^ 53) with 9007199254740992 in *.
  assert (Hlow : - 4503599627370496 <= (cond_Zopp s (2 * Zpos m) + d) / (2 * d)).
  { apply Z.div_le_lower_bound; [lia |]. destruct s; cbn [cond_Zopp]; lia. }
  assert (Hup : (cond_Zopp s (2 * Zpos m) + d) / (2 * d) <= 4503599627370496).
  { apply Z.div_le_upper_bound; [lia |]. destruct s; cbn [cond_Zopp]; lia. }
  lia.
Qed.

(** [Math.round] of a finite number with a fractional exponent is the nearest
    integer, exactly. *)
Lemma Math_round_nearest (s : bool) (m : positive) (e : Z) :
  e < 0 -> Zpos (digits2_pos m) <= 53 ->
  exists k, to_BigInt (Math_round (S754_finite s m e)) = Normal k
            /\ nearest_half_up s m e k.
Proof.
  intros He Hm. exists (round_half_up s m e). split.
  - unfold Math_round. destruct (Z.leb_spec 0 e); [lia |].
    apply binary_normalize_exact. now apply round_half_up_bounded.
  - now apply round_half_up_nearest.
Qed.

End NumFacts.

(** ** The unit converter on numbers *)

Module ConverterFacts.
Import Units NumFacts.

(** [C7], as stated, fails: zero, a negative amount, [NaN] and [Infinity] are
    not positive and finite, and [xlmToStroops] returns for each of them. *)
Lemma nonpositive_amount_accepted :
  positive_finite (S754_zero false) = false
  /\ xlmToStroops (S754_zero false) = Normal (S754_zero false)
  /\ positive_finite (Num.of_Z (-1)) = false
  /\ xlmToStroops (Num.of_Z (-1)) = Normal (Num.of_Z (-10000000))
  /\ xlmToStroops Num.NaN = Normal Num.NaN
  /\ xlmToStroops Num.Infinity = Normal Num.Infinity.
Proof. repeat split. Qed.

(** [C7], amended: [xlmToStroops] validates nothing and never fails; for
    every input it returns [Math.round] of the binary64 product of the input
    and 10,000,000.  When that product is finite with a negative exponent
    (and a mantissa of at most 53 bits, as every binary64 value has), the
    result is exactly the integer nearest to the product, the upper one of
    two equally near; when its exponent is not negative the product is an
    integer already and is returned; a zero, [NaN] or infinite product is
    returned as it is. *)
Theorem xlmToStroops_rounds (xlm : number) :
  let product := mul xlm (Num.of_Z 10000000) in
  xlmToStroops xlm = Normal (Math_round product)
  /\ (forall s m e,
        product = S754_finite s m e -> e < 0 -> Zpos (digits2_pos m) <= 53 ->
        exists r k, xlmToStroops xlm = Normal r
                    /\ to_BigInt r = Normal k
                    /\ nearest_half_up s m e k)
  /\ (forall s m e,
        product = S754_finite s m e -> 0 <= e ->
        xlmToStroops xlm = Normal product)
  /\ ((forall s m e, product <> S754_finite s m e) ->
      xlmToStroops xlm = Normal product).
Proof.
  intros product. unfold xlmToStroops. fold product.
  split; [reflexivity |]. split; [| split].
  - intros s m e Hp He Hm.
    destruct (Math_round_nearest s m e He Hm) as (k & Hk & Hnear).
    exists (Math_round product), k. rewrite Hp. auto.
  - intros s m e Hp He. rewrite Hp. unfold Math_round.
    destruct (Z.leb_spec 0 e); [reflexivity | lia].
  - intros Hnot. destruct product as [s | s | | s m e]; try reflexivity.
    now destruct (Hnot s m e).
Qed.

(** 0.00000025 XLM is 2.5 stroops and rounds to 3. *)
Lemma xlmToStroops_rounds_witness :
  exists r k,
    xlmToStroops (Num.of_decimal 25 8) = Normal r
    /\ to_BigInt r = Normal k
    /\ nearest_half_up false 5629499534213120 (-51) k.
Proof.
  destruct (xlmToStroops_rounds (Num.of_decimal 25 8)) as (_ & H & _).
  apply (H false 5629499534213120%positive (-51)).
  - vm_compute. reflexivity.
  - lia.
  - vm_compute. discriminate.
Defined.

(** The literal 92233720368.5477 denotes the binary64 value
    6044629098073142 * 2^-16, within half a unit in the last place. *)
Lemma boundary_literal :
  Num.of_decimal 922337203685477 4 = S754_finite false 6044629098073142 (-16)
  /\ 2 * Z.abs (6044629098073142 * 10 ^ 4 - 922337203685477 * 2 ^ 16) <= 10 ^ 4.
Proof. split; [reflexivity | vm_compute; discriminate]. Qed.

(** [C8], as stated, fails at the boundary value: the round trip of
    92233720368.5477 returns "92233720368.5476992", which is 8 subunits away
    from the literal, and 2 subunits away from the seven-decimal rounding of
    the binary64 value the literal denotes. *)
Lemma boundary_round_trip_inexact :
  roundTrip (Num.of_decimal 922337203685477 4) = Normal "92233720368.5476992"
  /\ subunits_of_decimal "92233720368.5476992" = Some 922337203685476992%N
  /\ subunits_of_decimal "92233720368.5477" = Some 922337203685477000%N
  /\ (2 * (6044629098073142 * 10 ^ 7) + 2 ^ 16) / (2 * 2 ^ 16)
     = 922337203685476990.
Proof. repeat split. Qed.

(** [C8], amended: for 0, 0.0000001 and 50 the round trip
    [stroopsToXlm(xlmToStroops(x))] returns the decimal string of [x]; for
    92233720368.5477 it returns "92233720368.5476992". *)
Theorem round_trip_samples :
  roundTrip (S754_zero false) = Normal "0"
  /\ roundTrip (Num.of_decimal 1 7) = Normal "0.0000001"
  /\ roundTrip (Num.of_Z 50) = Normal "50"
  /\ roundTrip (Num.of_decimal 922337203685477 4) = Normal "92233720368.5476992".
Proof. repeat split. Qed.

End ConverterFacts.

(** ** The contract-identifier derivation *)

Module DeriveFacts.
Import Stellar.

Section Derive.
Context `{sdk : Sdk}.

(** The recipe: the contract identifier is the encoding of the hash of the
    serialised preimage built from the hash of the passphrase, the deployer
    address and the hash of the credential identifier. *)
Lemma derive_recipe (this : StellarSmartWalletService) (credentialId : string)
    (address : ScAddress) :
  Address_fromString (deployerAddress this) = Normal address ->
  deriveContractIdFromPasskeyId this credentialId
  = Normal (encodeContract (hash (toXDR
      (envelopeTypeContractId (hash (Buffer_from (networkPassphrase this)))
         (contractIdPreimageFromAddress address
            (hash (Buffer_from credentialId))))))).
Proof.
  intros Haddr. unfold deriveContractIdFromPasskeyId.
  fold (deployerAddress this). now rewrite Haddr.
Qed.

(** [C2] The derivation is deterministic and depends on the credential
    identifier, the deployer address and the network passphrase only: two
    calls, on any two service instances, that agree on these three inputs
    return the same contract identifier, whatever the other fields of the
    services are (no ledger state is read). *)
Theorem derive_deterministic (svc1 svc2 : StellarSmartWalletService)
    (credentialId1 credentialId2 : string) :
  credentialId1 = credentialId2 ->
  deployerAddress svc1 = deployerAddress svc2 ->
  networkPassphrase svc1 = networkPassphrase svc2 ->
  deriveContractIdFromPasskeyId svc1 credentialId1
  = deriveContractIdFromPasskeyId svc2 credentialId2.
Proof.
  intros -> Haddr Hnet. unfold deriveContractIdFromPasskeyId.
  unfold deployerAddress in Haddr. now rewrite Haddr, Hnet.
Qed.

End Derive.

End DeriveFacts.

(** ** The transfer flow *)

Module TransferFacts.
Import Stellar Units Transfer.

Section Flow.
Context `{sdk : Sdk}.
Context {Account Operation SorobanData SendResult : Type}.
Variable resourceFee : SorobanData -> Z.
Variable rpc : @Services Account Operation SorobanData SendResult.

#[local] Abbreviation addFunds := (Transfer.addFunds resourceFee rpc).
#[local] Abbreviation outcome := (Transfer.outcome resourceFee rpc).

(** The run stopped before the simulation. *)
Ltac stopped_early :=
  eapply Transfer.StoppedEarly;
  [reflexivity
  | let c := fresh "c" in
    let Hin := fresh "Hin" in
    intros c Hin; cbn in Hin;
    repeat (destruct Hin as [<- | Hin]; [now split |]); contradiction].

(** The simulation was the only one and nothing was sent. *)
Ltac one_simulation :=
  [> let c := fresh "c" in
     let Hin := fresh "Hin" in
     intros c Hin; cbn in Hin;
     repeat (destruct Hin as [<- | Hin]; [reflexivity |]); contradiction
   | let tx' := fresh "tx'" in
     let Hin := fresh "Hin" in
     intros tx' Hin; cbn in Hin;
     repeat (destruct Hin as [Hin | Hin]; [try discriminate |]);
     [now injection Hin | contradiction]].

Lemma addFunds_outcome (this : StellarSmartWalletService)
    (contractId : option string) (amount : option number) :
  outcome this (fst (run (addFunds this contractId amount)))
               (snd (run (addFunds this contractId amount))).
Proof.
  unfold run, Transfer.addFunds.
  destruct contractId as [contractId |]; [| stopped_early].
  destruct amount as [amount |]; [| stopped_early].
  unfold mbind, M_bind, bind, lift, await, throw, xlmToStroops.
  destruct (newSacClient rpc _ _ _) as [[] | e]; [| stopped_early].
  destruct (newHorizonServer rpc _) as [[] | e]; [| stopped_early].
  destruct (newRpcServer rpc _) as [[] | e]; [| stopped_early].
  destruct (loadAccount rpc _) as [account | e]; [| stopped_early].
  destruct (to_BigInt _) as [stroops | e]; [| stopped_early].
  destruct (sacTransfer rpc _ _ _) as [sacTx | e]; [| stopped_early].
  destruct (signAuthEntries rpc _ _) as [operation | e]; [| stopped_early].
  destruct (buildTransaction rpc _) as [[] | e]; [| stopped_early].
  cbn [app].
  match goal with
  | |- context [simulateTransaction rpc ?t] => set (tmpTx := t)
  end.
  destruct (simulateTransaction rpc tmpTx) as [rs | e] eqn:Esim.
  - destruct (transactionData rs) as [data |] eqn:Edata.
    + destruct (cloneTransaction rpc _ _ _) as [[] | e].
      * destruct (buildFeeBumpTransaction rpc _) as [[] | e].
        -- cbn [app fst snd].
           match goal with
           | |- context [sendTransaction rpc ?t] => set (feeBumpTx := t)
           end.
           eapply (Transfer.Sent _ _ _ _ _ tmpTx rs data feeBumpTx);
             [reflexivity | exact Esim | exact Edata | reflexivity
             | reflexivity | | |].
           ++ cbn. auto 10.
           ++ intros tx' Hin. cbn in Hin.
              repeat (destruct Hin as [Hin | Hin]; [try discriminate |]);
                [now injection Hin | contradiction].
           ++ intros ftx' Hin. cbn in Hin.
              repeat (destruct Hin as [Hin | Hin]; [try discriminate |]);
                [now injection Hin | contradiction].
        -- cbn [app fst snd].
           eapply (Transfer.BuilderThrew _ _ _ _ _ e tmpTx rs data);
             [reflexivity | exact Esim | exact Edata | ..]; one_simulation.
      * cbn [app fst snd].
        eapply (Transfer.BuilderThrew _ _ _ _ _ e tmpTx rs data);
          [reflexivity | exact Esim | exact Edata | ..]; one_simulation.
    + cbn [app fst snd].
      eapply (Transfer.SimulationFailed _ _ _ _ _ tmpTx rs);
        [reflexivity | exact Esim | exact Edata | ..]; one_simulation.
  - cbn [app fst snd].
    eapply (Transfer.SimulationThrew _ _ _ _ _ e tmpTx);
      [reflexivity | exact Esim | ..]; one_simulation.
Qed.

(** [C9] For every run of [addFunds] whose simulation answered without
    transaction data, the run throws "Simulation failed" and no
    [sendTransaction] call is made.  Whenever a transaction is sent, the
    simulation of that run answered with transaction data, the base fee
    given to the fee-bump builder is the resource fee of that data, and the
    wrapped transaction is the simulated one rebuilt with that resource fee
    as its fee option and that data: its fee is what the builder computes
    from the two, and there is no other fee estimate. *)
Theorem failed_simulation_never_submits (this : StellarSmartWalletService)
    (contractId : option string) (amount : option number) :
  let log := fst (run (addFunds this contractId amount)) in
  let result := snd (run (addFunds this contractId amount)) in
  (simulation_lacks_data rpc log ->
   result = Throw (Error "Simulation failed")
   /\ forall c, In c log -> is_send c = false)
  /\ (forall ftx, In (SendTransaction ftx) log ->
      exists tx rs data,
        In (SimulateTransaction tx) log
        /\ simulateTransaction rpc tx = Normal rs
        /\ transactionData rs = Some data
        /\ fb_baseFee ftx = Str.of_Z (resourceFee data)
        /\ tx_fee (fb_inner ftx)
           = clonedFee rpc (Str.of_Z (resourceFee data)) data
        /\ tx_sorobanData (fb_inner ftx) = Some data).
Proof.
  intros log result.
  destruct (addFunds_outcome this contractId amount)
    as [e Hres Hlog | e tx Hres Hsim Hsend Honly | tx rs Hres Hsim Hdata Hsend Honly
        | e tx rs data Hres Hsim Hdata Hsend Honly
        | tx rs data ftx Hres Hsim Hdata Hfee Hinner Hmem Honly Hsent];
    fold log in Hlog || fold log in Hsend || fold log in Honly; fold result in Hres.
  - split.
    + intros (tx & rs & Hin & _). apply Hlog in Hin as [Hin _]. discriminate.
    + intros ftx Hin. apply Hlog in Hin as [_ Hin]. discriminate.
  - split.
    + intros (tx' & rs & Hin & Hsim' & _). apply Honly in Hin as ->. congruence.
    + intros ftx Hin. apply Hsend in Hin. discriminate.
  - split.
    + intros _. split; [exact Hres | exact Hsend].
    + intros ftx Hin. apply Hsend in Hin. discriminate.
  - split.
    + intros (tx' & rs' & Hin & Hsim' & Hnone). fold log in Honly.
      apply Honly in Hin as ->. congruence.
    + intros ftx Hin. apply Hsend in Hin. discriminate.
  - split.
    + intros (tx' & rs' & Hin & Hsim' & Hnone). apply Honly in Hin as ->. congruence.
    + intros ftx' Hin'. fold log in Hsent. apply Hsent in Hin' as ->.
      exists tx, rs, data. rewrite Hinner. repeat split; auto.
Qed.

End Flow.

End TransferFacts.

Module FlowWitnesses.
Import Stellar Transfer Doubles.

Lemma derive_deterministic_witness :
  deriveContractIdFromPasskeyId service_a "Y3JlZGVudGlhbA=="
  = deriveContractIdFromPasskeyId service_b "Y3JlZGVudGlhbA==".
Proof.
  apply (@DeriveFacts.derive_deterministic toy_sdk service_a service_b);
    reflexivity.
Defined.

Lemma failed_simulation_never_submits_witness :
  snd (run (addFunds (sdk := toy_sdk) id failing_simulation service_a
              (Some "CWALLET") (Some (Num.of_Z 50))))
  = Throw (Error "Simulation failed")
  /\ forall c,
       In c (fst (run (addFunds (sdk := toy_sdk) id failing_simulation service_a
                         (Some "CWALLET") (Some (Num.of_Z 50))))) ->
       is_send c = false.
Proof.
  destruct (@TransferFacts.failed_simulation_never_submits toy_sdk _ _ _ _ id
              failing_simulation service_a (Some "CWALLET") (Some (Num.of_Z 50)))
    as [H _].
  apply H. eexists. eexists.
  split; [vm_compute; do 3 right; left; reflexivity |].
  split; reflexivity.
Defined.

End FlowWitnesses.

(** ** Base64 and the credential-id helpers *)

Module Base64Facts.
Import Str StrFacts Base64.

(** Strings three characters at a time. *)
Lemma string_ind3 (P : string -> Prop) :
  P "" ->
  (forall a, P (String a "")) ->
  (forall a b, P (String a (String b ""))) ->
  (forall a b c r, P r -> P (String a (String b (String c r)))) ->
  forall s, P s.
Proof.
  intros H0 H1 H2 H3 s.
  enough (P s /\ (forall a, P (String a s))
          /\ (forall a b, P (String a (String b s)))) by tauto.
  induction s as [| c r (IH0 & IH1 & IH2)]; [auto |].
  repeat split; auto.
Qed.

Lemma sextet_cases (n : N) :
  (n < 64)%N ->
  In n [0; 1; 2; 3; 4; 5; 6; 7; 8; 9; 10; 11; 12; 13; 14; 15; 16; 17; 18; 19;
        20; 21; 22; 23; 24; 25; 26; 27; 28; 29; 30; 31; 32; 33; 34; 35; 36;
        37; 38; 39; 40; 41; 42; 43; 44; 45; 46; 47; 48; 49; 50; 51; 52; 53;
        54; 55; 56; 57; 58; 59; 60; 61; 62; 63]%N.
Proof.
  intros Hn. destruct n as [| p]; [now left |].
  do 6 (try (destruct p as [p | p |]; try lia));
    cbn; repeat (first [left; reflexivity | right]).
Qed.

Lemma dec_enc (n : N) : (n < 64)%N -> dec (enc n) = Some n.
Proof.
  intros Hn. apply sextet_cases in Hn. cbn [In] in Hn.
  repeat (destruct Hn as [<- | Hn]; [reflexivity |]). destruct Hn.
Qed.

Lemma enc_in_alphabet (n : N) : (n < 64)%N -> in_alphabet (enc n) = true.
Proof. intros Hn. unfold in_alphabet. now rewrite dec_enc. Qed.

(** The characters of the alphabet survive the round trip. *)
Lemma alphabet_survives (c : ascii) : in_alphabet c = true -> survives c = true.
Proof.
  destruct c as [[] [] [] [] [] [] [] []]; vm_compute; intros H;
    first [reflexivity | discriminate H].
Qed.

(** *** Characterwise facts on strings *)

Lemma all_chars_append (P : ascii -> bool) (s t : string) :
  all_chars P (s +:+ t) = all_chars P s && all_chars P t.
Proof.
  induction s as [| c s IH]; [reflexivity |].
  cbn [append all_chars]. now rewrite IH, andb_assoc.
Qed.

Lemma all_chars_repeat (P : ascii -> bool) (c : ascii) (k : nat) :
  P c = true -> all_chars P (repeat_char c k) = true.
Proof. intros Hc. induction k as [| k IH]; cbn; [reflexivity | now rewrite Hc]. Qed.

Lemma all_chars_impl (P Q : ascii -> bool) (s : string) :
  (forall c, P c = true -> Q c = true) ->
  all_chars P s = true -> all_chars Q s = true.
Proof.
  intros HPQ. induction s as [| c s IH]; [reflexivity |].
  cbn [all_chars]. intros [Hc Hs]%andb_true_iff.
  now rewrite (HPQ _ Hc), IH.
Qed.

Lemma replace_all_append (a b : ascii) (s t : string) :
  replace_all a b (s +:+ t) = replace_all a b s +:+ replace_all a b t.
Proof.
  induction s as [| c s IH]; [reflexivity |].
  cbn [append replace_all]. now rewrite IH.
Qed.

Lemma replace_all_repeat (a b c : ascii) (k : nat) :
  Ascii.eqb c a = false -> replace_all a b (repeat_char c k) = repeat_char c k.
Proof.
  intros Hc. induction k as [| k IH]; [reflexivity |].
  cbn [repeat_char replace_all]. now rewrite Hc, IH.
Qed.

Lemma length_replace_all (a b : ascii) (s : string) :
  String.length (replace_all a b s) = String.length s.
Proof. induction s as [| c s IH]; [reflexivity |]. cbn. now rewrite IH. Qed.

Lemma strip_trailing_repeat (c : ascii) (k : nat) :
  strip_trailing c (repeat_char c k) = "".
Proof.
  induction k as [| k IH]; [reflexivity |].
  cbn [repeat_char strip_trailing]. now rewrite IH, Ascii.eqb_refl.
Qed.

(** Stripping removes a run appended to a string free of the character. *)
Lemma strip_trailing_run (c : ascii) (s : string) (k : nat) :
  all_chars (fun x => negb (Ascii.eqb x c)) s = true ->
  strip_trailing c (s +:+ repeat_char c k) = s.
Proof.
  induction s as [| a s IH]; [intros _; apply strip_trailing_repeat |].
  cbn [all_chars append strip_trailing]. intros [Ha Hs]%andb_true_iff.
  rewrite (IH Hs). apply negb_true_iff in Ha. rewrite Ha.
  now destruct s.
Qed.

Lemma remove_whitespace_id (s : string) :
  all_chars (fun x => negb (is_whitespace x)) s = true ->
  remove_whitespace s = s.
Proof.
  induction s as [| a s IH]; [reflexivity |].
  cbn [all_chars remove_whitespace]. intros [Ha Hs]%andb_true_iff.
  apply negb_true_iff in Ha. now rewrite Ha, IH.
Qed.

Lemma remove_last_eq_id (s : string) :
  all_chars (fun x => negb (Ascii.eqb x "=")) s = true ->
  remove_last_eq s = s.
Proof.
  induction s as [| a s IH]; [reflexivity |].
  cbn [all_chars]. intros [Ha Hs]%andb_true_iff.
  apply negb_true_iff in Ha. cbn [remove_last_eq].
  destruct s as [| b s]; [now rewrite Ha |]. now rewrite IH.
Qed.

Lemma remove_last_eq_run (s : string) (k : nat) :
  remove_last_eq (s +:+ repeat_char "=" (S k)) = s +:+ repeat_char "=" k.
Proof.
  induction s as [| a s IH].
  - cbn [append]. induction k as [| k IHk]; [reflexivity |].
    change (repeat_char "=" (S (S k))) with (String "="%char (repeat_char "=" (S k))).
    change (repeat_char "=" (S k)) with (String "="%char (repeat_char "=" k)) at 2.
    cbn [remove_last_eq] in *.
    change (String "="%char (repeat_char "=" k)) with (repeat_char "=" (S k)).
    now rewrite IHk.
  - cbn [append remove_last_eq].
    destruct (s +:+ repeat_char "=" (S k)) as [| b t] eqn:E.
    + apply (f_equal String.length) in E.
      rewrite length_append, length_repeat_char in E. cbn in E. lia.
    + now rewrite IH.
Qed.

(** At most two padding characters are removed, and only those. *)
Lemma remove_last_eq_twice (s : string) (k : nat) :
  (k <= 2)%nat ->
  all_chars (fun x => negb (Ascii.eqb x "=")) s = true ->
  remove_last_eq (remove_last_eq (s +:+ repeat_char "=" k)) = s.
Proof.
  intros Hk Hs.
  destruct k as [| [| [| k]]]; [| | | lia].
  - cbn [repeat_char]. rewrite append_nil_r.
    rewrite (remove_last_eq_id s Hs). now apply remove_last_eq_id.
  - rewrite remove_last_eq_run. cbn [repeat_char]. rewrite append_nil_r.
    now apply remove_last_eq_id.
  - rewrite !remove_last_eq_run. cbn [repeat_char]. apply append_nil_r.
Qed.

(** *** The shape of [btoa] *)

Lemma pad_length_add3 (n : nat) : pad_length (3 + n) = pad_length n.
Proof.
  unfold pad_length. replace (3 + n)%nat with (n + 1 * 3)%nat by lia.
  now rewrite Nat.Div0.mod_add.
Qed.

Lemma btoa_body (s : string) :
  btoa s = body s +:+ repeat_char "=" (pad_length (String.length s)).
Proof.
  induction s as [| a | a b | a b c r IH] using string_ind3; try reflexivity.
  cbn [btoa body append]. rewrite IH.
  change (String.length (String a (String b (String c r))))
    with (3 + String.length r)%nat.
  now rewrite pad_length_add3.
Qed.

Lemma body_in_alphabet (s : string) : all_chars in_alphabet (body s) = true.
Proof.
  induction s as [| a | a b | a b c r IH] using string_ind3; [reflexivity | | |].
  - pose proof (N_ascii_bounded a). cbn [body all_chars].
    rewrite !enc_in_alphabet by lia_div. reflexivity.
  - pose proof (N_ascii_bounded a). pose proof (N_ascii_bounded b).
    cbn [body all_chars].
    rewrite !enc_in_alphabet by lia_div. reflexivity.
  - pose proof (N_ascii_bounded a). pose proof (N_ascii_bounded b).
    pose proof (N_ascii_bounded c).
    cbn [body all_chars].
    rewrite !enc_in_alphabet by lia_div. exact IH.
Qed.

(** The body has 0, 2 or 3 characters beyond a multiple of four, and the
    padding completes it to a multiple of four. *)
Lemma body_length (s : string) :
  let L := String.length (body s) in
  let p := pad_length (String.length s) in
  (p <= 2)%nat /\ ((L + 3) / 4 * 4 - L = p)%nat /\ ((L + p) mod 4 = 0)%nat.
Proof.
  induction s as [| a | a b | a b c r IH] using string_ind3;
    [cbn [String.length body]; repeat split; vm_compute; lia .. |].
  cbn zeta in *.
  change (String.length (String a (String b (String c r))))
    with (3 + String.length r)%nat.
  rewrite pad_length_add3.
  change (String.length (body (String a (String b (String c r)))))
    with (4 + String.length (body r))%nat.
  destruct IH as (Hp & Hpad & Hmod).
  set (L := String.length (body r)) in *.
  set (p := pad_length (String.length r)) in *. clearbody L p.
  pose proof (Nat.div_mod_eq (L + 3) 4).
  pose proof (Nat.mod_upper_bound (L + 3) 4 ltac:(lia)).
  pose proof (Nat.div_mod_eq (4 + L + 3) 4).
  pose proof (Nat.mod_upper_bound (4 + L + 3) 4 ltac:(lia)).
  pose proof (Nat.div_mod_eq (L + p) 4).
  pose proof (Nat.div_mod_eq (4 + L + p) 4).
  pose proof (Nat.mod_upper_bound (4 + L + p) 4 ltac:(lia)).
  repeat split; [exact Hp | lia | lia].
Qed.

(** Decoding the body gives the binary string back. *)
Lemma decode_body (s : string) : decode_groups (body s) = Some s.
Proof.
  induction s as [| a | a b | a b c r IH] using string_ind3; [reflexivity | | |].
  - pose proof (N_ascii_bounded a). cbn [body decode_groups].
    rewrite !dec_enc by lia_div. cbn [mbind option_bind].
    replace (N_of_ascii a / 4 * 4 + N_of_ascii a mod 4 * 16 / 16)%N
      with (N_of_ascii a) by lia_div.
    now rewrite ascii_N_embedding.
  - pose proof (N_ascii_bounded a). pose proof (N_ascii_bounded b).
    cbn [body decode_groups].
    rewrite !dec_enc by lia_div. cbn [mbind option_bind].
    replace (N_of_ascii a / 4 * 4
             + (N_of_ascii a mod 4 * 16 + N_of_ascii b / 16) / 16)%N
      with (N_of_ascii a) by lia_div.
    replace ((N_of_ascii a mod 4 * 16 + N_of_ascii b / 16) mod 16 * 16
             + N_of_ascii b mod 16 * 4 / 4)%N
      with (N_of_ascii b) by lia_div.
    now rewrite !ascii_N_embedding.
  - pose proof (N_ascii_bounded a). pose proof (N_ascii_bounded b).
    pose proof (N_ascii_bounded c).
    cbn [body decode_groups].
    rewrite !dec_enc by lia_div. cbn [mbind option_bind]. rewrite IH.
    cbn [mbind option_bind].
    replace (N_of_ascii a / 4 * 4
             + (N_of_ascii a mod 4 * 16 + N_of_ascii b / 16) / 16)%N
      with (N_of_ascii a) by lia_div.
    replace ((N_of_ascii a mod 4 * 16 + N_of_ascii b / 16) mod 16 * 16
             + (N_of_ascii b mod 16 * 4 + N_of_ascii c / 64) / 4)%N
      with (N_of_ascii b) by lia_div.
    replace ((N_of_ascii b mod 16 * 4 + N_of_ascii c / 64) mod 4 * 64
             + N_of_ascii c mod 64)%N
      with (N_of_ascii c) by lia_div.
    now rewrite !ascii_N_embedding.
Qed.

(** [atob] undoes [btoa]. *)
Lemma atob_btoa (s : string) : atob (btoa s) = Normal s.
Proof.
  pose proof (body_in_alphabet s) as Halpha.
  pose proof (body_length s) as (Hp & _ & Hmod). cbn zeta in Hp, Hmod.
  assert (Hsurv : all_chars survives (body s) = true)
    by (revert Halpha; apply all_chars_impl, alphabet_survives).
  assert (Hnoeq : all_chars (fun x => negb (Ascii.eqb x "=")) (body s) = true).
  { revert Hsurv. apply all_chars_impl. unfold survives. intros c Hc.
    now repeat (apply andb_true_iff in Hc as [Hc ?]). }
  assert (Hnows : all_chars (fun x => negb (is_whitespace x)) (body s) = true).
  { revert Hsurv. apply all_chars_impl. unfold survives. intros c Hc.
    now repeat (apply andb_true_iff in Hc as [Hc ?]). }
  unfold atob. rewrite btoa_body.
  rewrite remove_whitespace_id
    by (rewrite all_chars_append, Hnows; now apply all_chars_repeat).
  unfold remove_padding. rewrite length_append, length_repeat_char, Hmod.
  cbn [Nat.eqb]. rewrite remove_last_eq_twice by assumption.
  now rewrite decode_body.
Qed.

(** *** The helpers *)

(** [toBase64Url] is the body of the base64 in the URL alphabet. *)
Lemma toBase64Url_body (uint8 : list byte) :
  toBase64Url uint8
  = replace_all "/" "_" (replace_all "+" "-" (body (fromCharCodes uint8))).
Proof.
  unfold toBase64Url. rewrite btoa_body.
  rewrite !replace_all_append, !replace_all_repeat by reflexivity.
  apply strip_trailing_run.
  generalize (body_in_alphabet (fromCharCodes uint8)).
  generalize (body (fromCharCodes uint8)) as X.
  induction X as [| c X IH]; [reflexivity |].
  cbn [all_chars replace_all]. intros [Hc HX]%andb_true_iff.
  rewrite (IH HX), andb_true_r.
  apply alphabet_survives in Hc. unfold survives in Hc.
  repeat (apply andb_true_iff in Hc as [Hc ?]). assumption.
Qed.

(** The replacements of the decoder undo those of the encoder. *)
Lemma url_alphabet_round_trip (X : string) :
  all_chars in_alphabet X = true ->
  replace_all "_" "/" (replace_all "-" "+"
    (replace_all "/" "_" (replace_all "+" "-" X))) = X.
Proof.
  induction X as [| c X IH]; [reflexivity |].
  cbn [all_chars replace_all]. intros [Hc HX]%andb_true_iff.
  rewrite (IH HX). f_equal.
  apply alphabet_survives in Hc. unfold survives in Hc.
  apply andb_true_iff in Hc as [_ Hc]. now apply Ascii.eqb_eq in Hc.
Qed.

(** The encoder leaves no padding character. *)
Lemma toBase64Url_unpadded (uint8 : list byte) :
  all_chars (fun c => negb (Ascii.eqb c "=")) (toBase64Url uint8) = true.
Proof.
  rewrite toBase64Url_body.
  generalize (body_in_alphabet (fromCharCodes uint8)).
  generalize (body (fromCharCodes uint8)) as X.
  induction X as [| c X IH]; [reflexivity |].
  cbn [all_chars replace_all]. intros [Hc HX]%andb_true_iff.
  rewrite (IH HX), andb_true_r.
  apply alphabet_survives in Hc. unfold survives in Hc.
  repeat (apply andb_true_iff in Hc as [Hc ?]). assumption.
Qed.

(** [C10] For every byte array [b], decoding its base64url encoding gives
    [b] back: [base64urlToArrayBuffer(toBase64Url(b))] returns a buffer with
    exactly the bytes of [b], although [toBase64Url] leaves no padding
    character in its result. *)
Theorem base64url_round_trip (b : list byte) :
  base64urlToArrayBuffer (toBase64Url b) = Normal b
  /\ all_chars (fun c => negb (Ascii.eqb c "=")) (toBase64Url b) = true.
Proof.
  split; [| apply toBase64Url_unpadded].
  unfold base64urlToArrayBuffer. rewrite toBase64Url_body.
  rewrite !length_replace_all.
  rewrite url_alphabet_round_trip by apply body_in_alphabet.
  unfold padEnd.
  destruct (body_length (fromCharCodes b)) as (_ & Hpad & _).
  cbn zeta in Hpad. rewrite Hpad, <- btoa_body, atob_btoa.
  cbn [mbind completion_bind]. unfold charCodes, fromCharCodes. f_equal.
  apply list_byte_of_string_of_list_byte.
Qed.

End Base64Facts.

(** ** More on the key extractor and the authData parser *)

Module CoseMore.
Import Cose Doubles CoseFacts AuthDataFacts.

Lemma two_parts_layout (n e : list byte) :
  take (length n)
    (take 0 (replicate (length n + length e) x00) ++ n
     ++ drop (0 + length n) (replicate (length n + length e) x00))
  ++ e
  ++ drop (length n + length e)
       (take 0 (replicate (length n + length e) x00) ++ n
        ++ drop (0 + length n) (replicate (length n + length e) x00))
  = n ++ e.
Proof.
  rewrite take_0. cbn [Nat.add app].
  rewrite take_app_length.
  rewrite drop_ge by (rewrite length_app, length_drop, length_replicate; lia).
  now rewrite app_nil_r.
Qed.

(** [X1] For every decoded COSE key whose key type is 3 and whose algorithm is
    -257, with the modulus (label -1) and the exponent (label -2) present as
    byte strings, the extractor returns the modulus followed by the exponent,
    whatever their lengths. *)
Theorem rs256_modulus_exponent `{platform : Platform}
    (coseKey : gmap Z value) (n e : list byte) :
  coseKey !! 1 = Some (CInt 3) ->
  coseKey !! 3 = Some (CInt (-257)) ->
  coseKey !! (-1) = Some (CBytes n) ->
  coseKey !! (-2) = Some (CBytes e) ->
  extractRawPublicKeyFromCoseKey coseKey = Normal (n ++ e)
  /\ length (n ++ e) = (length n + length e)%nat.
Proof.
  intros Hkty Halg Hn He. split; [| apply length_app].
  unfold extractRawPublicKeyFromCoseKey.
  rewrite Hkty, Halg, Hn, He.
  cbn [strict_eq_num truthy negb orb andb Z.eqb Pos.eqb].
  cbn [length_of elements plus]. unfold alloc, default. cbn [from_option id].
  rewrite set_fits by (rewrite length_replicate; lia).
  cbn [mbind completion_bind].
  rewrite set_fits
    by (rewrite !length_app, length_take, length_drop, length_replicate; lia).
  cbn [mbind completion_bind]. f_equal. apply two_parts_layout.
Qed.

Lemma rs256_modulus_exponent_witness :
  extractRawPublicKeyFromCoseKey (platform := toy_platform) rs256_sample
  = Normal [x0a; x0b; x0c; x01; x00; x01]
  /\ length [x0a; x0b; x0c; x01; x00; x01] = 6%nat.
Proof.
  apply (rs256_modulus_exponent (platform := toy_platform) rs256_sample
           [x0a; x0b; x0c] [x01; x00; x01]);
    reflexivity.
Defined.






Section Parse.
Context `{platform : Platform}.
Variable decodeFirstSync : list byte -> completion decoded.

(** [X3] The parse of the fixed layout succeeds exactly when the view is longer
    than 55 bytes plus the credential-id length it declares, and what it
    hands to the CBOR decoder is then everything after the credential id,
    extension bytes included. *)
Theorem parse_gives_suffix (a : Uint8Array) :
  (forall n : nat,
     declaredCredIdLen (bytes_of a) = Some n ->
     (55 + n < length (bytes_of a))%nat ->
     coseKeyBytesOf a = Normal (drop (55 + n) (bytes_of a))
     /\ extractRawPublicKeyFromAuthData decodeFirstSync a
        = (decodeFirstSync (drop (55 + n) (bytes_of a)) ≫= fun result =>
           match result with
           | DMap coseKey => extractRawPublicKeyFromCoseKey coseKey
           | DOther => Throw (Error "Invalid COSE key structure")
           end))
  /\ (forall coseKeyBytes : list byte,
        coseKeyBytesOf a = Normal coseKeyBytes ->
        coseKeyBytes <> []
        /\ exists n : nat,
             declaredCredIdLen (bytes_of a) = Some n
             /\ (55 + n < length (bytes_of a))%nat
             /\ coseKeyBytes = drop (55 + n) (bytes_of a)).
Proof.
  assert (Hfwd : forall n : nat,
     declaredCredIdLen (bytes_of a) = Some n ->
     (55 + n < length (bytes_of a))%nat ->
     coseKeyBytesOf a = Normal (drop (55 + n) (bytes_of a))).
  { intros n Hdecl Hlong. unfold coseKeyBytesOf. fold (bytes_of a).
    change (RP_ID_HASH_LENGTH + FLAGS_LENGTH + SIGNATURE_COUNTER_LENGTH
            + AAGUID_LENGTH)%nat with 53%nat.
    rewrite (getUint16_declared _ _ Hdecl). cbn [mbind completion_bind].
    unfold ArrayBuffer_slice_from, CRED_ID_LENGTH_BYTES.
    rewrite Nat2Z.id, length_drop.
    destruct (Nat.eqb_spec (length (bytes_of a) - (53 + 2 + n)) 0); [lia |].
    reflexivity. }
  split.
  - intros n Hdecl Hlong. split; [now apply Hfwd |].
    unfold extractRawPublicKeyFromAuthData. now rewrite (Hfwd n Hdecl Hlong).
  - intros coseKeyBytes Hparse.
    destruct (declaredCredIdLen (bytes_of a)) as [n |] eqn:Hdecl.
    + destruct (Nat.lt_ge_cases (55 + n) (length (bytes_of a))) as [Hlong | Hshort].
      * rewrite (Hfwd n eq_refl Hlong) in Hparse. injection Hparse as <-.
        split; [| now exists n].
        intros Hnil. apply (f_equal length) in Hnil.
        rewrite length_drop in Hnil. cbn in Hnil. lia.
      * rewrite (parse_no_key a n Hdecl) in Hparse by lia. discriminate.
    + exfalso. revert Hparse. unfold coseKeyBytesOf. fold (bytes_of a).
      change (RP_ID_HASH_LENGTH + FLAGS_LENGTH + SIGNATURE_COUNTER_LENGTH
              + AAGUID_LENGTH)%nat with 53%nat.
      unfold declaredCredIdLen in Hdecl. unfold getUint16. cbn [Nat.add].
      destruct (bytes_of a !! 53%nat); [| discriminate].
      destruct (bytes_of a !! 54%nat); discriminate.
Qed.

End Parse.

Lemma parse_gives_suffix_witness :
  coseKeyBytesOf authData_with_extension = Normal [xa0; xa1; x01; x02]
  /\ extractRawPublicKeyFromAuthData (platform := toy_platform) no_map_decoder
       authData_with_extension
     = Throw (Error "Invalid COSE key structure").
Proof.
  destruct (parse_gives_suffix (platform := toy_platform) no_map_decoder
              authData_with_extension) as [H _].
  apply (H 2%nat); [reflexivity | vm_compute; lia].
Defined.

End CoseMore.

(** ** More on the base64url helpers *)

Module Base64More_Facts.
Import Str StrFacts Base64 Base64Facts Base64More.

Lemma length_fromCharCodes (uint8 : list byte) :
  String.length (fromCharCodes uint8) = length uint8.
Proof.
  unfold fromCharCodes, string_of_list_byte.
  induction uint8 as [| x r IH]; [reflexivity |].
  cbn [List.map string_of_list_ascii String.length length]. now rewrite IH.
Qed.

Lemma body_length_exact (s : string) :
  String.length (body s) = ((4 * String.length s + 2) / 3)%nat.
Proof.
  induction s as [| a | a b | a b c r IH] using string_ind3;
    [reflexivity .. |].
  change (String.length (body (String a (String b (String c r)))))
    with (4 + String.length (body r))%nat.
  change (String.length (String a (String b (String c r))))
    with (3 + String.length r)%nat.
  rewrite IH.
  replace (4 * (3 + String.length r) + 2)%nat
    with ((4 * String.length r + 2) + 4 * 3)%nat by lia.
  rewrite Nat.div_add by lia. lia.
Qed.

Lemma url_form_safe (c : ascii) : in_alphabet c = true -> url_safe (to_url c) = true.
Proof.
  destruct c as [[] [] [] [] [] [] [] []]; vm_compute; intros H;
    first [reflexivity | discriminate H].
Qed.

(** [X4] For every byte array of [n] bytes, [toBase64Url] returns a string of
    exactly [(4 n + 2) / 3] characters (the ceiling of [4 n / 3]), each of
    them a letter, a digit, [-] or [_]: no [+], [/] or [=] is left. *)
Theorem toBase64Url_shape (uint8 : list byte) :
  String.length (toBase64Url uint8) = ((4 * length uint8 + 2) / 3)%nat
  /\ all_chars url_safe (toBase64Url uint8) = true.
Proof.
  rewrite toBase64Url_body. split.
  - now rewrite !length_replace_all, body_length_exact, length_fromCharCodes.
  - generalize (body_in_alphabet (fromCharCodes uint8)).
    generalize (body (fromCharCodes uint8)) as X.
    induction X as [| c X IH]; [reflexivity |].
    cbn [all_chars replace_all]. intros [Hc HX]%andb_true_iff.
    rewrite (IH HX), andb_true_r. now apply url_form_safe.
Qed.

Lemma btoa_length_multiple (s : string) :
  ((String.length (btoa s) + 3) / 4 * 4 - String.length (btoa s) = 0)%nat.
Proof.
  rewrite btoa_body, length_append, length_repeat_char.
  destruct (body_length s) as (_ & _ & Hmod). cbn zeta in Hmod.
  set (n := (String.length (body s) + pad_length (String.length s))%nat) in *.
  clearbody n.
  pose proof (Nat.div_mod_eq n 4). pose proof (Nat.div_mod_eq (n + 3) 4).
  pose proof (Nat.mod_upper_bound (n + 3) 4 ltac:(lia)). lia.
Qed.

Lemma btoa_no_url_chars (s : string) :
  replace_all "_" "/" (replace_all "-" "+" (btoa s)) = btoa s.
Proof.
  rewrite btoa_body, !replace_all_append, !replace_all_repeat by reflexivity.
  f_equal.
  generalize (body_in_alphabet s). generalize (body s) as X.
  induction X as [| c X IH]; [reflexivity |].
  cbn [all_chars replace_all]. intros [Hc HX]%andb_true_iff.
  rewrite (IH HX). f_equal. clear - Hc. revert Hc.
  destruct c as [[] [] [] [] [] [] [] []]; vm_compute; intros H;
    first [reflexivity | discriminate H].
Qed.

Lemma btoa_url_back (s : string) :
  replace_all "_" "/" (replace_all "-" "+"
    (replace_all "/" "_" (replace_all "+" "-" (btoa s)))) = btoa s.
Proof.
  rewrite btoa_body, !replace_all_append, !replace_all_repeat by reflexivity.
  now rewrite url_alphabet_round_trip by apply body_in_alphabet.
Qed.

Lemma decode_padded (b : list byte) :
  base64urlToArrayBuffer (btoa (fromCharCodes b)) = Normal b
  /\ base64urlToArrayBuffer
       (replace_all "/" "_" (replace_all "+" "-" (btoa (fromCharCodes b))))
     = Normal b.
Proof.
  assert (Hdone : (atob (btoa (fromCharCodes b)) ≫= fun binary =>
                   Normal (charCodes binary)) = Normal b).
  { rewrite atob_btoa. cbn [mbind completion_bind].
    unfold charCodes, fromCharCodes. f_equal.
    apply list_byte_of_string_of_list_byte. }
  split; unfold base64urlToArrayBuffer, padEnd.
  - rewrite btoa_no_url_chars, btoa_length_multiple. cbn [repeat_char].
    now rewrite append_nil_r.
  - rewrite btoa_url_back, !length_replace_all, btoa_length_multiple.
    cbn [repeat_char]. now rewrite append_nil_r.
Qed.

Lemma decode_unpadded (b : list byte) :
  base64urlToArrayBuffer (toBase64Url b) = Normal b.
Proof.
  unfold base64urlToArrayBuffer. rewrite toBase64Url_body.
  rewrite !length_replace_all.
  rewrite url_alphabet_round_trip by apply body_in_alphabet.
  unfold padEnd.
  destruct (body_length (fromCharCodes b)) as (_ & Hpad & _).
  cbn zeta in Hpad. rewrite Hpad, <- btoa_body, atob_btoa.
  cbn [mbind completion_bind]. unfold charCodes, fromCharCodes. f_equal.
  apply list_byte_of_string_of_list_byte.
Qed.

(** [X5] The decoder does not need the padding to be stripped, nor the URL
    alphabet: for every byte array it also decodes the padded base64url form
    and the plain base64 of [btoa]. *)
Theorem padded_forms_decoded (b : list byte) :
  base64urlToArrayBuffer (btoa (fromCharCodes b)) = Normal b
  /\ base64urlToArrayBuffer
       (replace_all "/" "_" (replace_all "+" "-" (btoa (fromCharCodes b))))
     = Normal b.
Proof. apply decode_padded. Qed.

(** Strings four characters at a time. *)
Lemma string_ind4 (P : string -> Prop) :
  P "" ->
  (forall a, P (String a "")) ->
  (forall a b, P (String a (String b ""))) ->
  (forall a b c, P (String a (String b (String c "")))) ->
  (forall a b c d r, P r -> P (String a (String b (String c (String d r))))) ->
  forall s, P s.
Proof.
  intros H0 H1 H2 H3 H4 s.
  enough (P s /\ (forall a, P (String a s))
          /\ (forall a b, P (String a (String b s)))
          /\ (forall a b c, P (String a (String b (String c s))))) by tauto.
  induction s as [| d r (IH0 & IH1 & IH2 & IH3)]; [auto |].
  repeat split; auto.
Qed.

Lemma dec_in_alphabet (c : ascii) (n : N) : dec c = Some n -> in_alphabet c = true.
Proof. unfold in_alphabet. now intros ->. Qed.

(** What decodes consists of characters of the alphabet. *)
Lemma decode_groups_alphabet (s binary : string) :
  decode_groups s = Some binary -> all_chars in_alphabet s = true.
Proof.
  revert binary.
  induction s as [| a | a b | a b c | a b c d r IH] using string_ind4;
    intros binary; cbn [decode_groups all_chars].
  - reflexivity.
  - discriminate.
  - destruct (dec a) eqn:Ea; [| discriminate].
    destruct (dec b) eqn:Eb; [| discriminate]. intros _.
    now rewrite (dec_in_alphabet _ _ Ea), (dec_in_alphabet _ _ Eb).
  - destruct (dec a) eqn:Ea; [| discriminate].
    destruct (dec b) eqn:Eb; [| discriminate].
    destruct (dec c) eqn:Ec; [| discriminate]. intros _.
    now rewrite (dec_in_alphabet _ _ Ea), (dec_in_alphabet _ _ Eb),
      (dec_in_alphabet _ _ Ec).
  - destruct (dec a) eqn:Ea; [| discriminate].
    destruct (dec b) eqn:Eb; [| discriminate].
    destruct (dec c) eqn:Ec; [| discriminate].
    destruct (dec d) eqn:Ed; [| discriminate].
    cbn [mbind option_bind].
    destruct (decode_groups r) as [rest |] eqn:Er; [| discriminate]. intros _.
    rewrite (dec_in_alphabet _ _ Ea), (dec_in_alphabet _ _ Eb),
      (dec_in_alphabet _ _ Ec), (dec_in_alphabet _ _ Ed).
    now apply (IH rest).
Qed.

Lemma remove_last_eq_chars (P : ascii -> bool) (t : string) :
  all_chars P (remove_last_eq t) = true ->
  all_chars (fun c => P c || Ascii.eqb c "=") t = true.
Proof.
  induction t as [| c r IH]; [reflexivity |].
  cbn [remove_last_eq]. destruct r as [| d r'].
  - destruct (Ascii.eqb c "=") eqn:Ec; cbn [all_chars].
    + intros _. now rewrite Ec, orb_true_r.
    + intros [Hc _]%andb_true_iff. now rewrite Hc.
  - cbn [all_chars] in *. intros [Hc Hr]%andb_true_iff.
    rewrite Hc. cbn [orb andb]. now apply IH.
Qed.

Lemma remove_padding_chars (t : string) :
  all_chars in_alphabet (remove_padding t) = true ->
  all_chars (fun c => in_alphabet c || Ascii.eqb c "=") t = true.
Proof.
  unfold remove_padding. destruct (String.length t mod 4 =? 0)%nat.
  - intros H%remove_last_eq_chars%remove_last_eq_chars.
    revert H. apply all_chars_impl. intros c.
    destruct (in_alphabet c), (Ascii.eqb c "="); reflexivity || discriminate.
  - apply all_chars_impl. intros c ->. reflexivity.
Qed.

Lemma remove_whitespace_chars (Q : ascii -> bool) (s : string) :
  all_chars Q (remove_whitespace s) = true ->
  all_chars (fun c => Q c || is_whitespace c) s = true.
Proof.
  induction s as [| c r IH]; [reflexivity |].
  cbn [remove_whitespace all_chars].
  destruct (is_whitespace c) eqn:Ec.
  - intros Hr. now rewrite orb_true_r, IH.
  - cbn [all_chars]. intros [Hc Hr]%andb_true_iff. now rewrite Hc, IH.
Qed.

Lemma all_chars_of_url (P : ascii -> bool) (s : string) :
  all_chars P (replace_all "_" "/" (replace_all "-" "+" s))
  = all_chars (fun c => P (of_url c)) s.
Proof.
  induction s as [| c r IH]; [reflexivity |].
  cbn [replace_all all_chars]. now rewrite IH.
Qed.

Lemma of_url_accepted (c : ascii) :
  in_alphabet (of_url c) || Ascii.eqb (of_url c) "=" || is_whitespace (of_url c)
  = true ->
  accepted c = true.
Proof.
  destruct c as [[] [] [] [] [] [] [] []]; vm_compute; intros H;
    first [reflexivity | discriminate H].
Qed.

(** [X6] Nothing is skipped silently except whitespace: when
    [base64urlToArrayBuffer] returns, every character of its argument is a
    character of the base64 or base64url alphabet, a [=] or ASCII whitespace;
    any other character makes it throw. *)
Theorem decoded_input_is_clean (base64url : string) (bytes : list byte) :
  base64urlToArrayBuffer base64url = Normal bytes ->
  all_chars accepted base64url = true.
Proof.
  unfold base64urlToArrayBuffer, atob, padEnd.
  set (k := ((String.length base64url + 3) / 4 * 4
             - String.length
                 (replace_all "_" "/" (replace_all "-" "+" base64url)))%nat).
  clearbody k.
  destruct (decode_groups _) as [binary |] eqn:Hdec; [| discriminate].
  intros _.
  apply decode_groups_alphabet, remove_padding_chars, remove_whitespace_chars
    in Hdec.
  rewrite all_chars_append in Hdec. apply andb_true_iff in Hdec as [Hdec _].
  rewrite all_chars_of_url in Hdec.
  revert Hdec. apply all_chars_impl. intros c. apply of_url_accepted.
Qed.

Lemma decoded_input_is_clean_witness : all_chars accepted "__79-w" = true.
Proof.
  apply (decoded_input_is_clean "__79-w" [xff; xfe; xfd; xfb]). reflexivity.
Defined.

Lemma dec_padding : dec "=" = None.
Proof. reflexivity. Qed.

(** A lone character after the last full group cannot be decoded. *)
Lemma decode_short_group (s : string) :
  (String.length s mod 4 = 1)%nat -> decode_groups (s +:+ "=") = None.
Proof.
  induction s as [| a | a b | a b c | a b c d r IH] using string_ind4.
  - discriminate.
  - intros _. cbn [append decode_groups]. rewrite dec_padding.
    now destruct (dec a).
  - discriminate.
  - discriminate.
  - change (String.length (String a (String b (String c (String d r)))))
      with (4 + String.length r)%nat.
    replace (4 + String.length r)%nat with (String.length r + 1 * 4)%nat by lia.
    rewrite Nat.Div0.mod_add. intros Hr.
    cbn [append decode_groups]. rewrite (IH Hr).
    destruct (dec a), (dec b), (dec c), (dec d); reflexivity.
Qed.

Lemma sextet_chars_survive (s : string) :
  all_chars sextet_char s = true ->
  all_chars survives (replace_all "_" "/" (replace_all "-" "+" s)) = true.
Proof.
  rewrite all_chars_of_url. apply all_chars_impl. intros c.
  apply alphabet_survives.
Qed.

(** [X7] A string of alphabet characters whose length is 1 modulo 4 is not the
    encoding of anything: [base64urlToArrayBuffer] throws
    [InvalidCharacterError] on it. *)
Theorem dangling_character_rejected (base64url : string) :
  all_chars sextet_char base64url = true ->
  (String.length base64url mod 4 = 1)%nat ->
  base64urlToArrayBuffer base64url = Throw InvalidCharacterError.
Proof.
  intros Hchars Hlen.
  pose proof (sextet_chars_survive _ Hchars) as Hsurv.
  set (X := replace_all "_" "/" (replace_all "-" "+" base64url)) in *.
  assert (HX : String.length X = String.length base64url)
    by (unfold X; now rewrite !length_replace_all).
  assert (Hnoeq : all_chars (fun x => negb (Ascii.eqb x "=")) X = true).
  { revert Hsurv. apply all_chars_impl. unfold survives. intros c Hc.
    now repeat (apply andb_true_iff in Hc as [Hc ?]). }
  assert (Hnows : all_chars (fun x => negb (is_whitespace x)) X = true).
  { revert Hsurv. apply all_chars_impl. unfold survives. intros c Hc.
    now repeat (apply andb_true_iff in Hc as [Hc ?]). }
  unfold base64urlToArrayBuffer, padEnd. fold X. rewrite HX.
  assert (Hpad : ((String.length base64url + 3) / 4 * 4
                  - String.length base64url = 3)%nat).
  { pose proof (Nat.div_mod_eq (String.length base64url) 4).
    pose proof (Nat.div_mod_eq (String.length base64url + 3) 4).
    pose proof (Nat.mod_upper_bound (String.length base64url + 3) 4 ltac:(lia)).
    lia. }
  rewrite Hpad. unfold atob.
  rewrite remove_whitespace_id
    by (rewrite all_chars_append, Hnows; now apply all_chars_repeat).
  unfold remove_padding. rewrite length_append, length_repeat_char, HX.
  replace ((String.length base64url + 3) mod 4)%nat with 0%nat.
  2:{ pose proof (Nat.div_mod_eq (String.length base64url) 4).
      pose proof (Nat.div_mod_eq (String.length base64url + 3) 4).
      pose proof (Nat.mod_upper_bound (String.length base64url + 3) 4 ltac:(lia)).
      lia. }
  cbn [Nat.eqb]. rewrite !remove_last_eq_run.
  rewrite decode_short_group by now rewrite HX.
  reflexivity.
Qed.

Lemma dangling_character_rejected_witness :
  base64urlToArrayBuffer "QUJDR" = Throw InvalidCharacterError.
Proof.
  apply (dangling_character_rejected "QUJDR"); reflexivity.
Defined.

End Base64More_Facts.

(** ** More on the unit converter *)

Module UnitsMore.
Import Str StrFacts Units UnitsFacts NumFacts Base64Facts Text.

(** [X8] [stroopsToXlm] gives the same string for a number as for the bigint of
    the same value, for every integer below 2^53 in magnitude; for [NaN] and
    the infinities the conversion to bigint throws a [RangeError]. *)
Theorem number_argument_agrees :
  (forall k : Z, Z.abs k < 2 ^ 53 ->
     stroopsToXlm (NumberV (Num.of_Z k)) = stroopsToXlm (BigIntV k))
  /\ stroopsToXlm (NumberV Num.NaN) = Throw RangeError
  /\ stroopsToXlm (NumberV Num.Infinity) = Throw RangeError
  /\ stroopsToXlm (NumberV (S754_infinity true)) = Throw RangeError.
Proof.
  split; [| repeat split].
  intros k Hk. unfold stroopsToXlm, Num.of_Z.
  now rewrite binary_normalize_exact.
Qed.

Lemma number_argument_agrees_witness :
  stroopsToXlm (NumberV (Num.of_Z 10000001)) = stroopsToXlm (BigIntV 10000001).
Proof.
  destruct number_argument_agrees as [H _]. apply H. vm_compute. reflexivity.
Defined.

Lemma contains_cons (c a : ascii) (s : string) :
  contains c (String a s) = Ascii.eqb a c || contains c s.
Proof.
  unfold contains. cbn [all_chars]. rewrite negb_andb. now rewrite negb_involutive.
Qed.

Lemma contains_append_r (c : ascii) (s t : string) :
  contains c t = true -> contains c (s +:+ t) = true.
Proof.
  intros Ht. induction s as [| a s IH]; [exact Ht |].
  cbn [append]. rewrite contains_cons, IH. apply orb_true_r.
Qed.

(** Stripping a trailing run of [z] keeps every other character. *)
Lemma contains_strip_trailing (c z : ascii) (s : string) :
  Ascii.eqb c z = false ->
  contains c s = true -> contains c (strip_trailing z s) = true.
Proof.
  intros Hcz. induction s as [| a r IH]; [discriminate |].
  rewrite contains_cons. cbn [strip_trailing]. intros Hin.
  destruct (strip_trailing z r) as [| b r'] eqn:Estrip.
  - destruct (Ascii.eqb_spec a c) as [-> | Hac].
    + rewrite Hcz. rewrite contains_cons, Ascii.eqb_refl. reflexivity.
    + cbn [orb] in Hin. specialize (IH Hin). discriminate IH.
  - rewrite contains_cons.
    destruct (Ascii.eqb a c); [reflexivity |]. cbn [orb] in *. now apply IH.
Qed.

Lemma contains_not_empty (c : ascii) (s : string) :
  contains c s = true -> s <> "".
Proof. now destruct s. Qed.

Lemma digits_no_dot (w : string) (a v : N) :
  value_acc w a = Some v ->
  all_chars (fun x => negb (Ascii.eqb x ".")) w = true.
Proof.
  revert a. induction w as [| c w IH]; intros a Hw; [reflexivity |].
  cbn [value_acc] in Hw. cbn [all_chars].
  destruct (Ascii.eqb_spec c ".") as [-> | _]; [discriminate |].
  destruct (digit_value c); [| discriminate].
  now rewrite (IH _ Hw).
Qed.

Lemma of_Z_no_dot (z : Z) :
  all_chars (fun x => negb (Ascii.eqb x ".")) (Str.of_Z z) = true.
Proof.
  destruct z as [| p | p]; cbn [Str.of_Z all_chars];
    apply (digits_no_dot _ 0%N _ (value_of_N _)).
Qed.

Lemma split_dot_first (w f : string) :
  all_chars (fun x => negb (Ascii.eqb x ".")) w = true ->
  split_dot (w +:+ String "." f) = (w, Some f).
Proof.
  induction w as [| c w IH]; [reflexivity |].
  cbn [all_chars append split_dot]. intros [Hc Hw]%andb_true_iff.
  apply negb_true_iff in Hc. now rewrite Hc, (IH Hw).
Qed.

(** [X9] [stroopsToXlm] is written for counts that are not negative: for every
    negative count that is not a multiple of 10,000,000 the remainder keeps
    its sign, and the minus sign ends up among the fraction digits of the
    result (-1 gives "0.00000-1"). *)
Theorem negative_count_misrendered (n : Z) :
  n < 0 ->
  Z.rem n 10000000 <> 0 ->
  exists f,
    stroopsToXlm (BigIntV n)
    = Normal (Str.of_Z (Z.quot n 10000000) +:+ "." +:+ f)
    /\ split_dot (Str.of_Z (Z.quot n 10000000) +:+ "." +:+ f)
       = (Str.of_Z (Z.quot n 10000000), Some f)
    /\ contains "-" f = true.
Proof.
  intros Hneg Hrem.
  pose proof (Z.rem_nonpos n 10000000 ltac:(lia) ltac:(lia)) as Hbound.
  destruct (Z.rem n 10000000) as [| p | p] eqn:Er; [contradiction | lia |].
  set (f := strip_trailing "0" (padStart 7 "0" (Str.of_Z (Zneg p)))).
  assert (Hf : contains "-" f = true).
  { apply contains_strip_trailing; [reflexivity |].
    unfold padStart. apply contains_append_r.
    cbn [Str.of_Z]. rewrite contains_cons. reflexivity. }
  exists f. split; [| split; [| exact Hf]].
  - unfold stroopsToXlm. cbn [mbind completion_bind]. rewrite Er. fold f.
    pose proof (contains_not_empty _ _ Hf). now destruct f.
  - rewrite dot_append. apply split_dot_first, of_Z_no_dot.
Qed.

Lemma negative_count_misrendered_witness :
  exists f,
    stroopsToXlm (BigIntV (-1)) = Normal (Str.of_Z (Z.quot (-1) 10000000) +:+ "." +:+ f)
    /\ split_dot (Str.of_Z (Z.quot (-1) 10000000) +:+ "." +:+ f)
       = (Str.of_Z (Z.quot (-1) 10000000), Some f)
    /\ contains "-" f = true.
Proof.
  apply (negative_count_misrendered (-1)); [lia | vm_compute; discriminate].
Defined.

End UnitsMore.

(** ** Wallet creation *)

Module WalletFacts.
Import Stellar Base64 Base64Facts Effects Wallet.

(** [X10] The credential identifier determines the raw id: [atob] gives the raw id
    back, so two passkeys with different raw ids never share a credential
    identifier; and the contract identifier derived from the credential the
    UI stores is the one derived from the passkey itself. *)
Theorem credential_id_faithful `{sdk : Sdk} :
  (forall rawId : list byte,
     atob (credentialIdOf rawId) = Normal (fromCharCodes rawId)
     /\ charCodes (fromCharCodes rawId) = rawId)
  /\ (forall rawId1 rawId2 : list byte,
        credentialIdOf rawId1 = credentialIdOf rawId2 -> rawId1 = rawId2)
  /\ (forall (this : StellarSmartWalletService) (passkey : PasskeyRegistrationResult),
        deriveContractIdFromPasskey this (Some passkey)
        = (contractId ← deriveContractIdFromPasskeyId this
                          (cred_rawId (extractCredential passkey));
           Normal (Some contractId))).
Proof.
  assert (Hback : forall rawId : list byte,
     atob (credentialIdOf rawId) = Normal (fromCharCodes rawId)
     /\ charCodes (fromCharCodes rawId) = rawId).
  { intros rawId. split; [apply atob_btoa |].
    apply list_byte_of_string_of_list_byte. }
  split; [exact Hback |]. split; [| reflexivity].
  intros r1 r2 Heq.
  destruct (Hback r1) as [H1 <-]. destruct (Hback r2) as [H2 <-].
  rewrite Heq, H2 in H1. now injection H1 as ->.
Qed.

Lemma credential_id_faithful_witness :
  credentialIdOf [x01; x02] = "AQI=" /\ [x01; x02] = charCodes (fromCharCodes [x01; x02]).
Proof.
  split; [reflexivity |].
  destruct (@credential_id_faithful Doubles.toy_sdk) as (_ & H & _).
  apply (H [x01; x02] (charCodes (fromCharCodes [x01; x02]))). reflexivity.
Defined.

Section Service.
Context `{sdk : Sdk} `{platform : Cose.Platform}.
Context {Options Deployment RpcServer ContractAddress LedgerEntry : Type}.
Variable cbor_decode : list byte -> completion AttestationObject.
Variable decodeFirstSync : list byte -> completion Cose.decoded.
Variable Client_deploy : Signer -> DeployOptions -> completion Deployment.
Variable deployment_sign : Deployment -> string -> string -> completion unit.
Variable deployment_send : Deployment -> completion unit.
Variable rpc_Server : string -> completion RpcServer.
Variable Contract_address : string -> completion ContractAddress.
Variable getContractData : RpcServer -> ContractAddress -> completion LedgerEntry.

#[local] Abbreviation deploySmartWallet :=
  (Wallet.deploySmartWallet (Options := Options) cbor_decode decodeFirstSync
     Client_deploy).
#[local] Abbreviation createWallet :=
  (Wallet.createWallet (Options := Options) cbor_decode decodeFirstSync
     Client_deploy deployment_sign deployment_send).
#[local] Abbreviation contractExists :=
  (Wallet.contractExists rpc_Server Contract_address getContractData).

#[local] Abbreviation extractedKey :=
  (Wallet.extractedKey cbor_decode decodeFirstSync).

(** [X11] Whenever [deploySmartWallet] reaches [Client.deploy], the signer carries
    the key extracted from the attestation and the credential identifier, and
    the deployment is requested for the salt, the deployer and the network
    from which [deriveContractIdFromPasskey] derives the contract identifier
    of that passkey. *)
Theorem deployment_matches_derivation (this : StellarSmartWalletService)
    (passkey : PasskeyRegistrationResult) (signer : Signer) (opts : DeployOptions) :
  In (ClientDeploy signer opts) (fst (run (deploySmartWallet this passkey))) ->
  extractedKey passkey = Normal (signer_publicKey signer)
  /\ signer_tag signer = "Secp256r1"
  /\ signer_keyId signer = Buffer_from (credentialIdOf (reg_rawId passkey))
  /\ opt_salt opts = hash (Buffer_from (cred_rawId (extractCredential passkey)))
  /\ opt_publicKey opts = deployerAddress this
  /\ opt_networkPassphrase opts = networkPassphrase this
  /\ deriveContractIdFromPasskey this (Some passkey)
     = (address ← Address_fromString (opt_publicKey opts);
        Normal (Some (encodeContract (hash (toXDR
          (envelopeTypeContractId (hash (Buffer_from (opt_networkPassphrase opts)))
             (contractIdPreimageFromAddress address (opt_salt opts)))))))).
Proof.
  unfold run, Wallet.deploySmartWallet, Wallet.extractedKey.
  unfold mbind at 1 2, Logged_bind, bind, lift, await.
  destruct (cbor_decode _) as [decoded | e]; [| intros []].
  cbn [mbind completion_bind].
  destruct (Cose.extractRawPublicKeyFromAuthData _ _) as [key | e]; [| intros []].
  cbn [fst app In]. intros [[= <- <-] | []].
  cbn [signer_publicKey signer_tag signer_keyId opt_salt opt_publicKey
       opt_networkPassphrase extractCredential cred_rawId].
  repeat split.
  unfold deriveContractIdFromPasskey, deriveContractIdFromPasskeyId.
  destruct (Address_fromString _); reflexivity.
Qed.

Lemma prefix_of_refl_app {A} (l k : list A) : l `prefix_of` (l ++ k).
Proof. now exists k. Qed.

(** [X12] [createWallet] makes its calls in one order, each at most once: create
    the passkey, [Client.deploy], sign, send.  It returns the deployment only
    after all four; and when the key cannot be extracted from the new
    passkey, it throws that error without reaching [Client.deploy]. *)
Theorem createWallet_sequence (this : StellarSmartWalletService)
    (passkeyCreator : Options -> completion PasskeyRegistrationResult)
    (passkeyOptions : Options) :
  let log := fst (run (createWallet this passkeyCreator passkeyOptions)) in
  let result := snd (run (createWallet this passkeyCreator passkeyOptions)) in
  map kind log `prefix_of` [0; 1; 2; 3]%nat
  /\ (forall deployment, result = Normal deployment ->
      exists signer opts,
        log = [CreatePasskey passkeyOptions; ClientDeploy signer opts;
               SignDeployment (deployerAddress this) (networkPassphrase this);
               SendDeployment]
        /\ Client_deploy signer opts = Normal deployment)
  /\ (forall passkey e,
        passkeyCreator passkeyOptions = Normal passkey ->
        extractedKey passkey = Throw e ->
        log = [CreatePasskey passkeyOptions] /\ result = Throw e).
Proof.
  intros log result. subst log result.
  unfold run, Wallet.createWallet, Wallet.deploySmartWallet.
  unfold mbind, Logged_bind, bind, lift, await, ret. cbn [app].
  destruct (passkeyCreator passkeyOptions) as [passkey | e0] eqn:Ecreate;
    [destruct (cbor_decode (reg_attestationObject passkey))
       as [decoded | e1] eqn:Edec;
     [destruct (Cose.extractRawPublicKeyFromAuthData decodeFirstSync
                  (of_buffer (authData decoded))) as [key | e2] eqn:Ekey;
      [destruct (Client_deploy _ _) as [deployment | e3] eqn:Edeploy;
       [destruct (deployment_sign deployment _ _) as [[] | e4];
        [destruct (deployment_send deployment) as [[] | e5] |] |] |] |] |];
    cbn [fst snd app map kind];
    (split; [eexists; reflexivity |]);
    (split;
     [intros d Hd; first [discriminate Hd | injection Hd as <-; eauto]
     | intros p e Hc Hk; first [discriminate Hc | injection Hc as <-];
       unfold Wallet.extractedKey in Hk; rewrite Edec in Hk;
       cbn [mbind completion_bind] in Hk; rewrite ?Ekey in Hk;
       first [discriminate Hk | injection Hk as <-; auto]]).
Qed.

(** [X13] [contractExists] never throws: it answers [true] exactly when the RPC
    client could be built, the contract identifier parsed and the ledger
    entry read, and [false] for every failure among these, a failure of the
    network included. *)
Theorem contractExists_total (this : StellarSmartWalletService)
    (contractId : string) :
  exists b : bool,
    contractExists this contractId = Normal b
    /\ (b = true <->
        exists rpcClient contractAddress entry,
          rpc_Server (rpcUrl this) = Normal rpcClient
          /\ Contract_address contractId = Normal contractAddress
          /\ getContractData rpcClient contractAddress = Normal entry).
Proof.
  unfold Wallet.contractExists.
  destruct (rpc_Server (rpcUrl this)) as [rpcClient | e1] eqn:Erpc;
    cbn [mbind completion_bind].
  - destruct (Contract_address contractId) as [contractAddress | e2] eqn:Eaddr;
      cbn [mbind completion_bind].
    + destruct (getContractData rpcClient contractAddress) as [entry | e3] eqn:Eget.
      * exists true. split; [reflexivity |]. split; [eauto 6 | reflexivity].
      * exists false. split; [reflexivity |]. split; [discriminate |].
        intros (r & a & en & [= <-] & [= <-] & Hget). congruence.
    + exists false. split; [reflexivity |]. split; [discriminate |].
      intros (r & a & en & _ & Ha & _). discriminate Ha.
  - exists false. split; [reflexivity |]. split; [discriminate |].
    intros (r & a & en & Hr & _). discriminate Hr.
Qed.

End Service.

Import Doubles MoreDoubles.

Lemma deployment_matches_derivation_witness :
  Wallet.extractedKey (platform := toy_platform) toy_cbor_decode es256_decoder
    sample_passkey
  = Normal [x04; x0a; x0b; x0c; x0d]
  /\ opt_salt sample_deploy_options
     = @hash toy_sdk (Buffer_from (cred_rawId (extractCredential sample_passkey))).
Proof.
  destruct (@deployment_matches_derivation toy_sdk toy_platform unit unit
              toy_cbor_decode
              es256_decoder (fun _ _ => Normal tt) service_a sample_passkey
              sample_signer sample_deploy_options) as (H1 & _ & _ & H2 & _).
  - left. reflexivity.
  - split; [exact H1 | exact H2].
Defined.

Lemma createWallet_sequence_witness :
  fst (run (Wallet.createWallet (sdk := toy_sdk) (platform := toy_platform)
              (Options := unit)
              toy_cbor_decode no_map_decoder (fun _ _ => Normal tt)
              (fun _ _ _ => Normal tt) (fun _ => Normal tt) service_a
              (fun _ => Normal sample_passkey) tt))
  = [CreatePasskey tt]
  /\ snd (run (Wallet.createWallet (sdk := toy_sdk) (platform := toy_platform)
                 (Options := unit)
                 toy_cbor_decode no_map_decoder (fun _ _ => Normal tt)
                 (fun _ _ _ => Normal tt) (fun _ => Normal tt) service_a
                 (fun _ => Normal sample_passkey) tt))
     = Throw (Error "Invalid COSE key structure").
Proof.
  destruct (@createWallet_sequence toy_sdk toy_platform unit unit toy_cbor_decode
              no_map_decoder (fun _ _ => Normal tt) (fun _ _ _ => Normal tt)
              (fun _ => Normal tt) service_a (fun _ => Normal sample_passkey) tt)
    as (_ & _ & H).
  apply (H sample_passkey); reflexivity.
Defined.

End WalletFacts.

(** ** More on the transfer flow *)

Module TransferMore_Facts.
Import Stellar Units Transfer TransferMore.

Lemma not_finite_amount (x : number) :
  not_finite x = true ->
  to_BigInt (Math_round (mul x (Num.of_Z 10000000))) = Throw RangeError.
Proof.
  change (Num.of_Z 10000000) with (S754_finite false 5368709120000000 (-29)).
  destruct x as [s | s | | s m e]; try discriminate; reflexivity.
Qed.

Section Flow.
Context `{sdk : Sdk}.
Context {Account Operation SorobanData SendResult : Type}.
Variable resourceFee : SorobanData -> Z.
Variable rpc : @Services Account Operation SorobanData SendResult.

#[local] Abbreviation addFunds := (Transfer.addFunds resourceFee rpc).

(** Split on the answer of every constructor, call and builder of a run. *)
Ltac addFunds_answers :=
  unfold mbind, M_bind, Transfer.bind, Transfer.lift, Transfer.await,
    Transfer.throw, xlmToStroops;
  destruct (newSacClient rpc _ _ _) as [[] | ?e] eqn:Esac;
  [destruct (newHorizonServer rpc _) as [[] | ?e] eqn:Ehorizon;
   [destruct (newRpcServer rpc _) as [[] | ?e] eqn:Erpc;
    [destruct (loadAccount rpc _) as [?account | ?e] eqn:Eload;
     [destruct (to_BigInt _) as [?k | ?e] eqn:Ebig;
      [destruct (sacTransfer rpc _ _ _) as [?sacTx | ?e] eqn:Etransfer;
       [destruct (signAuthEntries rpc _ _) as [?operation | ?e] eqn:Esign;
        [destruct (buildTransaction rpc _) as [[] | ?e] eqn:Ebuild;
         [cbn [app];
          match goal with
          | |- context [simulateTransaction rpc ?t] =>
              destruct (simulateTransaction rpc t) as [rs | ?e] eqn:Esim;
              [destruct (transactionData rs) as [data |] eqn:Edata;
               [destruct (cloneTransaction rpc _ _ _) as [[] | ?e] eqn:Eclone;
                [destruct (buildFeeBumpTransaction rpc _) as [[] | ?e]
                   eqn:Ebump |] |] |]
          end |] |] |] |] |] |] |] |];
  cbn [fst snd app] in *.

(** Unfold a run of [addFunds] and split on its arguments and answers. *)
Ltac addFunds_cases contractId amount :=
  unfold run, Transfer.addFunds;
  destruct contractId as [contractId |];
  [destruct amount as [amount |]; [addFunds_answers |] |];
  cbn [fst snd app] in *.

(** [X14] [addFunds] makes its outside calls in one order, each at most once: load
    the account, build the transfer, sign its authorisation entries,
    simulate, send.  A run stops anywhere in that sequence, but never skips
    or repeats a step. *)
Theorem addFunds_call_order (this : StellarSmartWalletService)
    (contractId : option string) (amount : option number) :
  map step (fst (run (addFunds this contractId amount)))
    `prefix_of` [0; 1; 2; 3; 4]%nat.
Proof.
  addFunds_cases contractId amount; cbn [map step]; eexists; reflexivity.
Qed.

(** [X15] The arguments are checked before anything leaves the process, and
    an amount that is [NaN] or infinite never gets past the conversion to
    bigint: the run throws, and the only call it can have made is the load
    of the account, so no transfer is built, signed, simulated or sent.
    When the three clients of the SDK can be constructed the account is
    loaded, and when it loads the error is the [RangeError] of the
    conversion. *)
Theorem addFunds_rejects_before_transfer (this : StellarSmartWalletService)
    (contractId : option string) (amount : option number) :
  (contractId = None ->
   run (addFunds this contractId amount)
   = ([], Throw (Error "Contract ID is required")))
  /\ (contractId <> None -> amount = None ->
      run (addFunds this contractId amount)
      = ([], Throw (Error "Amount to transfer is required")))
  /\ (forall x, contractId <> None -> amount = Some x -> not_finite x = true ->
      (exists e, snd (run (addFunds this contractId amount)) = Throw e)
      /\ (fst (run (addFunds this contractId amount)) = []
          \/ fst (run (addFunds this contractId amount))
             = [LoadAccount (publicKey (submitterKeypair this))])
      /\ (newSacClient rpc (nativeContractId this) (rpcUrl this)
            (networkPassphrase this) = Normal tt ->
          newHorizonServer rpc (horizonUrl this) = Normal tt ->
          newRpcServer rpc (rpcUrl this) = Normal tt ->
          fst (run (addFunds this contractId amount))
          = [LoadAccount (publicKey (submitterKeypair this))]
          /\ forall account,
               loadAccount rpc (publicKey (submitterKeypair this))
               = Normal account ->
               snd (run (addFunds this contractId amount)) = Throw RangeError)).
Proof.
  split; [| split].
  - now intros ->.
  - intros Hc ->. destruct contractId; [reflexivity | contradiction].
  - intros x Hc -> Hx. destruct contractId as [c |]; [| contradiction].
    unfold run, Transfer.addFunds.
    unfold mbind, M_bind, Transfer.bind, Transfer.lift, Transfer.await,
      Transfer.throw, xlmToStroops.
    rewrite (not_finite_amount x Hx).
    destruct (newSacClient rpc _ _ _) as [[] | e1]; cbn [fst snd app];
      [| split; [eauto | split; [now left | discriminate]]].
    destruct (newHorizonServer rpc _) as [[] | e2]; cbn [fst snd app];
      [| split; [eauto | split; [now left | discriminate]]].
    destruct (newRpcServer rpc _) as [[] | e3]; cbn [fst snd app];
      [| split; [eauto | split; [now left | discriminate]]].
    destruct (loadAccount rpc _) as [account | e] eqn:Eload; cbn [fst snd app].
    + split; [eauto |]. split; [now right |]. intros _ _ _.
      split; reflexivity.
    + split; [eauto |]. split; [now right |]. intros _ _ _.
      split; [reflexivity |]. discriminate.
Qed.

Lemma sacTransfer_amount (this : StellarSmartWalletService)
    (contractId : string) (amount : number) (from to : string) (stroops : Z) :
  In (SacTransfer from to stroops)
     (fst (run (addFunds this (Some contractId) (Some amount)))) ->
  from = publicKey (submitterKeypair this)
  /\ to = contractId
  /\ to_BigInt (Math_round (mul amount (Num.of_Z 10000000))) = Normal stroops.
Proof.
  unfold run, Transfer.addFunds. addFunds_answers; cbn [In]; intros Hin;
    repeat (destruct Hin as [Hin | Hin]; [try discriminate Hin |]);
    try contradiction;
    injection Hin as <- <- <-; auto.
Qed.

(** [X16] The amount the SAC client is asked to transfer is the rounded stroop
    count of the argument, from the submitter to the given contract; no
    check of its sign is made on the way, so zero and negative counts reach
    the client. *)
Theorem addFunds_transfer_amount (this : StellarSmartWalletService)
    (contractId : option string) (amount : option number)
    (from to : string) (stroops : Z) :
  In (SacTransfer from to stroops) (fst (run (addFunds this contractId amount))) ->
  from = publicKey (submitterKeypair this)
  /\ contractId = Some to
  /\ exists x r, amount = Some x
                 /\ xlmToStroops x = Normal r
                 /\ to_BigInt r = Normal stroops.
Proof.
  destruct contractId as [contractId |]; [| intros []].
  destruct amount as [amount |]; [| intros []].
  intros Hin. apply sacTransfer_amount in Hin as (-> & -> & Hbig).
  split; [reflexivity |]. split; [reflexivity |].
  exists amount. eexists. split; [reflexivity |]. split; [reflexivity |].
  exact Hbig.
Qed.

(** [X17] What is sent is the simulated transaction re-priced: the fee-bump
    transaction wraps a transaction with the source, operation, timeout and
    network of the simulated one, carrying the simulated resource data, both
    signed once by the submitter, who is also the fee source; the simulated
    transaction itself had fee 0.  The result of [addFunds] is then the
    ledger's answer to [sendTransaction]. *)
Theorem addFunds_sends_simulated (this : StellarSmartWalletService)
    (contractId : option string) (amount : option number)
    (ftx : FeeBumpTransaction) :
  In (SendTransaction ftx) (fst (run (addFunds this contractId amount))) ->
  snd (run (addFunds this contractId amount)) = sendTransaction rpc ftx
  /\ exists tx rs data,
       In (SimulateTransaction tx) (fst (run (addFunds this contractId amount)))
       /\ simulateTransaction rpc tx = Normal rs
       /\ transactionData rs = Some data
       /\ tx_fee tx = "0"
       /\ tx_sorobanData tx = None
       /\ tx_signatures tx = [publicKey (submitterKeypair this)]
       /\ tx_source (fb_inner ftx) = tx_source tx
       /\ tx_operation (fb_inner ftx) = tx_operation tx
       /\ tx_timeout (fb_inner ftx) = tx_timeout tx
       /\ tx_networkPassphrase (fb_inner ftx) = networkPassphrase this
       /\ tx_sorobanData (fb_inner ftx) = Some data
       /\ tx_signatures (fb_inner ftx) = [publicKey (submitterKeypair this)]
       /\ fb_signatures ftx = [publicKey (submitterKeypair this)]
       /\ fb_feeSource ftx = publicKey (submitterKeypair this)
       /\ fb_networkPassphrase ftx = networkPassphrase this.
Proof.
  addFunds_cases contractId amount; cbn [In]; intros Hin;
    repeat (destruct Hin as [Hin | Hin]; [try discriminate Hin |]);
    try contradiction.
  injection Hin as <-. split; [reflexivity |].
  eexists; exists rs, data.
  split; [do 3 right; left; reflexivity |].
  split; [exact Esim |]. split; [exact Edata |].
  repeat split.
Qed.

End Flow.

End TransferMore_Facts.

(** ** The sign of a converted amount *)

Module SignFacts.
Import Units TransferMore.

Lemma binary_round_aux_not_negative (mx ex : Z) (lx : location) :
  not_negative (binary_round_aux prec emax false mx ex lx) = true.
Proof.
  unfold binary_round_aux.
  destruct (shr_fexp prec emax mx ex lx) as [mrs' e'].
  destruct (shr_fexp prec emax _ e' loc_Exact) as [mrs'' e''].
  destruct (shr_m mrs'') as [| m | m]; [reflexivity | | reflexivity].
  now destruct (e'' <=? emax - prec).
Qed.

Lemma product_not_negative (x : number) :
  not_negative x = true ->
  not_negative (mul x (Num.of_Z 10000000)) = true.
Proof.
  change (Num.of_Z 10000000) with (S754_finite false 5368709120000000 (-29)).
  destruct x as [s | s | | s m e]; cbn [not_negative]; intros Hs;
    try reflexivity.
  - now destruct s.
  - destruct s; [discriminate |]. apply binary_round_aux_not_negative.
Qed.

Lemma Math_round_not_negative (x : number) :
  not_negative x = true -> not_negative (Math_round x) = true.
Proof.
  destruct x as [s | s | | s m e]; cbn [Math_round]; try exact (fun H => H).
  intros Hs. destruct (Z.leb_spec 0 e) as [He | He]; [exact Hs |].
  destruct s; [discriminate |].
  assert (Hk : 0 <= round_half_up false m e).
  { unfold round_half_up.
    assert (0 < 2 ^ (- e)) by (apply Z.pow_pos_nonneg; lia).
    apply Z.div_pos; cbn [cond_Zopp]; lia. }
  destruct (round_half_up false m e) as [| k | k]; cbn [binary_normalize];
    [reflexivity | | lia].
  unfold binary_round. destruct (shl_align _ _ _) as [mz ez].
  apply binary_round_aux_not_negative.
Qed.

Lemma to_BigInt_not_negative (x : number) (k : Z) :
  not_negative x = true -> to_BigInt x = Normal k -> 0 <= k.
Proof.
  destruct x as [s | s | | s m e]; cbn [to_BigInt not_negative];
    try discriminate.
  - intros _ [= <-]. lia.
  - intros Hs. destruct s; [discriminate |]. cbn [cond_Zopp].
    destruct (Z.leb_spec 0 e) as [He | He].
    + intros [= <-]. apply Z.mul_nonneg_nonneg; [lia |].
      apply Z.pow_nonneg; lia.
    + destruct (_ =? 0); [| discriminate]. intros [= <-].
      apply Z.div_pos; [lia |]. apply Z.pow_pos_nonneg; lia.
Qed.

(** [X18] An amount that is not negative is never converted to a negative stroop
    count: the product with 10,000,000 and its rounding keep the sign, also
    when the product underflows to zero or overflows. *)
Theorem xlmToStroops_keeps_sign (xlm : number) (r : number) :
  not_negative xlm = true ->
  xlmToStroops xlm = Normal r ->
  not_negative r = true /\ (forall k, to_BigInt r = Normal k -> 0 <= k).
Proof.
  intros Hx [= <-].
  assert (Hr : not_negative (Math_round (mul xlm (Num.of_Z 10000000))) = true)
    by now apply Math_round_not_negative, product_not_negative.
  split; [exact Hr |]. intros k. now apply to_BigInt_not_negative.
Qed.

Lemma xlmToStroops_keeps_sign_witness :
  not_negative (Math_round (mul (Num.of_decimal 1 9) (Num.of_Z 10000000))) = true
  /\ (forall k,
        to_BigInt (Math_round (mul (Num.of_decimal 1 9) (Num.of_Z 10000000)))
        = Normal k -> 0 <= k).
Proof.
  apply (xlmToStroops_keeps_sign (Num.of_decimal 1 9)); reflexivity.
Defined.

End SignFacts.

(** ** The converted amount is an integer *)

Module IntegerFacts.
Import Units TransferMore NumFacts.

Lemma shr_exponent (mrs : shr_record) (e n : Z) : e <= snd (shr mrs e n).
Proof. unfold shr. destruct n; cbn [snd]; lia. Qed.

Lemma shr_fexp_exponent (m e : Z) (l : location) :
  e <= snd (shr_fexp prec emax m e l).
Proof. unfold shr_fexp. apply shr_exponent. Qed.

(** Rounding never lowers the exponent it is given. *)
Lemma binary_round_aux_exponent (s : bool) (mx ex : Z) (lx : location) :
  match binary_round_aux prec emax s mx ex lx with
  | S754_finite _ _ e => ex <= e
  | _ => True
  end.
Proof.
  unfold binary_round_aux.
  pose proof (shr_fexp_exponent mx ex lx) as H1.
  destruct (shr_fexp prec emax mx ex lx) as [mrs' e']. cbn [snd] in H1.
  match goal with
  | |- context [shr_fexp prec emax ?m e' loc_Exact] =>
      pose proof (shr_fexp_exponent m e' loc_Exact) as H2;
      destruct (shr_fexp prec emax m e' loc_Exact) as [mrs'' e'']
  end.
  cbn [snd] in H2.
  destruct (shr_m mrs''); [exact I | | exact I].
  destruct (e'' <=? emax - prec); [lia | exact I].
Qed.

Lemma integer_exponent (s : bool) (m : positive) (e : Z) :
  0 <= e -> exists k, to_BigInt (S754_finite s m e) = Normal k.
Proof.
  intros He. cbn [to_BigInt]. destruct (Z.leb_spec 0 e); [eauto | lia].
Qed.

(** The number of an integer is an integer, or an infinity. *)
Lemma binary_normalize_integer (k : Z) (s : bool) :
  (exists n, to_BigInt (binary_normalize prec emax k 0 s) = Normal n)
  \/ not_finite (binary_normalize prec emax k 0 s) = true.
Proof.
  destruct (Z.lt_ge_cases (Z.abs k) (2 ^ 53)) as [Hsmall | Hbig].
  { left. exists k. now apply binary_normalize_exact. }
  assert (Hround : forall sx (p : positive), 2 ^ 53 <= Zpos p ->
            (exists n, to_BigInt (binary_round prec emax sx p 0) = Normal n)
            \/ not_finite (binary_round prec emax sx p 0) = true).
  { intros sx p Hp. unfold binary_round, shl_align, fexp, emin.
    pose proof (digits2_pos_bound p) as [_ Hup].
    assert (Hd : 53 < Zpos (digits2_pos p)).
    { destruct (Z.lt_ge_cases 53 (Zpos (digits2_pos p))) as [H | H]; [exact H |].
      assert (2 ^ Zpos (digits2_pos p) <= 2 ^ 53)
        by (apply Z.pow_le_mono_r; lia).
      lia. }
    unfold prec, emax.
    destruct (Z.max (Zpos (digits2_pos p) + 0 - 53) (3 - 1024 - 53) - 0)
      as [| d | d] eqn:Ediff; try lia.
    pose proof (binary_round_aux_exponent sx (Zpos p) 0 loc_Exact) as Hexp.
    unfold prec, emax in Hexp.
    destruct (binary_round_aux 53 1024 sx (Zpos p) 0 loc_Exact)
      as [s0 | s0 | | s0 m0 e0]; cbn [not_finite]; auto.
    - left. now exists 0.
    - left. now apply integer_exponent. }
  destruct k as [| p | p]; cbn [binary_normalize]; [left; now exists 0 | |];
    apply Hround; lia.
Qed.

(** [X19] Whatever the amount, the converter returns an integer or one of [NaN],
    [Infinity], [-Infinity]: the conversion [BigInt(amountToTransfer)] of
    [addFunds] can fail on those three only, never on a fraction. *)
Theorem xlmToStroops_integer (xlm : number) :
  exists r,
    xlmToStroops xlm = Normal r
    /\ ((exists k, to_BigInt r = Normal k) \/ not_finite r = true).
Proof.
  unfold xlmToStroops. eexists. split; [reflexivity |].
  destruct (mul xlm (Num.of_Z 10000000)) as [s | s | | s m e];
    cbn [Math_round]; [left; now exists 0 | now right | now right |].
  destruct (Z.leb_spec 0 e) as [He | He].
  - left. now apply integer_exponent.
  - apply binary_normalize_integer.
Qed.

End IntegerFacts.

(** ** The transfer dialog *)

Module UiFacts.
Import Stellar Units Transfer TransferMore SignFacts TransferMore_Facts Effects Ui.

Lemma nonpositive_false_not_negative (x : number) :
  nonpositive x = false -> not_negative x = true.
Proof. destruct x as [s | s | | s m e]; try reflexivity; now destruct s. Qed.

Lemma falsy_false (s : string) : falsy s = false -> s <> "".
Proof. now destruct s. Qed.

Section Demo.
Context `{sdk : Sdk}.
Context {Account Operation SorobanData SendResult : Type}.
Variable resourceFee : SorobanData -> Z.
Variable rpc : @Services Account Operation SorobanData SendResult.
Variable Dialog_prompt : string -> string -> completion PromptResult.
Variable Dialog_alert : option string -> string -> completion unit.
Variable parseFloat : string -> number.
Variable status : SendResult -> string.
Variable describe : error -> string.
Variable DemoConfig : WalletServiceConfig.
Variable stellarService : option StellarSmartWalletService.

#[local] Abbreviation transfer :=
  (Ui.transfer resourceFee rpc Dialog_alert status describe DemoConfig stellarService).
#[local] Abbreviation askAmount :=
  (Ui.askAmount resourceFee rpc Dialog_prompt Dialog_alert parseFloat status
     describe DemoConfig stellarService).
#[local] Abbreviation withContract :=
  (Ui.withContract resourceFee rpc Dialog_prompt Dialog_alert parseFloat status
     describe DemoConfig stellarService).
#[local] Abbreviation askContract :=
  (Ui.askContract resourceFee rpc Dialog_prompt Dialog_alert parseFloat status
     describe DemoConfig stellarService).
#[local] Abbreviation addFunds :=
  (Ui.addFunds resourceFee rpc Dialog_prompt Dialog_alert parseFloat status
     describe DemoConfig stellarService).
#[local] Abbreviation served := (Ui.served resourceFee rpc DemoConfig stellarService).
#[local] Abbreviation contract_accepted := (Ui.contract_accepted Dialog_prompt).
#[local] Abbreviation amount_accepted := (Ui.amount_accepted Dialog_prompt parseFloat).
#[local] Abbreviation getSmartWalletSdk := (Ui.getSmartWalletSdk DemoConfig stellarService).
#[local] Abbreviation rejected_with := (Ui.rejected_with Dialog_prompt Dialog_alert).

Ltac unfold_logged :=
  unfold mbind, Logged_bind, Effects.bind, Effects.lift, Effects.await,
    Effects.ret, Effects.try_catch, Ui.ledger.

Lemma transfer_ledger_calls (contractId : string) (amount : number)
    (log : list call) (c : Transfer.call) :
  In (Ledger c) (fst (transfer contractId amount log)) ->
  In (Ledger c) log \/ served contractId amount c.
Proof.
  unfold Ui.transfer, Ui.served. unfold_logged.
  destruct getSmartWalletSdk as [this | e]; cbn [fst snd].
  - destruct (snd (Transfer.run _)) as [tx | e] eqn:Eresult;
      [destruct (Dialog_alert None _) |]; cbn [fst snd];
      rewrite !in_app_iff, ?in_map_iff; cbn [In];
      intros Hin; decompose [or] Hin; try discriminate; try contradiction;
      auto;
      match goal with
      | H : exists _, _ |- _ => destruct H as (c' & [= <-] & Hc)
      end; right; exists this; auto.
  - rewrite in_app_iff. cbn [In]. intros [H | [H | []]]; [auto | discriminate].
Qed.

Lemma askAmount_ledger_calls (contractId : string) (log : list call)
    (c : Transfer.call) :
  In (Ledger c) (fst (askAmount contractId log)) ->
  In (Ledger c) log
  \/ exists amount, amount_accepted None amount /\ served contractId amount c.
Proof.
  unfold Ui.askAmount. unfold_logged.
  destruct (Dialog_prompt "Amount" amountPrompt) as [r | e] eqn:Eprompt;
    cbn [fst snd].
  - destruct (cancelled r) eqn:Ecancelled; cbn [orb fst].
    { rewrite in_app_iff. cbn [In]. intros [H | [H | []]]; [auto | discriminate]. }
    destruct (falsy (value r)) eqn:Evalue; cbn [fst].
    { rewrite in_app_iff. cbn [In]. intros [H | [H | []]]; [auto | discriminate]. }
    destruct (isNaN (parseFloat (value r))) eqn:Enan; cbn [orb fst].
    { rewrite !in_app_iff. cbn [In].
      intros Hin; decompose [or] Hin; try discriminate; try contradiction; auto. }
    destruct (nonpositive (parseFloat (value r))) eqn:Epos; cbn [fst].
    { rewrite !in_app_iff. cbn [In].
      intros Hin; decompose [or] Hin; try discriminate; try contradiction; auto. }
    intros Hin. apply transfer_ledger_calls in Hin as [Hin | Hserved].
    + apply in_app_iff in Hin as [Hin | [Hin | []]]; [auto | discriminate].
    + right. exists (parseFloat (value r)). split; [| exact Hserved].
      split; [exact Epos |]. right. exists r.
      repeat split; auto using falsy_false.
  - rewrite in_app_iff. cbn [In]. intros [H | [H | []]]; [auto | discriminate].
Qed.

Lemma withContract_ledger_calls (contractId : string)
    (amountToTransfer : option number) (log : list call) (c : Transfer.call) :
  In (Ledger c) (fst (withContract contractId amountToTransfer log)) ->
  In (Ledger c) log
  \/ exists amount,
       amount_accepted amountToTransfer amount /\ served contractId amount c.
Proof.
  unfold Ui.withContract.
  assert (Hask : In (Ledger c) (fst (askAmount contractId log)) ->
                 In (Ledger c) log
                 \/ exists amount,
                      amount_accepted amountToTransfer amount
                      /\ served contractId amount c).
  { intros Hin. apply askAmount_ledger_calls in Hin as [Hin | (a & Ha & Hs)];
      [auto |].
    right. exists a. split; [| exact Hs].
    destruct Ha as [Hpos [[=] | Hprompt]]. split; auto. }
  destruct amountToTransfer as [a |]; [| exact Hask].
  destruct (nonpositive a) eqn:Epos; [exact Hask |].
  intros Hin. apply transfer_ledger_calls in Hin as [Hin | Hs]; [auto |].
  right. exists a. split; [| exact Hs]. split; auto.
Qed.

Lemma askContract_ledger_calls (contractIDParam : option string)
    (amountToTransfer : option number) (log : list call) (c : Transfer.call) :
  In (Ledger c) (fst (askContract amountToTransfer log)) ->
  In (Ledger c) log
  \/ exists contractId amount,
       contract_accepted contractIDParam contractId
       /\ amount_accepted amountToTransfer amount
       /\ served contractId amount c.
Proof.
  unfold Ui.askContract. unfold_logged.
  destruct (Dialog_prompt "Contract ID" _) as [r | e] eqn:Eprompt; cbn [fst snd].
  - destruct (cancelled r) eqn:Ecancelled; cbn [orb fst].
    { rewrite in_app_iff. cbn [In]. intros [H | [H | []]]; [auto | discriminate]. }
    destruct (falsy (value r)) eqn:Evalue; cbn [fst].
    { rewrite in_app_iff. cbn [In]. intros [H | [H | []]]; [auto | discriminate]. }
    intros Hin. apply withContract_ledger_calls in Hin as [Hin | (a & Ha & Hs)].
    + apply in_app_iff in Hin as [Hin | [Hin | []]]; [auto | discriminate].
    + right. exists (value r), a. split; [| auto].
      split; [now apply falsy_false |]. right. exists r. auto.
  - rewrite in_app_iff. cbn [In]. intros [H | [H | []]]; [auto | discriminate].
Qed.

Lemma addFunds_ledger_calls (contractIDParam : option string)
    (amountToTransfer : option number) (c : Transfer.call) :
  In (Ledger c) (fst (Effects.run (addFunds contractIDParam amountToTransfer))) ->
  exists contractId amount,
    contract_accepted contractIDParam contractId
    /\ amount_accepted amountToTransfer amount
    /\ served contractId amount c.
Proof.
  unfold Effects.run, Ui.addFunds.
  assert (Hask : In (Ledger c) (fst (askContract amountToTransfer [])) ->
                 exists contractId amount,
                   contract_accepted contractIDParam contractId
                   /\ amount_accepted amountToTransfer amount
                   /\ served contractId amount c).
  { intros Hin.
    now apply (askContract_ledger_calls contractIDParam) in Hin as [[] | H]. }
  destruct contractIDParam as [contractId |]; [| exact Hask].
  destruct (falsy contractId) eqn:Eid; [exact Hask |].
  intros Hin. apply withContract_ledger_calls in Hin as [[] | (a & Ha & Hs)].
  exists contractId, a. split; [| auto].
  split; [now apply falsy_false | now left].
Qed.

(** [X20] Every call the page makes to the ledger is made for a contract id that
    is not empty and an amount for which [amount <= 0] is false, each the
    caller's argument or the entry of a prompt that was not cancelled; and a
    transfer built on the way goes to that contract with a stroop count that
    is not negative. *)
Theorem page_transfers_validated (contractIDParam : option string)
    (amountToTransfer : option number) (c : Transfer.call) :
  In (Ledger c) (fst (Effects.run (addFunds contractIDParam amountToTransfer))) ->
  exists contractId amount,
    contract_accepted contractIDParam contractId
    /\ amount_accepted amountToTransfer amount
    /\ served contractId amount c
    /\ forall from to stroops,
         c = SacTransfer from to stroops -> to = contractId /\ 0 <= stroops.
Proof.
  intros Hin.
  apply addFunds_ledger_calls in Hin as (contractId & amount & Hc & Ha & Hs).
  exists contractId, amount.
  split; [exact Hc |]. split; [exact Ha |]. split; [exact Hs |].
  intros from to stroops ->. destruct Hs as (this & _ & Hlog).
  apply sacTransfer_amount in Hlog as (_ & -> & Hbig).
  split; [reflexivity |]. destruct Ha as [Hpos _].
  eapply to_BigInt_not_negative; [| exact Hbig].
  now apply Math_round_not_negative, product_not_negative,
    nonpositive_false_not_negative.
Qed.

Lemma last_await (log : list (@call Account Operation SorobanData))
    (c : call) : last (log ++ [c]) = Some c.
Proof. apply last_snoc. Qed.

Lemma transfer_throws (contractId : string) (amount : number)
    (log : list call) (e : error) :
  snd (transfer contractId amount log) = Throw e ->
  exists c, last (fst (transfer contractId amount log)) = Some c
            /\ rejected_with c e.
Proof.
  unfold Ui.transfer. unfold_logged.
  destruct getSmartWalletSdk as [this | e0]; cbn [fst snd].
  - destruct (snd (Transfer.run _)) as [tx | e0];
      [destruct (Dialog_alert None _) as [[] | e1] |]; cbn [fst snd];
      try discriminate; intros H; eexists; rewrite last_await;
      (split; [reflexivity | exact H]).
  - intros H. eexists. rewrite last_await. split; [reflexivity | exact H].
Qed.

Lemma askAmount_throws (contractId : string) (log : list call) (e : error) :
  snd (askAmount contractId log) = Throw e ->
  exists c, last (fst (askAmount contractId log)) = Some c /\ rejected_with c e.
Proof.
  unfold Ui.askAmount. unfold_logged.
  destruct (Dialog_prompt "Amount" amountPrompt) as [r | e0] eqn:Eprompt;
    cbn [fst snd].
  - destruct (cancelled r || falsy (value r)); [discriminate |].
    destruct (isNaN _ || nonpositive _); [| apply transfer_throws].
    cbn [fst snd]. intros H. eexists. rewrite last_await.
    split; [reflexivity | exact H].
  - intros [= <-]. eexists. rewrite last_await. split; [reflexivity | exact Eprompt].
Qed.

Lemma withContract_throws (contractId : string)
    (amountToTransfer : option number) (log : list call) (e : error) :
  snd (withContract contractId amountToTransfer log) = Throw e ->
  exists c, last (fst (withContract contractId amountToTransfer log)) = Some c
            /\ rejected_with c e.
Proof.
  unfold Ui.withContract.
  destruct amountToTransfer as [a |]; [| apply askAmount_throws].
  destruct (nonpositive a); [apply askAmount_throws | apply transfer_throws].
Qed.

Lemma askContract_throws (amountToTransfer : option number) (log : list call)
    (e : error) :
  snd (askContract amountToTransfer log) = Throw e ->
  exists c, last (fst (askContract amountToTransfer log)) = Some c
            /\ rejected_with c e.
Proof.
  unfold Ui.askContract. unfold_logged.
  destruct (Dialog_prompt "Contract ID" _) as [r | e0] eqn:Eprompt; cbn [fst snd].
  - destruct (cancelled r || falsy (value r)); [discriminate |].
    apply withContract_throws.
  - intros [= <-]. eexists. rewrite last_await. split; [reflexivity | exact Eprompt].
Qed.

(** [X21] The page's [addFunds] throws only what a dialog threw: when it ends in
    an error, the last call it made is a prompt or an alert, and the error is
    that dialog's rejection.  Failures of the wallet service and of its
    construction never escape. *)
Theorem page_throws_only_dialog_rejections (contractIDParam : option string)
    (amountToTransfer : option number) (e : error) :
  snd (Effects.run (addFunds contractIDParam amountToTransfer)) = Throw e ->
  exists c,
    last (fst (Effects.run (addFunds contractIDParam amountToTransfer))) = Some c
    /\ rejected_with c e.
Proof.
  unfold Effects.run, Ui.addFunds.
  destruct contractIDParam as [contractId |]; [| apply askContract_throws].
  destruct (falsy contractId); [apply askContract_throws | apply withContract_throws].
Qed.

(** [X22] With a contract id and an amount that pass the checks, no prompt is
    shown: the service is called, and exactly one alert follows its calls.
    A failure of the service is shown as "Failed to add funds: " and its
    message, and the result is that alert's answer; on success the status of
    the sent transaction is shown.  A rejection of the status alert is itself
    caught and shown as a failure to add funds, although the transaction has
    been sent. *)
Theorem page_shows_outcome (this : StellarSmartWalletService)
    (contractId : string) (amount : number) :
  contractId <> "" ->
  nonpositive amount = false ->
  getSmartWalletSdk = Normal this ->
  let service :=
    Transfer.run (Transfer.addFunds resourceFee rpc this (Some contractId)
                    (Some amount)) in
  let failed e := "Failed to add funds: " +:+ shown describe e in
  let started tx :=
    "The process of adding funds has started, status: " +:+ status tx in
  (forall e, snd service = Throw e ->
     Effects.run (addFunds (Some contractId) (Some amount))
     = (map Ledger (fst service) ++ [DialogAlert (Some "Error") (failed e)],
        Dialog_alert (Some "Error") (failed e)))
  /\ (forall tx, snd service = Normal tx ->
       Dialog_alert None (started tx) = Normal tt ->
       Effects.run (addFunds (Some contractId) (Some amount))
       = (map Ledger (fst service) ++ [DialogAlert None (started tx)], Normal tt))
  /\ (forall tx e, snd service = Normal tx ->
       Dialog_alert None (started tx) = Throw e ->
       Effects.run (addFunds (Some contractId) (Some amount))
       = (map Ledger (fst service)
            ++ [DialogAlert None (started tx); DialogAlert (Some "Error") (failed e)],
          Dialog_alert (Some "Error") (failed e))).
Proof.
  intros Hid Hpos Hsdk service failed started.
  unfold Effects.run, Ui.addFunds, Ui.withContract, Ui.transfer.
  destruct contractId as [| a s]; [contradiction |]. cbn [falsy].
  rewrite Hpos, Hsdk. unfold_logged. cbn [fst snd app]. fold service.
  repeat split.
  - intros e ->. reflexivity.
  - intros tx -> Halert. fold (started tx). rewrite Halert. reflexivity.
  - intros tx e -> Halert. fold (started tx). rewrite Halert. cbn [fst snd].
    now rewrite <- app_assoc.
Qed.

End Demo.

End UiFacts.

(** ** The plugin wrappers and signing in *)

Module PasskeyFacts.
Import Stellar Str Base64 Base64More_Facts Wallet Passkey.

Lemma bind_normal_inv {A B} (c : completion A) (k : A -> completion B) (b : B) :
  c ≫= k = Normal b -> exists a, c = Normal a /\ k a = Normal b.
Proof. destruct c as [a | e]; [eauto | discriminate]. Qed.

Section Plugin.
Context `{sdk : Sdk}.
Context {CreationOptions : Type}.
Variable PasskeyPlugin_createPasskey : CreationOptions -> completion PluginRegistration.
Variable PasskeyPlugin_authenticate : AuthenticationOptions -> completion PluginAssertion.

#[local] Abbreviation createPasskey := (Passkey.createPasskey PasskeyPlugin_createPasskey).
#[local] Abbreviation authenticate := (Passkey.authenticate PasskeyPlugin_authenticate).

(** [X23] A passkey found again at sign-in gives the credential stored at
    registration: when the plugin reports the raw id [raw] as unpadded
    base64url at registration, and at sign-in in any of the three forms
    (unpadded base64url, padded base64url, padded base64), both wrappers
    return [raw], both stored credentials carry [btoa] of it, and the
    contract identifiers derived from them are the same. *)
Theorem sign_in_finds_registered_credential
    (options : CreationOptions) (authOptions : AuthenticationOptions)
    (registered : PluginRegistration) (asserted : PluginAssertion)
    (raw : list byte)
    (registration : PasskeyRegistrationResult)
    (authentication : PasskeyAuthenticationResult) :
  PasskeyPlugin_createPasskey options = Normal registered ->
  PasskeyPlugin_authenticate authOptions = Normal asserted ->
  created_rawId registered = toBase64Url raw ->
  In (asserted_rawId asserted)
     [toBase64Url raw;
      replace_all "/" "_" (replace_all "+" "-" (btoa (fromCharCodes raw)));
      btoa (fromCharCodes raw)] ->
  createPasskey (Some options) = Normal registration ->
  authenticate authOptions = Normal authentication ->
  reg_rawId registration = raw
  /\ auth_rawId authentication = raw
  /\ cred_rawId (extractCredential registration) = btoa (fromCharCodes raw)
  /\ cred_rawId (extractCredentialOfAuthentication authentication)
     = cred_rawId (extractCredential registration)
  /\ forall this : StellarSmartWalletService,
       deriveContractIdFromPasskeyId this
         (cred_rawId (extractCredentialOfAuthentication authentication))
       = deriveContractIdFromPasskeyId this
           (cred_rawId (extractCredential registration)).
Proof.
  intros Hcreate Hauth Hreg Hass Hn Ha.
  assert (Hraw1 : reg_rawId registration = raw).
  { unfold Passkey.createPasskey in Hn. rewrite Hcreate in Hn.
    cbn [mbind completion_bind] in Hn. rewrite Hreg, decode_unpadded in Hn.
    cbn [mbind completion_bind] in Hn.
    apply bind_normal_inv in Hn as (att & _ & Hn).
    apply bind_normal_inv in Hn as (cdj & _ & [= <-]). reflexivity. }
  assert (Hdecoded : base64urlToArrayBuffer (asserted_rawId asserted) = Normal raw).
  { destruct (decode_padded raw) as [Hstd Hurl].
    destruct Hass as [<- | [<- | [<- | []]]];
      [apply decode_unpadded | exact Hurl | exact Hstd]. }
  assert (Hraw2 : auth_rawId authentication = raw).
  { unfold Passkey.authenticate in Ha. rewrite Hauth in Ha.
    cbn [mbind completion_bind] in Ha. rewrite Hdecoded in Ha.
    cbn [mbind completion_bind] in Ha.
    apply bind_normal_inv in Ha as (cdj & _ & Ha).
    apply bind_normal_inv in Ha as (ad & _ & Ha).
    apply bind_normal_inv in Ha as (sig & _ & Ha).
    apply bind_normal_inv in Ha as (uh & _ & [= <-]). reflexivity. }
  unfold extractCredential, extractCredentialOfAuthentication, credentialIdOf.
  cbn [cred_rawId]. rewrite Hraw1, Hraw2. repeat split.
Qed.

End Plugin.

End PasskeyFacts.

Module SignInFacts.
Import Stellar Base64 Effects Wallet Passkey SignIn.

Section Page.
Context `{sdk : Sdk}.
Context {RpcServer ContractAddress LedgerEntry : Type}.
Variable rpc_Server : string -> completion RpcServer.
Variable Contract_address : string -> completion ContractAddress.
Variable getContractData : RpcServer -> ContractAddress -> completion LedgerEntry.
Variable PasskeyPlugin_authenticate : AuthenticationOptions -> completion PluginAssertion.
Variable TextEncoder_encode : string -> list byte.
Variable JSON_parse : string -> completion StoredCredential.
Variable JSON_stringify : StoredCredential -> string.
Variable localStorage_setItem : string -> string -> completion unit.
Variable Dialog_alert : option string -> string -> completion unit.
Variable describe : error -> string.
Variable DemoConfig : WalletServiceConfig.
Variable DemoConfig_challenge DemoConfig_rpId : string.
Variable stellarService : option StellarSmartWalletService.

#[local] Abbreviation enter :=
  (SignIn.enter rpc_Server Contract_address getContractData Dialog_alert
     DemoConfig stellarService).
#[local] Abbreviation signIn :=
  (SignIn.signIn rpc_Server Contract_address getContractData
     PasskeyPlugin_authenticate TextEncoder_encode JSON_parse JSON_stringify
     localStorage_setItem Dialog_alert describe DemoConfig DemoConfig_challenge
     DemoConfig_rpId stellarService).
#[local] Abbreviation attempt :=
  (SignIn.attempt rpc_Server Contract_address getContractData
     PasskeyPlugin_authenticate TextEncoder_encode JSON_parse JSON_stringify
     localStorage_setItem Dialog_alert DemoConfig DemoConfig_challenge
     DemoConfig_rpId stellarService).
#[local] Abbreviation credentialInUse :=
  (SignIn.credentialInUse PasskeyPlugin_authenticate TextEncoder_encode
     JSON_parse JSON_stringify localStorage_setItem DemoConfig_challenge
     DemoConfig_rpId).
#[local] Abbreviation contractExists :=
  (Wallet.contractExists rpc_Server Contract_address getContractData).
#[local] Abbreviation getSmartWalletSdk := (Ui.getSmartWalletSdk DemoConfig stellarService).

Ltac unfold_logged :=
  unfold mbind, Logged_bind, Effects.bind, Effects.lift, Effects.await,
    Effects.ret.

(** What [enter] does, by cases on the answers it gets. *)
Lemma enter_cases (credential : StoredCredential) (log : list call) :
  (exists e, enter credential log = (log, Throw e))
  \/ (exists r, enter credential log
                = (log ++ [DialogAlert None noContractMessage], r)
                /\ r = Dialog_alert None noContractMessage)
  \/ (exists this contractId,
        getSmartWalletSdk = Normal this
        /\ deriveContractIdFromPasskeyId this (cred_rawId credential)
           = Normal contractId
        /\ contractExists this contractId = Normal true
        /\ enter credential log = (log ++ [PostLogin contractId], Normal tt)).
Proof.
  unfold SignIn.enter. unfold_logged.
  destruct getSmartWalletSdk as [this | e]; [| left; eauto].
  destruct (deriveContractIdFromPasskeyId this _) as [contractId | e] eqn:Eid;
    [| left; eauto].
  destruct (contractExists this contractId) as [[] | e] eqn:Eexists;
    cbn [negb]; [| right; left; eauto | left; eauto].
  right. right. exists this, contractId. auto.
Qed.

Lemma last_call (log : list call) (c : call) : last (log ++ [c]) = Some c.
Proof. apply last_snoc. Qed.

(** The [try] block, by cases: the calls that obtain the credential come
    first; then it throws, or tells that no contract was found, or shows the
    wallet. *)
Lemma attempt_cases (stored : option string) :
  exists prefix,
    forallb obtains_credential prefix = true
    /\ (forall c s, stored = Some (String c s) -> prefix = [])
    /\ ((exists e, attempt stored [] = (prefix, Throw e))
        \/ attempt stored []
           = (prefix ++ [DialogAlert None noContractMessage],
              Dialog_alert None noContractMessage)
        \/ (exists this credential contractId,
              credentialInUse stored credential
              /\ getSmartWalletSdk = Normal this
              /\ deriveContractIdFromPasskeyId this (cred_rawId credential)
                 = Normal contractId
              /\ contractExists this contractId = Normal true
              /\ attempt stored [] = (prefix ++ [PostLogin contractId], Normal tt))).
Proof.
  assert (Hplugin :
    exists prefix,
      forallb obtains_credential prefix = true
      /\ prefix <> []
      /\ ((exists e, attempt None [] = (prefix, Throw e))
          \/ attempt None []
             = (prefix ++ [DialogAlert None noContractMessage],
                Dialog_alert None noContractMessage)
          \/ (exists this credential contractId,
                credentialInUse None credential
                /\ getSmartWalletSdk = Normal this
                /\ deriveContractIdFromPasskeyId this (cred_rawId credential)
                   = Normal contractId
                /\ contractExists this contractId = Normal true
                /\ attempt None [] = (prefix ++ [PostLogin contractId], Normal tt)))).
  { unfold SignIn.attempt, SignIn.credentialInUse. unfold_logged. cbn [app].
    destruct (authenticate PasskeyPlugin_authenticate _) as [authResult | e]
      eqn:Eauth.
    2:{ eexists. split; [| split]. 3: { left. eauto. }
        - reflexivity.
        - discriminate. }
    destruct (localStorage_setItem _ _) as [[] | e] eqn:Eset.
    2:{ eexists. split; [| split]. 3: { left. eauto. }
        - reflexivity.
        - discriminate. }
    exists [PluginAuthenticate
              (assembleAuthenticateOptions TextEncoder_encode
                 DemoConfig_challenge DemoConfig_rpId);
            StorageSet CREDENTIAL_STORAGE_KEY
              (JSON_stringify (extractCredentialOfAuthentication authResult))].
    split; [| split]; [reflexivity | discriminate |].
    destruct (enter_cases (extractCredentialOfAuthentication authResult)
                [PluginAuthenticate
                   (assembleAuthenticateOptions TextEncoder_encode
                      DemoConfig_challenge DemoConfig_rpId);
                 StorageSet CREDENTIAL_STORAGE_KEY
                   (JSON_stringify (extractCredentialOfAuthentication authResult))])
      as [(e & H) | [(r & H & ->) | (this & id & Hsdk & Hid & Hex & H)]];
      rewrite H; [left; eauto | right; left; reflexivity |].
    right. right. exists this, (extractCredentialOfAuthentication authResult), id.
    repeat split; eauto. }
  destruct stored as [[| c s] |].
  - destruct Hplugin as (prefix & Hq & _ & H). exists prefix.
    split; [exact Hq |]. split; [discriminate | exact H].
  - exists []. split; [reflexivity |]. split; [reflexivity |].
    unfold SignIn.attempt, SignIn.credentialInUse. unfold_logged.
    destruct (JSON_parse (String c s)) as [credential | e] eqn:Eparse;
      [| left; eauto].
    destruct (enter_cases credential [])
      as [(e & H) | [(r & H & ->) | (this & id & Hsdk & Hid & Hex & H)]];
      rewrite H; [left; eauto | right; left; reflexivity |].
    right. right. exists this, credential, id. auto.
  - destruct Hplugin as (prefix & Hq & _ & H). exists prefix.
    split; [exact Hq |]. split; [discriminate | exact H].
Qed.

Lemma no_entry_while_obtaining (prefix : list call) (contractId : string) :
  forallb obtains_credential prefix = true -> ~ In (PostLogin contractId) prefix.
Proof.
  intros Hq Hin. rewrite forallb_forall in Hq. now apply Hq in Hin.
Qed.

(** [X24] [signIn] shows the wallet only for a contract that exists: whenever it
    reaches [postLoginActions], the contract identifier is the one derived
    from the credential in use (the stored one, or the one just obtained
    from the plugin and written to the storage) and [contractExists]
    answered true for it; that call is the last one, and [signIn] returns
    normally. *)
Theorem signIn_enters_existing_contract (stored : option string)
    (contractId : string) :
  In (PostLogin contractId) (fst (Effects.run (signIn stored))) ->
  exists this credential,
    credentialInUse stored credential
    /\ getSmartWalletSdk = Normal this
    /\ deriveContractIdFromPasskeyId this (cred_rawId credential)
       = Normal contractId
    /\ contractExists this contractId = Normal true
    /\ last (fst (Effects.run (signIn stored))) = Some (PostLogin contractId)
    /\ snd (Effects.run (signIn stored)) = Normal tt.
Proof.
  unfold Effects.run, SignIn.signIn, Effects.try_catch, Effects.await.
  destruct (attempt_cases stored)
    as (prefix & Hq & _ & [(e & H) | [H | (this & cr & id & Hcr & Hsdk & Hid & Hex & H)]]);
    rewrite H; cbn [fst snd].
  - rewrite in_app_iff. intros [Hin | [[=] | []]].
    now apply no_entry_while_obtaining in Hin.
  - assert (Hno : ~ In (PostLogin contractId)
                      (prefix ++ [DialogAlert None noContractMessage])).
    { rewrite in_app_iff. intros [Hin | [[=] | []]].
      now apply no_entry_while_obtaining in Hin. }
    destruct (Dialog_alert None noContractMessage) as [[] | e]; cbn [fst];
      [contradiction |].
    rewrite in_app_iff. intros [Hin | [[=] | []]]. contradiction.
  - rewrite in_app_iff. intros [Hin | [[= ->] | []]];
      [now apply no_entry_while_obtaining in Hin |].
    exists this, cr. rewrite last_call. auto 10.
Qed.

(** [X25] [signIn] always ends by showing the wallet or by telling the user: its
    last call is [postLoginActions], the notice that no contract was found,
    or the alert "Failed to sign in: " with the message of what was thrown;
    and it throws only when that last alert is rejected. *)
Theorem signIn_always_concludes (stored : option string) :
  let log := fst (Effects.run (signIn stored)) in
  let result := snd (Effects.run (signIn stored)) in
  (exists contractId, last log = Some (PostLogin contractId) /\ result = Normal tt)
  \/ (last log = Some (DialogAlert None noContractMessage) /\ result = Normal tt)
  \/ (exists e,
        last log = Some (DialogAlert (Some "Error")
                           ("Failed to sign in: " +:+ Ui.shown describe e))
        /\ result = Dialog_alert (Some "Error")
                      ("Failed to sign in: " +:+ Ui.shown describe e)).
Proof.
  unfold Effects.run, SignIn.signIn, Effects.try_catch, Effects.await,
    SignIn.failedMessage.
  destruct (attempt_cases stored)
    as (prefix & Hq & _ & [(e & H) | [H | (this & cr & id & _ & _ & _ & _ & H)]]);
    rewrite H; cbn [fst snd].
  - right. right. exists e. now rewrite last_call.
  - destruct (Dialog_alert None noContractMessage) as [[] | e]; cbn [fst snd].
    + right. left. now rewrite last_call.
    + right. right. exists e. now rewrite last_call.
  - left. exists id. now rewrite last_call.
Qed.

(** [X26] A credential found in the storage is used as it is: with a stored text
    that is not empty, [signIn] calls neither the plugin nor
    [localStorage.setItem]. *)
Theorem stored_credential_skips_plugin (a : ascii) (s : string) (c : call) :
  In c (fst (Effects.run (signIn (Some (String a s))))) ->
  obtains_credential c = false.
Proof.
  unfold Effects.run, SignIn.signIn, Effects.try_catch, Effects.await.
  destruct (attempt_cases (Some (String a s)))
    as (prefix & _ & Hnil & [(e & H) | [H | (this & cr & id & _ & _ & _ & _ & H)]]);
    rewrite H, (Hnil a s eq_refl); cbn [fst snd app].
  - intros [<- | []]. reflexivity.
  - destruct (Dialog_alert None noContractMessage) as [[] | e]; cbn [fst snd app].
    + intros [<- | []]. reflexivity.
    + intros [<- | [<- | []]]; reflexivity.
  - intros [<- | []]. reflexivity.
Qed.

End Page.

End SignInFacts.

(** ** The balance shown *)

Module BalanceFacts.
Import Stellar Units UnitsFacts Effects Wallet Passkey Balance.

Section Page.
Context `{sdk : Sdk}.
Variable newSacClient : string -> string -> string -> completion unit.
Variable sacBalance : string -> completion Z.
Variable PasskeyPlugin_authenticate : AuthenticationOptions -> completion PluginAssertion.
Variable TextEncoder_encode : string -> list byte.
Variable Dialog_alert : option string -> string -> completion unit.
Variable describe : error -> string.
Variable DemoConfig : WalletServiceConfig.
Variable DemoConfig_challenge DemoConfig_rpId : string.
Variable stellarService : option StellarSmartWalletService.

#[local] Abbreviation getWalletBalance :=
  (Balance.getWalletBalance newSacClient sacBalance PasskeyPlugin_authenticate
     TextEncoder_encode Dialog_alert describe DemoConfig DemoConfig_challenge
     DemoConfig_rpId stellarService).
#[local] Abbreviation getSmartWalletSdk := (Ui.getSmartWalletSdk DemoConfig stellarService).

(** [X27] The balance [getWalletBalance] returns for a stored credential is the
    balance of the contract derived from that credential, and its text reads
    back to exactly the stroop count the ledger answered, when that count is
    not negative.  The plugin is not called, and no alert is shown. *)
Theorem balance_shown_exactly (credential : StoredCredential) (text : string) :
  snd (Effects.run (getWalletBalance (Some credential))) = Normal (Some text) ->
  exists this contractId balance,
    getSmartWalletSdk = Normal this
    /\ deriveContractIdFromPasskeyId this (cred_rawId credential) = Normal contractId
    /\ sacBalance contractId = Normal balance
    /\ fst (Effects.run (getWalletBalance (Some credential))) = [SacBalance contractId]
    /\ stroopsToXlm (BigIntV balance) = Normal text
    /\ (0 <= balance -> subunits_of_decimal text = Some (Z.to_N balance)).
Proof.
  unfold Effects.run, Balance.getWalletBalance, Balance.getWalletBalanceByContract,
    Effects.try_catch.
  unfold mbind, Logged_bind, mret, Logged_ret, Effects.bind, Effects.lift,
    Effects.await, Effects.ret.
  destruct getSmartWalletSdk as [this | e];
    [| destruct (Dialog_alert _ _); discriminate].
  destruct (deriveContractIdFromPasskeyId this _) as [contractId | e] eqn:Eid;
    [| destruct (Dialog_alert _ _); discriminate].
  destruct (newSacClient _ _ _) as [[] | e];
    [| destruct (Dialog_alert _ _); discriminate].
  cbn [app].
  destruct (sacBalance contractId) as [balance | e] eqn:Ebalance;
    [| destruct (Dialog_alert _ _); discriminate].
  destruct (stroopsToXlm (BigIntV balance)) as [t | e] eqn:Etext;
    [| destruct (Dialog_alert _ _); discriminate].
  cbn [fst snd]. intros [= <-].
  exists this, contractId, balance.
  split; [reflexivity |]. split; [exact Eid |]. split; [exact Ebalance |].
  split; [reflexivity |]. split; [exact Etext |].
  intros Hpos. rewrite (stroopsToXlm_refines balance Hpos) in Etext.
  injection Etext as <-. apply toBaseUnit_spec_exact.
Qed.

(** [X28] [getWalletBalance] returns [undefined] exactly after a failure, which it
    has shown in the alert "Failed to get wallet balance: " with the message
    of the error; it throws only when that alert is rejected. *)
Theorem balance_failure_shown (credentialParam : option StoredCredential) :
  let log := fst (Effects.run (getWalletBalance credentialParam)) in
  let result := snd (Effects.run (getWalletBalance credentialParam)) in
  (exists text, result = Normal (Some text)
                /\ forall title message, ~ In (DialogAlert title message) log)
  \/ (exists e,
        last log = Some (DialogAlert (Some "Error")
                           ("Failed to get wallet balance: " +:+ Ui.shown describe e))
        /\ (result = Normal None
            /\ Dialog_alert (Some "Error")
                 ("Failed to get wallet balance: " +:+ Ui.shown describe e)
               = Normal tt
            \/ exists e', result = Throw e'
                          /\ Dialog_alert (Some "Error")
                               ("Failed to get wallet balance: "
                                +:+ Ui.shown describe e) = Throw e')).
Proof.
  unfold Effects.run, Balance.getWalletBalance, Balance.getWalletBalanceByContract,
    Effects.try_catch, Balance.failedMessage.
  unfold mbind, Logged_bind, mret, Logged_ret, Effects.bind, Effects.lift,
    Effects.await, Effects.ret.
  assert (Hfail : forall (log : list call) e,
    let alert := DialogAlert (Some "Error")
                   ("Failed to get wallet balance: " +:+ Ui.shown describe e) in
    let answer := Dialog_alert (Some "Error")
                    ("Failed to get wallet balance: " +:+ Ui.shown describe e) in
    exists e0,
      last (fst (let (log', c) := (log ++ [alert], answer) in
                 match c with
                 | Normal _ => (log', Normal (@None string))
                 | Throw e1 => (log', Throw e1)
                 end))
      = Some (DialogAlert (Some "Error")
                ("Failed to get wallet balance: " +:+ Ui.shown describe e0))
      /\ (snd (let (log', c) := (log ++ [alert], answer) in
               match c with
               | Normal _ => (log', Normal (@None string))
               | Throw e1 => (log', Throw e1)
               end) = Normal None
          /\ Dialog_alert (Some "Error")
               ("Failed to get wallet balance: " +:+ Ui.shown describe e0)
             = Normal tt
          \/ exists e',
               snd (let (log', c) := (log ++ [alert], answer) in
                    match c with
                    | Normal _ => (log', Normal (@None string))
                    | Throw e1 => (log', Throw e1)
                    end) = Throw e'
               /\ Dialog_alert (Some "Error")
                    ("Failed to get wallet balance: " +:+ Ui.shown describe e0)
                  = Throw e')).
  { intros log e alert answer. exists e. subst alert answer.
    destruct (Dialog_alert _ _) as [[] | e'] eqn:Ealert; cbn [fst snd];
      rewrite last_snoc; (split; [reflexivity |]); [left | right]; eauto. }
  destruct getSmartWalletSdk as [this | e]; [| right; apply Hfail].
  destruct credentialParam as [credential |].
  - destruct (deriveContractIdFromPasskeyId this _) as [contractId | e];
      [| right; apply Hfail].
    destruct (newSacClient _ _ _) as [[] | e]; [| right; apply Hfail].
    destruct (sacBalance contractId) as [balance | e]; [| right; apply Hfail].
    destruct (stroopsToXlm (BigIntV balance)) as [t | e]; [| right; apply Hfail].
    left. exists t. split; [reflexivity |].
    cbn [fst app]. intros title message [[=] | []].
  - destruct (authenticate PasskeyPlugin_authenticate _) as [authResult | e];
      [| right; apply Hfail].
    destruct (deriveContractIdFromPasskeyId this _) as [contractId | e];
      [| right; apply Hfail].
    destruct (newSacClient _ _ _) as [[] | e]; [| right; apply Hfail].
    destruct (sacBalance contractId) as [balance | e]; [| right; apply Hfail].
    destruct (stroopsToXlm (BigIntV balance)) as [t | e]; [| right; apply Hfail].
    left. exists t. split; [reflexivity |].
    cbn [fst app]. intros title message [[=] | [[=] | []]].
Qed.

End Page.

End BalanceFacts.

(** ** The transfer flow and the dialog on sample inputs *)

Module MoreWitnesses.
Import Stellar Units Base64 Str Transfer TransferMore Effects Ui Wallet Passkey
  Doubles MoreDoubles.

Lemma addFunds_rejects_before_transfer_witness :
  fst (Transfer.run (Transfer.addFunds (sdk := toy_sdk) id accepting_ledger
                       service_a (Some "CWALLET") (Some Num.NaN)))
  = [LoadAccount "GSUBMITTER"]
  /\ snd (Transfer.run (Transfer.addFunds (sdk := toy_sdk) id accepting_ledger
                          service_a (Some "CWALLET") (Some Num.NaN)))
     = Throw RangeError.
Proof.
  destruct (@TransferMore_Facts.addFunds_rejects_before_transfer toy_sdk _ _ _ _
              id accepting_ledger service_a (Some "CWALLET") (Some Num.NaN))
    as (_ & _ & H).
  destruct (H Num.NaN ltac:(discriminate) eq_refl eq_refl) as (_ & _ & Hloaded).
  destruct (Hloaded eq_refl eq_refl eq_refl) as [Hlog Herror].
  split; [exact Hlog | exact (Herror tt eq_refl)].
Defined.

(** When the SDK refuses the RPC address, nothing is called at all. *)
Lemma refused_rpc_makes_no_call :
  Transfer.run (Transfer.addFunds (sdk := toy_sdk) id refused_rpc service_a
                  (Some "CWALLET") (Some Num.NaN))
  = ([], Throw (Error "Cannot connect to insecure Soroban RPC server")).
Proof. reflexivity. Qed.

Lemma addFunds_transfer_amount_witness :
  "GSUBMITTER" = publicKey (Sdk := toy_sdk) (submitterKeypair service_a)
  /\ Some "CWALLET" = Some "CWALLET"
  /\ exists x r, Some (Num.of_Z (-1)) = Some x
                 /\ xlmToStroops x = Normal r
                 /\ to_BigInt r = Normal (-10000000).
Proof.
  apply (@TransferMore_Facts.addFunds_transfer_amount toy_sdk _ _ _ _
           id accepting_ledger service_a (Some "CWALLET") (Some (Num.of_Z (-1)))
           "GSUBMITTER" "CWALLET" (-10000000)).
  vm_compute. right. left. reflexivity.
Defined.

Lemma addFunds_sends_simulated_witness :
  snd (Transfer.run (Transfer.addFunds (sdk := toy_sdk) id accepting_ledger
                       service_a (Some "CWALLET") (Some (Num.of_Z 50))))
  = sendTransaction accepting_ledger sample_fee_bump
  /\ exists tx rs data,
       In (SimulateTransaction tx)
          (fst (Transfer.run (Transfer.addFunds (sdk := toy_sdk) id
                                accepting_ledger service_a (Some "CWALLET")
                                (Some (Num.of_Z 50)))))
       /\ simulateTransaction accepting_ledger tx = Normal rs
       /\ transactionData rs = Some data
       /\ tx_fee tx = "0"
       /\ tx_sorobanData tx = None
       /\ tx_signatures tx = ["GSUBMITTER"]
       /\ tx_source (fb_inner sample_fee_bump) = tx_source tx
       /\ tx_operation (fb_inner sample_fee_bump) = tx_operation tx
       /\ tx_timeout (fb_inner sample_fee_bump) = tx_timeout tx
       /\ tx_networkPassphrase (fb_inner sample_fee_bump)
          = "Test SDF Network ; September 2015"
       /\ tx_sorobanData (fb_inner sample_fee_bump) = Some data
       /\ tx_signatures (fb_inner sample_fee_bump) = ["GSUBMITTER"]
       /\ fb_signatures sample_fee_bump = ["GSUBMITTER"]
       /\ fb_feeSource sample_fee_bump = "GSUBMITTER"
       /\ fb_networkPassphrase sample_fee_bump
          = "Test SDF Network ; September 2015".
Proof.
  apply (@TransferMore_Facts.addFunds_sends_simulated toy_sdk _ _ _ _
           id accepting_ledger service_a (Some "CWALLET") (Some (Num.of_Z 50))
           sample_fee_bump).
  vm_compute. do 4 right. left. reflexivity.
Defined.

Lemma page_transfers_validated_witness :
  exists contractId amount,
    Ui.contract_accepted sample_prompt None contractId
    /\ Ui.amount_accepted sample_prompt sample_parseFloat None amount
    /\ Ui.served (sdk := toy_sdk) id accepting_ledger sample_config
         (Some service_a) contractId amount
         (SacTransfer "GSUBMITTER" "CWALLET" 25000000)
    /\ forall from to stroops,
         SacTransfer "GSUBMITTER" "CWALLET" 25000000
         = SacTransfer (Account := unit) (Operation := unit) (SorobanData := Z)
             from to stroops ->
         to = contractId /\ 0 <= stroops.
Proof.
  apply (@UiFacts.page_transfers_validated toy_sdk _ _ _ _ id accepting_ledger
           sample_prompt quiet_alert sample_parseFloat id (fun _ => "Unknown error")
           sample_config (Some service_a) None None).
  vm_compute. do 3 right. left. reflexivity.
Defined.

Lemma page_throws_only_dialog_rejections_witness :
  exists c,
    last (fst (Effects.run
                 (Ui.addFunds (sdk := toy_sdk) id accepting_ledger sample_prompt
                    failing_alert sample_parseFloat id (fun _ => "Unknown error")
                    sample_config (Some service_a) (Some "CWALLET")
                    (Some (Num.of_Z 50)))))
    = Some c
    /\ Ui.rejected_with sample_prompt failing_alert c (External "dialog unavailable").
Proof.
  apply (@UiFacts.page_throws_only_dialog_rejections toy_sdk _ _ _ _ id
           accepting_ledger sample_prompt failing_alert sample_parseFloat id
           (fun _ => "Unknown error") sample_config (Some service_a)
           (Some "CWALLET") (Some (Num.of_Z 50)) (External "dialog unavailable")).
  reflexivity.
Defined.

Lemma page_shows_outcome_witness :
  Effects.run
    (Ui.addFunds (sdk := toy_sdk) id failing_simulation sample_prompt
       quiet_alert sample_parseFloat id (fun _ => "Unknown error")
       sample_config None (Some "CWALLET") (Some (Num.of_Z 50)))
  = ([Ledger (LoadAccount "GSUBMITTER");
      Ledger (SacTransfer "GSUBMITTER" "CWALLET" 500000000);
      Ledger (SignAuthEntries "GSUBMITTER");
      Ledger (SimulateTransaction
                {| tx_source := tt; tx_fee := "0";
                   tx_networkPassphrase := "Test SDF Network ; September 2015";
                   tx_operation := tt; tx_timeout := 300;
                   tx_sorobanData := None;
                   tx_signatures := ["GSUBMITTER"] |});
      DialogAlert (Some "Error") "Failed to add funds: Simulation failed"],
     Normal tt).
Proof.
  destruct (@UiFacts.page_shows_outcome toy_sdk _ _ _ _ id failing_simulation
              sample_prompt quiet_alert sample_parseFloat id
              (fun _ => "Unknown error") sample_config None service_a
              "CWALLET" (Num.of_Z 50) ltac:(discriminate) eq_refl eq_refl)
    as (H & _).
  exact (H (Error "Simulation failed") eq_refl).
Defined.

Lemma sign_in_finds_registered_credential_witness :
  reg_rawId sample_passkey = [x01; x02]
  /\ auth_rawId sample_authentication = [x01; x02]
  /\ cred_rawId (extractCredential sample_passkey) = btoa (fromCharCodes [x01; x02])
  /\ cred_rawId (extractCredentialOfAuthentication sample_authentication)
     = cred_rawId (extractCredential sample_passkey)
  /\ forall this : StellarSmartWalletService (sdk := toy_sdk),
       deriveContractIdFromPasskeyId this
         (cred_rawId (extractCredentialOfAuthentication sample_authentication))
       = deriveContractIdFromPasskeyId this
           (cred_rawId (extractCredential sample_passkey)).
Proof.
  apply (@PasskeyFacts.sign_in_finds_registered_credential toy_sdk unit
           sample_registration_plugin sample_assertion_plugin tt
           sample_authentication_options
           {| created_id := "AQI"; created_rawId := "AQI";
              created_attestationObject := "ow"; created_clientDataJSON := "" |}
           {| asserted_id := "AQI"; asserted_rawId := "AQI=";
              asserted_clientDataJSON := "e30";
              asserted_authenticatorData := "AA"; asserted_signature := "MEU";
              asserted_userHandle := None |}
           [x01; x02] sample_passkey sample_authentication).
  - reflexivity.
  - reflexivity.
  - reflexivity.
  - vm_compute. do 2 right. left. reflexivity.
  - reflexivity.
  - reflexivity.
Defined.

Lemma signIn_enters_existing_contract_witness :
  exists this credential,
    SignIn.credentialInUse sample_assertion_plugin (fun _ => []) sample_JSON_parse
      sample_JSON_stringify (fun _ _ => Normal tt) "challenge" "localhost"
      (Some "stored") credential
    /\ Ui.getSmartWalletSdk (sdk := toy_sdk) sample_config (Some service_a)
       = Normal this
    /\ deriveContractIdFromPasskeyId this (cred_rawId credential)
       = Normal sample_contract
    /\ Wallet.contractExists (fun _ => Normal tt) (fun _ => Normal tt)
         every_contract_exists this sample_contract = Normal true
    /\ last (fst (Effects.run
                    (SignIn.signIn (sdk := toy_sdk) (fun _ => Normal tt)
                       (fun _ => Normal tt) every_contract_exists
                       sample_assertion_plugin (fun _ => []) sample_JSON_parse
                       sample_JSON_stringify (fun _ _ => Normal tt) quiet_alert
                       (fun _ => "Unknown error") sample_config "challenge"
                       "localhost" (Some service_a) (Some "stored"))))
       = Some (SignIn.PostLogin sample_contract)
    /\ snd (Effects.run
              (SignIn.signIn (sdk := toy_sdk) (fun _ => Normal tt)
                 (fun _ => Normal tt) every_contract_exists
                 sample_assertion_plugin (fun _ => []) sample_JSON_parse
                 sample_JSON_stringify (fun _ _ => Normal tt) quiet_alert
                 (fun _ => "Unknown error") sample_config "challenge"
                 "localhost" (Some service_a) (Some "stored")))
       = Normal tt.
Proof.
  apply (@SignInFacts.signIn_enters_existing_contract toy_sdk unit unit unit
           (fun _ => Normal tt) (fun _ => Normal tt) every_contract_exists
           sample_assertion_plugin (fun _ => []) sample_JSON_parse
           sample_JSON_stringify (fun _ _ => Normal tt) quiet_alert
           (fun _ => "Unknown error") sample_config "challenge" "localhost"
           (Some service_a) (Some "stored") sample_contract).
  vm_compute. left. reflexivity.
Defined.

Lemma stored_credential_skips_plugin_witness :
  SignIn.obtains_credential (SignIn.PostLogin sample_contract) = false.
Proof.
  apply (@SignInFacts.stored_credential_skips_plugin toy_sdk unit unit unit
           (fun _ => Normal tt) (fun _ => Normal tt) every_contract_exists
           sample_assertion_plugin (fun _ => []) sample_JSON_parse
           sample_JSON_stringify (fun _ _ => Normal tt) quiet_alert
           (fun _ => "Unknown error") sample_config "challenge" "localhost"
           (Some service_a) "s" "tored" (SignIn.PostLogin sample_contract)).
  vm_compute. left. reflexivity.
Defined.

Lemma balance_shown_exactly_witness :
  exists this contractId balance,
    Ui.getSmartWalletSdk (sdk := toy_sdk) sample_config (Some service_a)
    = Normal this
    /\ deriveContractIdFromPasskeyId this "AQI=" = Normal contractId
    /\ (fun _ : string => Normal 12345678) contractId = Normal balance
    /\ fst (Effects.run
              (Balance.getWalletBalance (sdk := toy_sdk)
                 (fun _ _ _ => Normal tt) (fun _ => Normal 12345678)
                 sample_assertion_plugin
                 (fun _ => []) quiet_alert (fun _ => "Unknown error")
                 sample_config "challenge" "localhost" (Some service_a)
                 (Some {| cred_id := "AQI"; cred_rawId := "AQI=" |})))
       = [Balance.SacBalance contractId]
    /\ stroopsToXlm (BigIntV balance) = Normal "1.2345678"
    /\ (0 <= balance -> subunits_of_decimal "1.2345678" = Some (Z.to_N balance)).
Proof.
  apply (@BalanceFacts.balance_shown_exactly toy_sdk (fun _ _ _ => Normal tt)
           (fun _ => Normal 12345678)
           sample_assertion_plugin (fun _ => []) quiet_alert
           (fun _ => "Unknown error") sample_config "challenge" "localhost"
           (Some service_a) {| cred_id := "AQI"; cred_rawId := "AQI=" |}
           "1.2345678").
  reflexivity.
Defined.

Lemma balance_failure_shown_witness :
  last (fst (Effects.run
               (Balance.getWalletBalance (sdk := toy_sdk)
                  (fun _ _ _ => Normal tt)
                  (fun _ => Throw (External "network")) sample_assertion_plugin
                  (fun _ => []) quiet_alert (fun _ => "Unknown error")
                  sample_config "challenge" "localhost" (Some service_a) None)))
  = Some (Balance.DialogAlert (Some "Error")
            "Failed to get wallet balance: Unknown error")
  /\ snd (Effects.run
            (Balance.getWalletBalance (sdk := toy_sdk)
               (fun _ _ _ => Normal tt)
               (fun _ => Throw (External "network")) sample_assertion_plugin
               (fun _ => []) quiet_alert (fun _ => "Unknown error")
               sample_config "challenge" "localhost" (Some service_a) None))
     = Normal None.
Proof.
  destruct (@BalanceFacts.balance_failure_shown toy_sdk
              (fun _ _ _ => Normal tt)
              (fun _ => Throw (External "network")) sample_assertion_plugin
              (fun _ => []) quiet_alert (fun _ => "Unknown error")
              sample_config "challenge" "localhost" (Some service_a) None)
    as [(text & Htext & _) | (e & Hlast & [[Hresult _] | (e' & _ & Halert)])].
  - discriminate Htext.
  - split; [reflexivity | exact Hresult].
  - discriminate Halert.
Defined.

Lemma contractExists_total_witness :
  exists b : bool,
    Wallet.contractExists (sdk := toy_sdk) (fun _ => Normal tt)
      (fun _ => Normal tt)
      (fun _ _ : unit => @Throw unit (External "not found")) service_a
      "CWALLET" = Normal b
    /\ (b = true <->
        exists (rpcClient contractAddress entry : unit),
          (fun _ : string => Normal tt) (rpcUrl service_a) = Normal rpcClient
          /\ (fun _ : string => Normal tt) "CWALLET" = Normal contractAddress
          /\ (fun _ _ : unit => @Throw unit (External "not found"))
               rpcClient contractAddress = Normal entry).
Proof.
  apply (@WalletFacts.contractExists_total toy_sdk unit unit unit
           (fun _ => Normal tt) (fun _ => Normal tt)
           (fun _ _ => @Throw unit (External "not found")) service_a "CWALLET").
Defined.

End MoreWitnesses.
